(** * SearXNG MCP server: dispatcher, tool engine, SSE registry, pipe framing

    A shallow embedding of [mcp_http_sse_server.py] and
    [mcp_stdio_server.py].

    Conventions of the embedding.
    - A Python [str] is represented by its UTF-8 encoding, a [string] with
      one [ascii] per byte; [str.encode('utf-8')] is then the identity and
      a [bytes] value is a [string] too.  Operations that Python performs
      per character ([len], slicing, iteration, [strip]) go through
      [py_chars], which cuts the bytes at code-point boundaries.
    - A value that came out of [json.loads] is a [json]; JSON numbers are
      the integers ([Z]), floating-point numbers are not represented.
    - A Python operation that can raise returns an [outcome]; a [try] is a
      [match] on it.
    - Whatever lives outside the process (the SearXNG instance, the fetched
      page, the HTML converter, the text of an exception, the random UUID)
      is a [Variable] of the section that uses it. *)

From Stdlib Require Import ZArith Ascii String List Lia Bool.
From stdpp Require Import gmap strings list fin_maps.

Set Warnings "-register-all".
Local Open Scope Z_scope.

(** ** JSON values and Python exceptions *)

Inductive json : Type :=
| JNull
| JBool (b : bool)
| JNum (n : Z)
| JStr (s : string)
| JArr (items : list json)
| JObj (fields : list (string * json)).

(** The exception classes the modelled code can meet. *)
Inductive exn : Type :=
| AttributeError
| TypeError
| ValueError
| KeyError
| UnicodeDecodeError
| IncompleteReadError
| JSONDecodeError
| OtherError (msg : string).

Inductive outcome (A : Type) : Type :=
| Ret (a : A)
| Raise (e : exn).
Arguments Ret {A} a.
Arguments Raise {A} e.

(** Sequencing stops at the first exception; [x ← m; k] is stdpp's
    notation for it. *)
#[global] Instance outcome_bind : MBind outcome := fun A B k m =>
  match m with
  | Ret a => k a
  | Raise e => Raise e
  end.

(** ** Strings *)

Definition str_of_bytes (l : list nat) : string :=
  fold_right (fun n s => String (ascii_of_nat n) s) EmptyString l.

Definition LF : string := str_of_bytes [10%nat].
Definition CR : string := str_of_bytes [13%nat].

(** [needle in hay] on strings. *)
Fixpoint str_contains (needle hay : string) : bool :=
  String.prefix needle hay ||
  match hay with
  | EmptyString => false
  | String _ rest => str_contains needle rest
  end.

(** [sep.join(parts)]. *)
Fixpoint str_join (sep : string) (parts : list string) : string :=
  match parts with
  | [] => EmptyString
  | [p] => p
  | p :: rest => p +:+ sep +:+ str_join sep rest
  end.

(** A byte that continues a UTF-8 sequence (10xxxxxx). *)
Definition is_continuation (c : ascii) : bool :=
  let n := nat_of_ascii c in (128 <=? n)%nat && (n <? 192)%nat.

(** Gathers the continuation bytes that follow a lead byte. *)
Fixpoint take_continuation (s : string) : string * string :=
  match s with
  | String c rest =>
      if is_continuation c
      then let '(k, r) := take_continuation rest in (String c k, r)
      else (EmptyString, s)
  | EmptyString => (EmptyString, EmptyString)
  end.

Fixpoint py_chars_fuel (fuel : nat) (s : string) : list string :=
  match fuel, s with
  | S fuel', String c rest =>
      let '(k, r) := take_continuation rest in
      String c k :: py_chars_fuel fuel' r
  | _, _ => []
  end.

(** The characters of a [str], each as the string of its bytes. *)
Definition py_chars (s : string) : list string :=
  py_chars_fuel (String.length s) s.

Definition py_len (s : string) : Z := Z.of_nat (length (py_chars s)).

(** [seq[:n]] on a Python sequence given as a list: a negative bound counts
    from the end. *)
Definition slice_to {A : Type} (l : list A) (n : Z) : list A :=
  if 0 <=? n then firstn (Z.to_nat n) l
  else firstn (length l - Z.to_nat (- n)) l.

Definition str_concat (parts : list string) : string :=
  fold_right String.append EmptyString parts.

(** The characters for which [str.isspace] holds. *)
Definition whitespace_chars : list string :=
  map str_of_bytes
    [ [9]; [10]; [11]; [12]; [13]; [28]; [29]; [30]; [31]; [32];
      [194; 133]; [194; 160]; [225; 154; 128];
      [226; 128; 128]; [226; 128; 129]; [226; 128; 130]; [226; 128; 131];
      [226; 128; 132]; [226; 128; 133]; [226; 128; 134]; [226; 128; 135];
      [226; 128; 136]; [226; 128; 137]; [226; 128; 138];
      [226; 128; 168]; [226; 128; 169]; [226; 128; 175];
      [226; 129; 159]; [227; 128; 128] ]%nat.

Definition is_space (ch : string) : bool :=
  existsb (String.eqb ch) whitespace_chars.

Fixpoint drop_space (l : list string) : list string :=
  match l with
  | ch :: rest => if is_space ch then drop_space rest else l
  | [] => []
  end.

(** [s.strip()]. *)
Definition py_strip (s : string) : string :=
  str_concat (rev (drop_space (rev (drop_space (py_chars s))))).

Definition digit_char (d : Z) : ascii := ascii_of_nat (48 + Z.to_nat d).

(** The decimal digits of [n], most significant first, put before [acc]. *)
Fixpoint digits_fuel (fuel : nat) (n : Z) (acc : string) : string :=
  match fuel with
  | O => acc
  | S fuel' =>
      let acc' := String (digit_char (n mod 10)) acc in
      if n <? 10 then acc' else digits_fuel fuel' (n / 10) acc'
  end.

Definition digits (n : Z) : string :=
  digits_fuel (S (Z.to_nat (Z.log2 n))) n EmptyString.

(** [str(n)] for an integer. *)
Definition dec (n : Z) : string :=
  if n <? 0 then String "-"%char (digits (- n)) else digits n.

(** ** Python's dynamic operations on JSON values *)

Fixpoint dict_get (d : list (string * json)) (k : string) : option json :=
  match d with
  | [] => None
  | (k', v) :: rest => if String.eqb k' k then Some v else dict_get rest k
  end.

(** [d[k] = v]: replaces in place, else appends (insertion order). *)
Fixpoint dict_set (d : list (string * json)) (k : string) (v : json)
  : list (string * json) :=
  match d with
  | [] => [(k, v)]
  | (k', v') :: rest =>
      if String.eqb k' k then (k, v) :: rest else (k', v') :: dict_set rest k v
  end.

(** [x.get(k, default)]: only a dict has the method. *)
Definition py_get (x : json) (k : string) (fallback : json) : outcome json :=
  match x with
  | JObj d => Ret (default fallback (dict_get d k))
  | _ => Raise AttributeError
  end.

(** [x[k]] for a string key. *)
Definition py_getitem (x : json) (k : string) : outcome json :=
  match x with
  | JObj d => match dict_get d k with Some v => Ret v | None => Raise KeyError end
  | _ => Raise TypeError
  end.

(** [k in x] for a string [k]. *)
Definition py_in (k : string) (x : json) : outcome bool :=
  match x with
  | JObj d => Ret (match dict_get d k with Some _ => true | None => false end)
  | JArr l =>
      Ret (existsb (fun v => match v with JStr s => String.eqb s k | _ => false end) l)
  | JStr s => Ret (str_contains k s)
  | _ => Raise TypeError
  end.

(** [bool(x)]. *)
Definition truthy (x : json) : bool :=
  match x with
  | JNull => false
  | JBool b => b
  | JNum n => negb (n =? 0)
  | JStr s => negb (String.eqb s EmptyString)
  | JArr l => match l with [] => false | _ => true end
  | JObj d => match d with [] => false | _ => true end
  end.

(** [x == s] for a string literal [s]. *)
Definition is_str (x : json) (s : string) : bool :=
  match x with
  | JStr s' => String.eqb s' s
  | _ => false
  end.

(** The elements a [for] loop sees. *)
Definition py_iter (x : json) : outcome (list json) :=
  match x with
  | JArr l => Ret l
  | JStr s => Ret (map JStr (py_chars s))
  | JObj d => Ret (map (fun kv => JStr (fst kv)) d)
  | _ => Raise TypeError
  end.

(** [x[:n]]. *)
Definition py_slice_to (x n : json) : outcome json :=
  match x with
  | JArr l =>
      match n with
      | JNull => Ret (JArr l)
      | JNum k => Ret (JArr (slice_to l k))
      | JBool b => Ret (JArr (slice_to l (if b then 1 else 0)))
      | _ => Raise TypeError
      end
  | JStr s =>
      match n with
      | JNull => Ret (JStr s)
      | JNum k => Ret (JStr (str_concat (slice_to (py_chars s) k)))
      | JBool b => Ret (JStr (str_concat (slice_to (py_chars s) (if b then 1 else 0))))
      | _ => Raise TypeError
      end
  | _ => Raise TypeError
  end.

Definition DQ : string := str_of_bytes [34%nat].

(** [', '.join(x)]: every element the iteration yields must be a [str]. *)
Fixpoint all_strings (l : list json) : outcome (list string) :=
  match l with
  | [] => Ret []
  | JStr s :: rest => ss ← all_strings rest; Ret (s :: ss)
  | _ :: _ => Raise TypeError
  end.

Definition py_join (sep : string) (x : json) : outcome string :=
  items ← py_iter x;
  parts ← all_strings items;
  Ret (str_join sep parts).

(** Inserts a comma before every group of three digits, counted from the
    right; the digits come in reversed. *)
Fixpoint group3 (rev_digits : string) (in_group : nat) : string :=
  match rev_digits with
  | EmptyString => EmptyString
  | String d rest =>
      match in_group with
      | 3%nat => String ","%char (String d (group3 rest 1))
      | _ => String d (group3 rest (S in_group))
      end
  end.

Definition str_rev (s : string) : string :=
  string_of_list_ascii (rev (list_ascii_of_string s)).

(** [f"{n:,}"] for an integer. *)
Definition dec_grouped (n : Z) : string :=
  let body := str_rev (group3 (str_rev (dec (Z.abs n))) 0) in
  if n <? 0 then "-" +:+ body else body.

(** [f"{x:,}"]. *)
Definition py_format_grouped (x : json) : outcome string :=
  match x with
  | JNum n => Ret (dec_grouped n)
  | JBool b => Ret (if b then "1" else "0")
  | JStr _ => Raise ValueError
  | _ => Raise TypeError
  end.

(** [a > b] between an integer and a JSON value. *)
Definition py_int_gt (a : Z) (b : json) : outcome bool :=
  match b with
  | JNum n => Ret (n <? a)
  | JBool t => Ret ((if t then 1 else 0) <? a)
  | _ => Raise TypeError
  end.

(** ** Configuration ([config.py]) *)

Record Config : Type := {
  SEARXNG_URL : string;
  HOST : string;
  PORT : Z;
  MCP_SERVER_NAME : string;
  MCP_SERVER_VERSION : string;
  LOG_LEVEL : string;
  DEFAULT_MAX_RESULTS : Z;
  REQUEST_TIMEOUT : Z
}.

(** The values [os.getenv] falls back to. *)
Definition default_config : Config := {|
  SEARXNG_URL := "http://searxng:8080";
  HOST := "0.0.0.0";
  PORT := 8091;
  MCP_SERVER_NAME := "searxng-mcp-server";
  MCP_SERVER_VERSION := "1.0.0";
  LOG_LEVEL := "INFO";
  DEFAULT_MAX_RESULTS := 10;
  REQUEST_TIMEOUT := 30
|}.

(** ** What an HTTP request of [self.session] can come back with *)

Inductive http_failure : Type :=
| HttpTimeout                       (* asyncio.TimeoutError *)
| HttpException (e : exn).          (* any other Exception *)

Record http_response : Type := {
  resp_status : Z;
  resp_content_type : option string;            (* the Content-Type header *)
  resp_text : http_failure + string;            (* await resp.text() *)
  resp_json : http_failure + json               (* await resp.json() *)
}.

(** ** Tool definitions *)

Definition schema_property (type description : string)
    (more : list (string * json)) : json :=
  JObj ([("type", JStr type); ("description", JStr description)] ++ more).

Definition input_schema (properties : list (string * json))
    (required : string) : json :=
  JObj [("type", JStr "object");
        ("properties", JObj properties);
        ("required", JArr [JStr required])].

Definition tool_schema (name description : string) (schema : json) : json :=
  JObj [("name", JStr name);
        ("description", JStr description);
        ("inputSchema", schema)].

Definition time_range_enum : (string * json) :=
  ("enum", JArr [JStr "day"; JStr "month"; JStr "year"]).

Definition safesearch_enum : (string * json) :=
  ("enum", JArr [JNum 0; JNum 1; JNum 2]).

Definition TOOLS : list json :=
  [ tool_schema "web_search"
      ("Realiza uma busca geral na web usando SearXNG (metabuscador que agrega "
       +:+ "resultados de Google, Bing, DuckDuckGo, Brave, etc). "
       +:+ "Retorna títulos, URLs, snippets e engines de origem.")
      (input_schema
         [ ("query", schema_property "string" "Termo de busca" []);
           ("categories", schema_property "string"
              "Categorias separadas por vírgula (ex: general, it, science, social media). Padrão: general"
              [("default", JStr "general")]);
           ("engines", schema_property "string"
              "Engines específicas separadas por vírgula (ex: google,bing,duckduckgo). Opcional." []);
           ("language", schema_property "string"
              "Código do idioma (ex: pt-BR, en, es). Padrão: pt-BR"
              [("default", JStr "pt-BR")]);
           ("time_range", schema_property "string"
              "Filtro temporal: day, month, year. Opcional." [time_range_enum]);
           ("pageno", schema_property "integer"
              "Número da página de resultados. Padrão: 1" [("default", JNum 1)]);
           ("safesearch", schema_property "integer"
              "Nível de SafeSearch: 0 (desligado), 1 (moderado), 2 (estrito). Padrão: 0"
              [safesearch_enum; ("default", JNum 0)]);
           ("max_results", schema_property "integer"
              "Número máximo de resultados a retornar. Padrão: 10"
              [("default", JNum 10)]) ]
         "query");
    tool_schema "news_search"
      ("Busca notícias recentes na web via SearXNG. "
       +:+ "Atalho para busca na categoria 'news'. "
       +:+ "Retorna títulos, URLs, datas e fontes.")
      (input_schema
         [ ("query", schema_property "string" "Termo de busca para notícias" []);
           ("language", schema_property "string"
              "Código do idioma (ex: pt-BR, en). Padrão: pt-BR"
              [("default", JStr "pt-BR")]);
           ("time_range", schema_property "string"
              "Filtro temporal: day, month, year. Opcional." [time_range_enum]);
           ("pageno", schema_property "integer"
              "Página de resultados. Padrão: 1" [("default", JNum 1)]);
           ("max_results", schema_property "integer"
              "Máximo de resultados. Padrão: 10" [("default", JNum 10)]) ]
         "query");
    tool_schema "images_search"
      ("Busca imagens na web via SearXNG. "
       +:+ "Retorna URLs das imagens, thumbnails, títulos e fontes.")
      (input_schema
         [ ("query", schema_property "string" "Termo de busca para imagens" []);
           ("engines", schema_property "string"
              "Engines específicas (ex: google images, bing images). Opcional." []);
           ("language", schema_property "string"
              "Código do idioma. Padrão: pt-BR" [("default", JStr "pt-BR")]);
           ("safesearch", schema_property "integer"
              "SafeSearch: 0, 1, 2. Padrão: 1"
              [safesearch_enum; ("default", JNum 1)]);
           ("pageno", schema_property "integer"
              "Página de resultados. Padrão: 1" [("default", JNum 1)]);
           ("max_results", schema_property "integer"
              "Máximo de resultados. Padrão: 10" [("default", JNum 10)]) ]
         "query");
    tool_schema "fetch_page_content"
      ("Busca o conteúdo de uma URL e retorna como texto Markdown limpo. "
       +:+ "Útil para ler o conteúdo de páginas encontradas nas buscas. "
       +:+ "Remove scripts, estilos e elementos desnecessários.")
      (input_schema
         [ ("url", schema_property "string" "URL da página a ser lida" []);
           ("max_length", schema_property "integer"
              "Tamanho máximo do conteúdo em caracteres. Padrão: 20000"
              [("default", JNum 20000)]) ]
         "url") ].

(** The default a tool's schema declares for one of its arguments. *)
Definition declared_default (tool arg : string) : option json :=
  match List.find (fun t => match py_getitem t "name" with
                            | Ret n => is_str n tool
                            | Raise _ => false
                            end) TOOLS with
  | Some t =>
      match (schema ← py_getitem t "inputSchema";
             props ← py_getitem schema "properties";
             p ← py_getitem props arg;
             py_getitem p "default") with
      | Ret v => Some v
      | Raise _ => None
      end
  | None => None
  end.

(** ** Stdio transport ([mcp_stdio_server.py]) *)

(** [bytes.decode('utf-8')] succeeds on well-formed UTF-8 only. *)
Definition in_range (lo hi : nat) (c : ascii) : bool :=
  let n := nat_of_ascii c in (lo <=? n)%nat && (n <=? hi)%nat.

Fixpoint utf8_valid (s : string) : bool :=
  match s with
  | EmptyString => true
  | String a r1 =>
      if in_range 0 127 a then utf8_valid r1
      else
        match r1 with
        | EmptyString => false
        | String b r2 =>
            if in_range 194 223 a then in_range 128 191 b && utf8_valid r2
            else
              match r2 with
              | EmptyString => false
              | String c r3 =>
                  if in_range 224 239 a then
                    (if in_range 224 224 a then in_range 160 191 b
                     else if in_range 237 237 a then in_range 128 159 b
                     else in_range 128 191 b)
                    && in_range 128 191 c && utf8_valid r3
                  else
                    match r3 with
                    | EmptyString => false
                    | String d r4 =>
                        in_range 240 244 a
                        && (if in_range 240 240 a then in_range 144 191 b
                            else if in_range 244 244 a then in_range 128 143 b
                            else in_range 128 191 b)
                        && in_range 128 191 c && in_range 128 191 d
                        && utf8_valid r4
                    end
              end
        end
  end.

Definition decode_utf8 (b : string) : outcome string :=
  if utf8_valid b then Ret b else Raise UnicodeDecodeError.

(** [s.lower()], on the ASCII letters. *)
Definition lower_char (c : ascii) : ascii :=
  if in_range 65 90 c then ascii_of_nat (nat_of_ascii c + 32) else c.

Fixpoint py_lower (s : string) : string :=
  match s with
  | EmptyString => EmptyString
  | String c rest => String (lower_char c) (py_lower rest)
  end.

(** [s.split(':', 1)] when [':' in s]: the text before the first colon and
    the text after it. *)
Fixpoint split_colon (s : string) : option (string * string) :=
  match s with
  | EmptyString => None
  | String c rest =>
      if Ascii.eqb c ":"%char then Some (EmptyString, rest)
      else match split_colon rest with
           | Some (key, value) => Some (String c key, value)
           | None => None
           end
  end.

Definition digit_of (c : ascii) : option Z :=
  if in_range 48 57 c then Some (Z.of_nat (nat_of_ascii c) - 48) else None.

(** The digits of an [int] literal: single underscores may separate them. *)
Fixpoint int_digits (s : string) (acc : Z) (after_digit : bool) : option Z :=
  match s with
  | EmptyString => if after_digit then Some acc else None
  | String c rest =>
      match digit_of c with
      | Some d => int_digits rest (acc * 10 + d) true
      | None =>
          if Ascii.eqb c "_"%char && after_digit
          then int_digits rest acc false
          else None
      end
  end.

(** [int(s)] for a [str] of ASCII characters whose numeral has at most
    4300 digits.  Outside of that the runtime differs: [int] refuses a
    longer numeral with [ValueError] ([sys.get_int_max_str_digits()]), and
    it reads the decimal digits of other scripts, which this definition
    refuses.  The numerals of the properties below are ASCII and, where
    their length is not fixed by [write_message], bounded by
    [int_max_str_digits]. *)
Definition py_int (s : string) : outcome Z :=
  let t := py_strip s in
  let '(negative, body) :=
    match t with
    | String c rest =>
        if Ascii.eqb c "-"%char then (true, rest)
        else if Ascii.eqb c "+"%char then (false, rest)
        else (false, t)
    | EmptyString => (false, t)
    end in
  match int_digits body 0 false with
  | Some n => Ret (if negative : bool then - n else n)
  | None => Raise ValueError
  end.

Fixpoint str_take (n : nat) (s : string) : string :=
  match n, s with
  | S n', String c rest => String c (str_take n' rest)
  | _, _ => EmptyString
  end.

Fixpoint str_drop (n : nat) (s : string) : string :=
  match n, s with
  | S n', String _ rest => str_drop n' rest
  | _, _ => s
  end.

(** The reader is the bytes of standard input that have not been consumed.
    [reader.readline()]: through the first line feed, or what is left.
    The reader of [main] is [asyncio.StreamReader()], whose limit is
    2 ** 16: on a line with more bytes than that before its line feed the
    runtime raises [ValueError], which this definition does not.  It is
    [readline] on the lines within the limit ([stream_limit]); the
    properties below that take header lines from outside say so. *)
Fixpoint readline (input : string) : string * string :=
  match input with
  | EmptyString => (EmptyString, EmptyString)
  | String c rest =>
      if Ascii.eqb c (ascii_of_nat 10) then (String c EmptyString, rest)
      else let '(line, rest') := readline rest in (String c line, rest')
  end.

(** [reader.readexactly(n)]. *)
Definition readexactly (n : Z) (input : string) : outcome string * string :=
  if n <? 0 then (Raise ValueError, input)
  else if Z.of_nat (String.length input) <? n then (Raise IncompleteReadError, EmptyString)
  else (Ret (str_take (Z.to_nat n) input), str_drop (Z.to_nat n) input).

Section Stdio.

(** [json.dumps(message, ensure_ascii=False).encode('utf-8')] and
    [json.loads(data.decode('utf-8'))], from the standard library. *)
Variable json_dumps : json -> string.
Variable json_loads : string -> outcome json.

(** The header loop of [read_message]: [None] when the input ends
    before the empty line. *)
Fixpoint read_headers (fuel : nat) (input : string)
    (headers : gmap string string)
  : outcome (option (gmap string string)) * string :=
  match fuel with
  | O => (Ret None, input)
  | S fuel' =>
      let '(line, rest) := readline input in
      if String.eqb line EmptyString then (Ret None, rest)
      else
        match decode_utf8 line with
        | Raise e => (Raise e, rest)
        | Ret text =>
            let text := py_strip text in
            if String.eqb text EmptyString then (Ret (Some headers), rest)
            else
              match split_colon text with
              | Some (key, value) =>
                  read_headers fuel' rest
                    (<[py_lower (py_strip key) := py_strip value]> headers)
              | None => read_headers fuel' rest headers
              end
        end
  end.

(** [int(headers.get('content-length', 0))]. *)
Definition content_length (headers : gmap string string) : outcome Z :=
  match headers !! "content-length" with
  | Some v => py_int v
  | None => Ret 0
  end.

(** [read_message]: the message, or [None] at the end of the session,
    together with the input left for the next call. *)
Definition read_message (input : string) : outcome (option json) * string :=
  match read_headers (S (String.length input)) input ∅ with
  | (Raise e, rest) => (Raise e, rest)
  | (Ret None, rest) => (Ret None, rest)
  | (Ret (Some headers), rest) =>
      match content_length headers with
      | Raise e => (Raise e, rest)
      | Ret n =>
          if n =? 0 then (Ret None, rest)
          else
            match readexactly n rest with
            | (Raise e, rest') => (Raise e, rest')
            | (Ret data, rest') =>
                (message ← json_loads data; Ret (Some message), rest')
            end
      end
  end.

Definition frame_header (n : nat) : string :=
  "Content-Length: " +:+ dec (Z.of_nat n) +:+ CR +:+ LF +:+ CR +:+ LF.

(** [write_message]: the bytes it puts on standard output. *)
Definition write_message (message : json) : string :=
  let encoded := json_dumps message in
  frame_header (String.length encoded) +:+ encoded.

End Stdio.

(** ** A world to run the examples in *)

(** A SearXNG instance that answers every query with [doc]. *)
Definition backend_answering (doc : json)
  : list (string * json) -> http_failure + http_response :=
  fun _ => inr {| resp_status := 200;
                  resp_content_type := Some "application/json";
                  resp_text := inl (HttpException JSONDecodeError);
                  resp_json := inr doc |}.

(** A site that serves every URL with the given content type. *)
Definition site_serving (content_type body : string)
  : json -> http_failure + http_response :=
  fun _ => inr {| resp_status := 200;
                  resp_content_type := Some content_type;
                  resp_text := inr body;
                  resp_json := inl (HttpException JSONDecodeError) |}.

Definition unreachable {A : Type} : A -> http_failure + http_response :=
  fun _ => inl HttpTimeout.

(** A SearXNG instance that answers every query with a status and a text. *)
Definition backend_failing (status : Z) (body : string)
  : list (string * json) -> http_failure + http_response :=
  fun _ => inr {| resp_status := status;
                  resp_content_type := Some "text/plain";
                  resp_text := inr body;
                  resp_json := inl (HttpException JSONDecodeError) |}.

(** A registry of two sessions, the first with three messages queued. *)
Definition two_sessions : gmap string (list json) :=
  <["s1" := [JNum 1; JNum 2; JNum 3]]> (<["s2" := [JNum 9]]> ∅).

Definition exn_name (e : exn) : string :=
  match e with
  | AttributeError => "AttributeError"
  | TypeError => "TypeError"
  | ValueError => "ValueError"
  | KeyError => "KeyError"
  | UnicodeDecodeError => "UnicodeDecodeError"
  | IncompleteReadError => "IncompleteReadError"
  | JSONDecodeError => "JSONDecodeError"
  | OtherError msg => msg
  end.

Definition no_repr (x : json) : string := "...".

(** A JSON codec for the scalars and the empty containers, enough to run
    the framing on. *)
Definition scalar_dumps (m : json) : string :=
  match m with
  | JNull => "null"
  | JBool b => if b then "true" else "false"
  | JNum n => dec n
  | JArr [] => "[]"
  | JObj [] => "{}"
  | _ => "null"
  end.

Definition scalar_loads (s : string) : outcome json :=
  if String.eqb s "null" then Ret JNull
  else if String.eqb s "true" then Ret (JBool true)
  else if String.eqb s "false" then Ret (JBool false)
  else if String.eqb s "[]" then Ret (JArr [])
  else if String.eqb s "{}" then Ret (JObj [])
  else match py_int s with
       | Ret n => Ret (JNum n)
       | Raise _ => Raise JSONDecodeError
       end.

(** ** The server ([MCPSearXNGServer]) *)

Section Server.

(** [Config], read from the environment when the module is loaded. *)
Variable cfg : Config.

(** [self.session.get(f"{Config.SEARXNG_URL}/search", params=params)]:
    what the SearXNG instance answers to a query parameter set. *)
Variable searxng : list (string * json) -> http_failure + http_response.

(** [self.session.get(url, headers=..., allow_redirects=True)]. *)
Variable http_get : json -> http_failure + http_response.

(** BeautifulSoup and html2text: the Markdown of the cleaned page. *)
Variable html_to_markdown : string -> outcome string.

(** [str(e)] for an exception, and [str(x)] for a list or a dict. *)
Variable exn_str : exn -> string.
Variable container_repr : json -> string.

(** [str(x)], as an f-string interpolates it. *)
Definition py_str (x : json) : string :=
  match x with
  | JNull => "None"
  | JBool b => if b then "True" else "False"
  | JNum n => dec n
  | JStr s => s
  | _ => container_repr x
  end.

Definition text_envelope (text : string) (is_error : bool) : json :=
  JObj [("content", JArr [JObj [("type", JStr "text"); ("text", JStr text)]]);
        ("isError", JBool is_error)].

Definition _error_response (message : string) : json :=
  text_envelope ("Erro: " +:+ message) true.

(** *** SearXNG API *)

Definition error_doc (message : string) : json :=
  JObj [("error", JStr message)].

Definition searxng_failure (f : http_failure) : json :=
  match f with
  | HttpTimeout => error_doc "Timeout ao conectar com SearXNG"
  | HttpException e => error_doc ("Erro ao conectar com SearXNG: " +:+ exn_str e)
  end.

(** The parameter set as it leaves for the backend. *)
Definition sent_params (params : list (string * json)) : list (string * json) :=
  dict_set params "format" (JStr "json").

Definition _searxng_search (params : list (string * json)) : json :=
  match searxng (sent_params params) with
  | inl f => searxng_failure f
  | inr resp =>
      if negb (resp_status resp =? 200) then
        match resp_text resp with
        | inl f => searxng_failure f
        | inr text =>
            error_doc ("SearXNG retornou status " +:+ dec (resp_status resp)
                       +:+ ": " +:+ text)
        end
      else
        match resp_json resp with
        | inl f => searxng_failure f
        | inr doc => doc
        end
  end.

Definition fetch_failure (f : http_failure) : string :=
  match f with
  | HttpTimeout => "Timeout ao acessar a URL"
  | HttpException e => "Erro ao acessar URL: " +:+ exn_str e
  end.

Definition truncation_marker : string :=
  LF +:+ LF +:+ "... (conteúdo truncado)".

(** The second [try] of [_fetch_url]. *)
Definition process_html (html : string) (max_length : json) : outcome string :=
  markdown ← html_to_markdown html;
  too_long ← py_int_gt (py_len markdown) max_length;
  markdown ←
    (if too_long : bool then
       cut ← py_slice_to (JStr markdown) max_length;
       match cut with
       | JStr s => Ret (s +:+ truncation_marker)
       | _ => Raise TypeError
       end
     else Ret markdown);
  Ret (py_strip markdown).

Definition _fetch_url (url max_length : json) : string :=
  match http_get url with
  | inl f => fetch_failure f
  | inr resp =>
      if negb (resp_status resp =? 200) then
        "Erro ao acessar URL: status " +:+ dec (resp_status resp)
      else
        let content_type := default EmptyString (resp_content_type resp) in
        if negb (str_contains "text/html" content_type)
           && negb (str_contains "text/plain" content_type)
        then "Tipo de conteúdo não suportado: " +:+ content_type
        else
          match resp_text resp with
          | inl f => fetch_failure f
          | inr html =>
              match process_html html max_length with
              | Ret markdown => markdown
              | Raise e => "Erro ao processar HTML: " +:+ exn_str e
              end
          end
  end.

(** *** Tool execution *)

(** [if args.get(k): params[k] = args[k]]. *)
Definition copy_if_truthy (args : json) (k : string)
    (params : list (string * json)) : outcome (list (string * json)) :=
  v ← py_get args k JNull;
  if truthy v then w ← py_getitem args k; Ret (dict_set params k w)
  else Ret params.

(** [if args.get(k) is not None: params[k] = args[k]]. *)
Definition copy_if_not_none (args : json) (k : string)
    (params : list (string * json)) : outcome (list (string * json)) :=
  v ← py_get args k JNull;
  match v with
  | JNull => Ret params
  | _ => w ← py_getitem args k; Ret (dict_set params k w)
  end.

(** [if args.get('categories'): params['categories'] = args['categories']],
    [else: params['categories'] = 'general']. *)
Definition copy_categories (args : json) (params : list (string * json))
  : outcome (list (string * json)) :=
  categories ← py_get args "categories" JNull;
  if truthy categories
  then w ← py_getitem args "categories"; Ret (dict_set params "categories" w)
  else Ret (dict_set params "categories" (JStr "general")).

Definition missing_query : json :=
  _error_response "Parâmetro 'query' é obrigatório".

Definition missing_url : json :=
  _error_response "Parâmetro 'url' é obrigatório".

(** The [params] dict [_tool_web_search] builds for a given [query]. *)
Definition web_search_params (args query : json)
  : outcome (list (string * json)) :=
  let params := [("q", query)] in
  params ← copy_categories args params;
  params ← copy_if_truthy args "engines" params;
  params ← copy_if_truthy args "language" params;
  params ← copy_if_truthy args "time_range" params;
  params ← copy_if_truthy args "pageno" params;
  copy_if_not_none args "safesearch" params.

Definition news_search_params (args query : json)
  : outcome (list (string * json)) :=
  let params := [("q", query); ("categories", JStr "news")] in
  params ← copy_if_truthy args "language" params;
  params ← copy_if_truthy args "time_range" params;
  copy_if_truthy args "pageno" params.

Definition images_search_params (args query : json)
  : outcome (list (string * json)) :=
  let params := [("q", query); ("categories", JStr "images")] in
  params ← copy_if_truthy args "engines" params;
  params ← copy_if_truthy args "language" params;
  params ← copy_if_not_none args "safesearch" params;
  copy_if_truthy args "pageno" params.

(** *** Formatters *)

(** [for x in xs: lines.append(f x)]. *)
Definition append_each (f : json -> string) (xs : json) : outcome (list string) :=
  items ← py_iter xs;
  Ret (map f items).

(** The lines one search result contributes. *)
Definition search_result_lines (i : Z) (r : json) : outcome (list string) :=
  title ← py_get r "title" (JStr "Sem título");
  url ← py_get r "url" (JStr EmptyString);
  snippet ← py_get r "content" (JStr EmptyString);
  engine_list ← py_get r "engines" (JArr []);
  engines ← py_join ", " engine_list;
  published ← py_get r "publishedDate" (JStr EmptyString);
  let meta :=
    (if negb (String.eqb engines EmptyString) then ["Fontes: " +:+ engines] else [])
    ++ (if truthy published then ["Data: " +:+ py_str published] else []) in
  Ret (["### " +:+ dec i +:+ ". [" +:+ py_str title +:+ "](" +:+ py_str url
        +:+ ")" +:+ LF]
       ++ (if truthy snippet then [py_str snippet +:+ LF] else [])
       ++ (match meta with
           | [] => []
           | _ => ["*" +:+ str_join " | " meta +:+ "*" +:+ LF]
           end)).

(** The lines one image result contributes. *)
Definition image_result_lines (i : Z) (r : json) : outcome (list string) :=
  title ← py_get r "title" (JStr "Sem título");
  url ← py_get r "url" (JStr EmptyString);
  img_url ← py_get r "img_src" url;
  thumb ← py_get r "thumbnail_src" (JStr EmptyString);
  url' ← py_get r "url" (JStr EmptyString);
  source ← py_get r "source" url';
  engine_list ← py_get r "engines" (JArr []);
  engines ← py_join ", " engine_list;
  Ret (["### " +:+ dec i +:+ ". " +:+ py_str title +:+ LF]
       ++ (if truthy img_url
           then ["![" +:+ py_str title +:+ "](" +:+ py_str img_url +:+ ")" +:+ LF]
           else [])
       ++ (if truthy source then ["Fonte: " +:+ py_str source +:+ LF] else [])
       ++ (if negb (String.eqb engines EmptyString)
           then ["*Engine: " +:+ engines +:+ "*" +:+ LF] else [])).

(** [for i, r in enumerate(results, i): ...]: one block of lines per
    result, in order; an exception in any of them ends the loop. *)
Fixpoint each_result (render : Z -> json -> outcome (list string)) (i : Z)
    (results : list json) : outcome (list (list string)) :=
  match results with
  | [] => Ret []
  | r :: rest =>
      block ← render i r;
      blocks ← each_result render (i + 1) rest;
      Ret (block :: blocks)
  end.

(** The outline of a formatted answer: the lines before the result
    subsections, the subsections, the lines after them. *)
Record outline : Type := {
  heading : list string;
  subsections : list (list string);
  trailer : list string
}.

Definition outline_lines (o : outline) : list string :=
  heading o ++ concat (subsections o) ++ trailer o.

Definition search_outline (data max_results query : json) (is_news : bool)
  : outcome outline :=
  all_results ← py_get data "results" (JArr []);
  results ← py_slice_to all_results max_results;
  suggestions ← py_get data "suggestions" (JArr []);
  answers ← py_get data "answers" (JArr []);
  total ← py_get data "number_of_results" (JNum 0);
  let tipo := if is_news then "notícias" else "web" in
  let lines := ["## Resultados de busca (" +:+ tipo +:+ "): " +:+ DQ
                +:+ py_str query +:+ DQ +:+ LF] in
  lines ←
    (if truthy total
     then t ← py_format_grouped total;
          Ret (lines ++ ["*Aproximadamente " +:+ t +:+ " resultados encontrados*" +:+ LF])
     else Ret lines);
  lines ←
    (if truthy answers
     then more ← append_each (fun ans => "> " +:+ py_str ans +:+ LF) answers;
          Ret (lines ++ ["### Respostas diretas" +:+ LF] ++ more)
     else Ret lines);
  '(lines, blocks) ←
    (if negb (truthy results)
     then Ret (lines ++ ["Nenhum resultado encontrado." +:+ LF], [])
     else items ← py_iter results;
          blocks ← each_result search_result_lines 1 items;
          Ret (lines, blocks));
  tail ←
    (if truthy suggestions
     then more ← append_each (fun s => "- " +:+ py_str s) suggestions;
          Ret ([LF +:+ "### Sugestões relacionadas" +:+ LF] ++ more)
     else Ret []);
  Ret {| heading := lines; subsections := blocks; trailer := tail |}.

Definition image_outline (data max_results query : json) : outcome outline :=
  all_results ← py_get data "results" (JArr []);
  results ← py_slice_to all_results max_results;
  let lines := ["## Resultados de imagens: " +:+ DQ +:+ py_str query +:+ DQ +:+ LF] in
  '(lines, blocks) ←
    (if negb (truthy results)
     then Ret (lines ++ ["Nenhuma imagem encontrada." +:+ LF], [])
     else items ← py_iter results;
          blocks ← each_result image_result_lines 1 items;
          Ret (lines, blocks));
  Ret {| heading := lines; subsections := blocks; trailer := [] |}.

Definition _format_search_results (data max_results query : json)
    (is_news : bool) : outcome json :=
  o ← search_outline data max_results query is_news;
  Ret (text_envelope (str_join LF (outline_lines o)) false).

Definition _format_image_results (data max_results query : json)
  : outcome json :=
  o ← image_outline data max_results query;
  Ret (text_envelope (str_join LF (outline_lines o)) false).

(** [if 'error' in data: return self._error_response(data['error'])],
    else the formatter. *)
Definition answer_with (data : json) (format : json -> outcome json)
  : outcome json :=
  failed ← py_in "error" data;
  if failed : bool
  then message ← py_getitem data "error"; Ret (_error_response (py_str message))
  else format data.

Definition _tool_web_search (args : json) : outcome json :=
  query ← py_get args "query" (JStr EmptyString);
  if negb (truthy query) then Ret missing_query
  else
    params ← web_search_params args query;
    max_results ← py_get args "max_results" (JNum (DEFAULT_MAX_RESULTS cfg));
    answer_with (_searxng_search params)
      (fun data => _format_search_results data max_results query false).

Definition _tool_news_search (args : json) : outcome json :=
  query ← py_get args "query" (JStr EmptyString);
  if negb (truthy query) then Ret missing_query
  else
    params ← news_search_params args query;
    max_results ← py_get args "max_results" (JNum (DEFAULT_MAX_RESULTS cfg));
    answer_with (_searxng_search params)
      (fun data => _format_search_results data max_results query true).

Definition _tool_images_search (args : json) : outcome json :=
  query ← py_get args "query" (JStr EmptyString);
  if negb (truthy query) then Ret missing_query
  else
    params ← images_search_params args query;
    max_results ← py_get args "max_results" (JNum (DEFAULT_MAX_RESULTS cfg));
    answer_with (_searxng_search params)
      (fun data => _format_image_results data max_results query).

Definition _tool_fetch_page (args : json) : outcome json :=
  url ← py_get args "url" (JStr EmptyString);
  if negb (truthy url) then Ret missing_url
  else
    max_length ← py_get args "max_length" (JNum 20000);
    let content := _fetch_url url max_length in
    Ret (text_envelope ("## Conteúdo de: " +:+ py_str url +:+ LF +:+ LF +:+ content)
           false).

(** The body of the [try] in [execute_tool]. *)
Definition run_tool (name arguments : json) : outcome json :=
  if is_str name "web_search" then _tool_web_search arguments
  else if is_str name "news_search" then _tool_news_search arguments
  else if is_str name "images_search" then _tool_images_search arguments
  else if is_str name "fetch_page_content" then _tool_fetch_page arguments
  else Ret (_error_response ("Tool desconhecida: " +:+ py_str name)).

(** [execute_tool]: [except Exception as e] turns whatever the tool
    raised into an error envelope.  (The log line before the [try]
    serialises [arguments], a JSON value, and cannot raise.) *)
Definition execute_tool (name arguments : json) : outcome json :=
  match run_tool name arguments with
  | Ret result => Ret result
  | Raise e => Ret (_error_response (exn_str e))
  end.

(** *** MCP protocol handlers *)

Definition server_info : json :=
  JObj [("name", JStr (MCP_SERVER_NAME cfg));
        ("version", JStr (MCP_SERVER_VERSION cfg))].

Definition capabilities : json := JObj [("tools", JObj [])].

Definition rpc_result (request_id result : json) : json :=
  JObj [("jsonrpc", JStr "2.0"); ("id", request_id); ("result", result)].

Definition rpc_error (request_id : json) (code : Z) (message : string) : json :=
  JObj [("jsonrpc", JStr "2.0"); ("id", request_id);
        ("error", JObj [("code", JNum code); ("message", JStr message)])].

Definition handle_mcp_initialize (request_id : json) : json :=
  rpc_result request_id
    (JObj [("protocolVersion", JStr "2024-11-05");
           ("serverInfo", server_info);
           ("capabilities", capabilities)]).

Definition handle_tools_list (request_id : json) : json :=
  rpc_result request_id (JObj [("tools", JArr TOOLS)]).

Definition handle_tools_call (request_id params : json) : outcome json :=
  name ← py_get params "name" (JStr EmptyString);
  arguments ← py_get params "arguments" (JObj []);
  result ← execute_tool name arguments;
  Ret (rpc_result request_id result).

(** [handle_jsonrpc]; [uuid] is the value [str(uuid.uuid4())] takes in
    this call. *)
Definition handle_jsonrpc (uuid : string) (body : json) : outcome json :=
  method ← py_get body "method" (JStr EmptyString);
  request_id ← py_get body "id" (JStr uuid);
  params ← py_get body "params" (JObj []);
  if is_str method "initialize" then Ret (handle_mcp_initialize request_id)
  else if is_str method "tools/list" then Ret (handle_tools_list request_id)
  else if is_str method "tools/call" then handle_tools_call request_id params
  else if is_str method "notifications/initialized"
  then Ret (rpc_result request_id (JObj []))
  else Ret (rpc_error request_id (-32601)
              ("Método não encontrado: " +:+ py_str method)).

(** *** HTTP handlers *)

(** What aiohttp sends back for a handler: the JSON response it
    returned, or the exception it let escape. *)
Inductive http_reply : Type :=
| JsonResponse (status : Z) (body : json)
| Unhandled (e : exn).

Definition parse_error_reply : http_reply :=
  JsonResponse 400
    (JObj [("jsonrpc", JStr "2.0"); ("id", JNull);
           ("error", JObj [("code", JNum (-32700)); ("message", JStr "Parse error")])]).

(** [handle_mcp_post]; [body] is what [await request.json()] gives. *)
Definition handle_mcp_post (uuid : string) (body : outcome json) : http_reply :=
  match body with
  | Raise _ => parse_error_reply
  | Ret b =>
      match handle_jsonrpc uuid b with
      | Ret response => JsonResponse 200 response
      | Raise e => Unhandled e
      end
  end.

(** *** SSE transport

    The handlers are coroutines of one event loop: each runs alone from
    one [await] to the next.  The state they share is
    [self._sse_sessions]; a queue is the list of its items, oldest
    first. *)

Inductive frame : Type :=
| EndpointFrame (url : string)     (* event: endpoint *)
| MessageFrame (message : json)    (* event: message *)
| KeepAliveFrame.                  (* : keep-alive *)

(** How an [await] inside [handle_sse] ends. *)
Inductive loop_exn : Type :=
| TimeoutError
| ConnectionResetError
| ConnectionAbortedError
| CancelledError
| OtherLoopError (e : exn).

Inductive awaited : Type :=
| Done
| Raised (e : loop_exn).

(** A [handle_messages] coroutine suspended in
    [await self.handle_jsonrpc(body)]: the session it named and what the
    dispatcher is about to return to it. *)
Record suspended : Type := {
  susp_session : string;
  susp_result : outcome json
}.

Record state : Type := {
  _sse_sessions : gmap string (list json);
  written : list (string * frame);          (* frames put on the streams, newest first *)
  in_flight : list suspended
}.

Definition initial_state : state :=
  {| _sse_sessions := ∅; written := []; in_flight := [] |}.

(** [self._sse_sessions.pop(session_id, None)], the [finally] clause. *)
Definition deregister (session_id : string) (st : state) : state :=
  {| _sse_sessions := delete session_id (_sse_sessions st);
     written := written st;
     in_flight := in_flight st |}.

Definition write_frame (session_id : string) (f : frame) (st : state) : state :=
  {| _sse_sessions := _sse_sessions st;
     written := (session_id, f) :: written st;
     in_flight := in_flight st |}.

(** [handle_sse] up to the loop: the queue is registered, then the
    stream is prepared and the endpoint event written; [sent] tells how
    those awaits end.  They stand before the [try]. *)
Definition sse_connect (session_id : string) (sent : awaited) (st : state) : state :=
  let st := {| _sse_sessions := <[session_id := []]> (_sse_sessions st);
               written := written st;
               in_flight := in_flight st |} in
  match sent with
  | Done => write_frame session_id
              (EndpointFrame ("/messages?sessionId=" +:+ session_id)) st
  | Raised _ => st
  end.

(** The keep-alive branch ([except asyncio.TimeoutError]) of one
    iteration; an exception in it leaves the loop. *)
Definition keep_alive (session_id : string) (kept : awaited) (st : state)
  : state * option loop_exn :=
  match kept with
  | Done => (write_frame session_id KeepAliveFrame st, None)
  | Raised e => (st, Some e)
  end.

(** One turn of [while True]: [got] is how
    [wait_for(queue.get(), timeout=30.0)] ends, [wrote] how the write of
    the message ends, [kept] how the write of the keep-alive ends.  The
    second component is the exception that leaves the loop, if any. *)
Definition loop_turn (session_id : string) (got wrote kept : awaited)
    (st : state) : state * option loop_exn :=
  match got with
  | Done =>
      match _sse_sessions st !! session_id with
      | Some (message :: queue) =>
          let st := {| _sse_sessions := <[session_id := queue]> (_sse_sessions st);
                       written := written st;
                       in_flight := in_flight st |} in
          match wrote with
          | Done => (write_frame session_id (MessageFrame message) st, None)
          | Raised TimeoutError => keep_alive session_id kept st
          | Raised e => (st, Some e)
          end
      | _ => (st, None)             (* nothing queued: the wait goes on *)
      end
  | Raised TimeoutError => keep_alive session_id kept st
  | Raised e => (st, Some e)
  end.

(** Whether the outer [except] clause of [handle_sse] catches [e]. *)
Definition caught_by_handle_sse (e : loop_exn) : bool :=
  match e with
  | ConnectionResetError | ConnectionAbortedError | CancelledError => true
  | _ => false
  end.

(** One turn followed, when an exception left the loop, by the [except]
    and [finally] clauses.  The flag tells whether the loop is over. *)
Definition sse_turn (session_id : string) (got wrote kept : awaited)
    (st : state) : state * bool :=
  match loop_turn session_id got wrote kept st with
  | (st, None) => (st, false)
  | (st, Some e) => (deregister session_id st, true)
  end.

Definition session_error_reply : http_reply :=
  JsonResponse 400
    (JObj [("error", JStr "Sessão SSE não encontrada. Conecte primeiro em GET /sse")]).

Definition accepted_reply : http_reply :=
  JsonResponse 202 (JObj [("status", JStr "accepted")]).

(** [handle_messages] up to [await self.handle_jsonrpc(body)]:
    [session_id] is [request.query.get('sessionId', '')].  Either the
    reply is ready, or the coroutine suspends in the dispatcher. *)
Definition messages_begin (session_id : string) (body : outcome json)
    (uuid : string) (st : state) : state * option http_reply :=
  if String.eqb session_id EmptyString
     || match _sse_sessions st !! session_id with Some _ => false | None => true end
  then (st, Some session_error_reply)
  else
    match body with
    | Raise _ => (st, Some parse_error_reply)
    | Ret b =>
        ({| _sse_sessions := _sse_sessions st;
            written := written st;
            in_flight := in_flight st
                         ++ [{| susp_session := session_id;
                                susp_result := handle_jsonrpc uuid b |}] |},
         None)
    end.

(** [handle_messages] from the return of the dispatcher on. *)
Definition messages_resume (s : suspended) (st : state) : state * http_reply :=
  match susp_result s with
  | Raise e => (st, Unhandled e)
  | Ret response =>
      match _sse_sessions st !! susp_session s with
      | Some queue =>
          ({| _sse_sessions :=
                <[susp_session s := queue ++ [response]]> (_sse_sessions st);
              written := written st;
              in_flight := in_flight st |},
           accepted_reply)
      | None => (st, accepted_reply)
      end
  end.

(** What the event loop can run next. *)
Inductive event : Type :=
| SseConnect (session_id : string) (sent : awaited)
| SseTurn (session_id : string) (got wrote kept : awaited)
| PostMessages (session_id : string) (body : outcome json) (uuid : string)
| Resume (k : nat).                 (* the k-th suspended POST goes on *)

Definition step (st : state) (ev : event) : state * option http_reply :=
  match ev with
  | SseConnect sid sent => (sse_connect sid sent st, None)
  | SseTurn sid got wrote kept => (fst (sse_turn sid got wrote kept st), None)
  | PostMessages sid body uuid => messages_begin sid body uuid st
  | Resume k =>
      match in_flight st !! k with
      | Some s =>
          let st := {| _sse_sessions := _sse_sessions st;
                       written := written st;
                       in_flight := take k (in_flight st) ++ drop (S k) (in_flight st) |} in
          let '(st, reply) := messages_resume s st in
          (st, Some reply)
      | None => (st, None)
      end
  end.

Fixpoint run (st : state) (evs : list event) : state :=
  match evs with
  | [] => st
  | ev :: rest => run (fst (step st ev)) rest
  end.

(** *** The stdio server ([mcp_stdio_server.main]) *)

(** [json.dumps(message, ensure_ascii=False).encode('utf-8')] and
    [json.loads(data.decode('utf-8'))], as in [read_message] and
    [write_message]. *)
Variable json_dumps : json -> string.
Variable json_loads : string -> outcome json.

(** How the loop of [main] ends: with [break] at the end of the input, or
    at [except Exception], which logs the exception. *)
Inductive ending : Type :=
| Finished
| Failed (e : exn).

(** The loop of [main] on the bytes of standard input: what it writes to
    standard output, and how it ends.  [uuids i] is the value of
    [str(uuid.uuid4())] in the call of [handle_jsonrpc] for the message
    number [i].  A body [null] is loaded as [None], which is what
    [read_message] returns at the end of the session: the loop breaks on
    both. *)
Fixpoint main_loop (fuel : nat) (uuids : nat -> string) (served : nat)
    (input : string) : string * ending :=
  match fuel with
  | O => (EmptyString, Finished)
  | S fuel' =>
      match read_message json_loads input with
      | (Raise e, _) => (EmptyString, Failed e)
      | (Ret None, _) => (EmptyString, Finished)
      | (Ret (Some JNull), _) => (EmptyString, Finished)   (* [message is None] *)
      | (Ret (Some message), rest) =>
          match handle_jsonrpc (uuids served) message with
          | Raise e => (EmptyString, Failed e)
          | Ret response =>
              let '(out, how) := main_loop fuel' uuids (S served) rest in
              (write_message json_dumps response +:+ out, how)
          end
      end
  end.

Definition main (uuids : nat -> string) (input : string) : string * ending :=
  main_loop (S (String.length input)) uuids 0 input.

(** The frames of a list of messages, one after the other. *)
Definition frames (messages : list json) : string :=
  str_concat (map (write_message json_dumps) messages).

(** [responses] are what the dispatcher returns for [requests], the first
    of them being the message number [served]. *)
Fixpoint dispatched (uuids : nat -> string) (served : nat)
    (requests responses : list json) : Prop :=
  match requests, responses with
  | [], [] => True
  | request :: requests', response :: responses' =>
      handle_jsonrpc (uuids served) request = Ret response
      /\ dispatched uuids (S served) requests' responses'
  | _, _ => False
  end.

(** The codec gives a message back and writes at least one byte for it. *)
Definition codec_round_trip (message : json) : Prop :=
  json_loads (json_dumps message) = Ret message
  /\ json_dumps message <> EmptyString.

(** *** Vocabulary of the properties *)

(** The four methods of the dispatcher. *)
Definition supported_method (method : json) : bool :=
  is_str method "initialize" || is_str method "tools/list"
  || is_str method "tools/call" || is_str method "notifications/initialized".

(** [body.get('method', '')] on the fields of a request object. *)
Definition request_method (fields : list (string * json)) : json :=
  default (JStr EmptyString) (dict_get fields "method").

(** A request object in the shape of the data model: [params], when it is
    there, is a mapping. *)
Definition params_is_mapping (fields : list (string * json)) : bool :=
  match dict_get fields "params" with
  | None | Some (JObj _) => true
  | Some _ => false
  end.

Definition envelope_is_error (envelope : json) : option bool :=
  match py_getitem envelope "isError" with
  | Ret (JBool b) => Some b
  | _ => None
  end.

Definition envelope_content (envelope : json) : list json :=
  match py_getitem envelope "content" with
  | Ret (JArr blocks) => blocks
  | _ => []
  end.

Definition block_text (block : json) : string :=
  match py_getitem block "text" with
  | Ret (JStr s) => s
  | _ => EmptyString
  end.

(** The parameter a tool requires. *)
Definition required_parameter (tool : string) : option string :=
  if String.eqb tool "web_search" then Some "query"
  else if String.eqb tool "news_search" then Some "query"
  else if String.eqb tool "images_search" then Some "query"
  else if String.eqb tool "fetch_page_content" then Some "url"
  else None.

(** The argument is absent, or it is there with an empty value (the empty
    string, and what Python equally takes for false: null, 0, an empty
    list or mapping). *)
Definition missing_or_empty (arguments : list (string * json)) (p : string) : bool :=
  match dict_get arguments p with
  | None => true
  | Some v => negb (truthy v)
  end.

(** The number of result subsections of a formatter's answer; a formatter
    that raised ends in the error envelope of [execute_tool], which has
    none. *)
Definition subsection_count (o : outcome outline) : nat :=
  match o with
  | Ret o => length (subsections o)
  | Raise _ => 0%nat
  end.

(** A property of every byte of a string. *)
Fixpoint str_forall (P : ascii -> bool) (s : string) : bool :=
  match s with
  | EmptyString => true
  | String c rest => P c && str_forall P rest
  end.

Definition is_digit (c : ascii) : bool := in_range 48 57 c.

Definition is_ascii7 (c : ascii) : bool := in_range 0 127 c.

(** Whether the byte [c], as a character, is white space. *)
Definition space_byte (c : ascii) : bool := is_space (String c EmptyString).

Definition not_line_feed (c : ascii) : bool := negb (Ascii.eqb c (ascii_of_nat 10)).

Definition first_nonspace (s : string) : bool :=
  match s with
  | String c _ => negb (space_byte c)
  | EmptyString => false
  end.

(** The one-character strings of the bytes of [s]. *)
Fixpoint singletons (s : string) : list string :=
  match s with
  | EmptyString => []
  | String c rest => String c EmptyString :: singletons rest
  end.

(** Whether a run of the event loop opens a session under [session_id]
    again.  [uuid.uuid4()] does not give out an identifier twice. *)
Definition reconnects (session_id : string) (evs : list event) : bool :=
  existsb (fun ev => match ev with
                     | SseConnect s _ => String.eqb s session_id
                     | _ => false
                     end) evs.

(** The keys of a parameter set, in order. *)
Definition dict_keys (d : list (string * json)) : list string := map fst d.

(** The three tools that query the backend. *)
Definition is_search_tool (tool : string) : bool :=
  String.eqb tool "web_search" || String.eqb tool "news_search"
  || String.eqb tool "images_search".

(** The names [tools/list] advertises, in the order of [TOOLS]. *)
Definition tool_names : list string :=
  flat_map (fun t => match py_getitem t "name" with
                     | Ret (JStr n) => [n]
                     | _ => []
                     end) TOOLS.

(** What the schema of a tool declares as [required]. *)
Definition schema_required (tool : string) : option json :=
  match List.find (fun t => match py_getitem t "name" with
                            | Ret n => is_str n tool
                            | Raise _ => false
                            end) TOOLS with
  | Some t =>
      match (schema ← py_getitem t "inputSchema"; py_getitem schema "required") with
      | Ret v => Some v
      | Raise _ => None
      end
  | None => None
  end.

(** The parameter set a search tool builds for its arguments: the
    [params] dict of [_tool_web_search], [_tool_news_search] or
    [_tool_images_search]. *)
Definition search_params (tool : string) (args query : json)
  : outcome (list (string * json)) :=
  if String.eqb tool "web_search" then web_search_params args query
  else if String.eqb tool "news_search" then news_search_params args query
  else images_search_params args query.

(** A list of strings, as [', '.join] needs it. *)
Definition string_list (x : json) : bool :=
  match x with
  | JArr l => forallb (fun v => match v with JStr _ => true | _ => false end) l
  | _ => false
  end.

(** A result as the backend interface describes it: a mapping whose
    [engines], when there, is a list of strings. *)
Definition result_ok (r : json) : bool :=
  match r with
  | JObj d => match dict_get d "engines" with
              | None => true
              | Some e => string_list e
              end
  | _ => false
  end.

Definition list_or_absent (d : list (string * json)) (k : string) : bool :=
  match dict_get d k with
  | None | Some (JArr _) => true
  | Some _ => false
  end.

(** The results of a backend document ([[]] when there are none). *)
Definition results_of (d : list (string * json)) : list json :=
  match dict_get d "results" with
  | Some (JArr l) => l
  | _ => []
  end.

(** A backend document as the interface describes it: [results],
    [answers] and [suggestions] are lists where they are there, the
    results are as above, [number_of_results] is an integer. *)
Definition document_ok (d : list (string * json)) : bool :=
  list_or_absent d "results" && forallb result_ok (results_of d)
  && list_or_absent d "suggestions" && list_or_absent d "answers"
  && match dict_get d "number_of_results" with
     | None | Some (JNum _) => true
     | Some _ => false
     end.

(** The messages written to the stream of a session, oldest first. *)
Definition delivered (session_id : string) (st : state) : list json :=
  flat_map (fun w => match w with
                     | (sid, MessageFrame m) =>
                         if String.eqb sid session_id then [m] else []
                     | _ => []
                     end) (rev (written st)).

(** A header name or value without white space: bytes of seven bits, none
    of them white space or a line feed, at least one. *)
Definition plain_byte (c : ascii) : bool :=
  is_ascii7 c && negb (space_byte c).

Definition token (s : string) : bool :=
  negb (String.eqb s EmptyString) && str_forall plain_byte s.

Definition no_colon (s : string) : bool :=
  str_forall (fun c => negb (Ascii.eqb c ":"%char)) s.

Fixpoint last_nonspace (s : string) : bool :=
  match s with
  | EmptyString => false
  | String c EmptyString => negb (space_byte c)
  | String _ rest => last_nonspace rest
  end.

(** A header name: a token without a colon. *)
Definition header_name (k : string) : bool := token k && no_colon k.

(** A header value: bytes of seven bits on one line, with no white space
    at either end. *)
Definition header_value (v : string) : bool :=
  str_forall is_ascii7 v && str_forall not_line_feed v
  && first_nonspace v && last_nonspace v.

Definition header_ok (h : string * string) : bool :=
  header_name (fst h) && header_value (snd h).

(** The lines [name: value] of a list of headers, each ended by CR LF. *)
Definition header_lines (headers : list (string * string)) : string :=
  str_concat (map (fun h => fst h +:+ ": " +:+ snd h +:+ CR +:+ LF) headers).

(** The headers entered for a list of header lines. *)
Definition entered (others : list (string * string)) (headers : gmap string string)
  : gmap string string :=
  fold_left (fun m h => <[py_lower (fst h) := snd h]> m) others headers.

(** A character as [py_chars] cuts it: a byte and the continuation bytes
    after it. *)
Definition chunk (x : string) : bool :=
  match x with
  | String _ k => str_forall is_continuation k
  | EmptyString => false
  end.

(** The string opens with a byte that starts a character. *)
Definition starts_char (x : string) : bool :=
  match x with
  | String c _ => negb (is_continuation c)
  | EmptyString => false
  end.

(** The characters of a string: chunks, of which all but the first open
    with a byte that starts a character. *)
Definition chunks_ok (l : list string) : bool :=
  forallb chunk l && forallb starts_char (tl l).

(** What [strip] keeps of the characters of a string. *)
Definition trim (l : list string) : list string :=
  rev (drop_space (rev (drop_space l))).

(** The limit of [asyncio.StreamReader()], the reader of [main]:
    [readline] accepts a line with at most that many bytes before its line
    feed. *)
Definition stream_limit : Z := 2 ^ 16.

(** The line [name: value] CR of a header is within the limit of the
    stream. *)
Definition header_fits (h : string * string) : bool :=
  Z.of_nat (String.length (fst h) + 2 + String.length (snd h) + 1) <=? stream_limit.

(** [sys.get_int_max_str_digits()]: [int] accepts a numeral of at most
    that many digits. *)
Definition int_max_str_digits : Z := 4300.

(** *** String facts *)

Lemma prefix_refl (s : string) : String.prefix s s = true.
Proof.
  induction s as [|c s IH]; simpl; [reflexivity|].
  destruct (ascii_dec c c); [exact IH | congruence].
Qed.

Lemma str_contains_prefix (needle hay : string) :
  String.prefix needle hay = true -> str_contains needle hay = true.
Proof. intros H. destruct hay; cbn -[String.prefix]; rewrite H; reflexivity. Qed.

Lemma str_contains_self (s : string) : str_contains s s = true.
Proof. apply str_contains_prefix, prefix_refl. Qed.

Lemma prefix_app (s t : string) : String.prefix s (s +:+ t) = true.
Proof.
  induction s as [|c s IH]; simpl; [destruct t; reflexivity|].
  destruct (ascii_dec c c); [exact IH | congruence].
Qed.

Lemma str_contains_cons (needle hay : string) (c : ascii) :
  str_contains needle hay = true -> str_contains needle (String c hay) = true.
Proof. intros H. cbn -[String.prefix]. rewrite H. apply orb_true_r. Qed.

(** A string occurs in whatever it is appended to. *)
Lemma str_contains_app_r (needle before : string) (hay : string) :
  str_contains needle hay = true -> str_contains needle (before +:+ hay) = true.
Proof.
  intros H. induction before as [|c before IH]; [exact H|].
  change (String c before +:+ hay) with (String c (before +:+ hay)).
  apply str_contains_cons, IH.
Qed.

(** *** The dispatcher *)

(** [execute_tool] never lets an exception out. *)
Lemma execute_tool_returns (name arguments : json) :
  exists result, execute_tool name arguments = Ret result.
Proof.
  unfold execute_tool.
  destruct (run_tool name arguments); eauto.
Qed.

Ltac use_method_tests :=
  repeat match goal with
         | H : is_str _ _ = _ |- _ => rewrite H; clear H
         end.

(** C3: a request whose method is none of the four supported ones is
    answered with the error code -32601, a message that contains the
    method name as the f-string prints it, and no [result] field. *)
Theorem unknown_method_not_found (uuid : string) (fields : list (string * json)) :
  supported_method (request_method fields) = false ->
  exists response message,
    handle_jsonrpc uuid (JObj fields) = Ret (JObj response)
    /\ dict_get response "error"
       = Some (JObj [("code", JNum (-32601)); ("message", JStr message)])
    /\ str_contains (py_str (request_method fields)) message = true
    /\ dict_get response "result" = None.
Proof.
  unfold supported_method, request_method. intros H.
  repeat (apply orb_false_elim in H; destruct H as [H ?]).
  unfold handle_jsonrpc. simpl. use_method_tests.
  eexists _, _. split; [reflexivity|].
  split; [reflexivity|]. split; [|reflexivity].
  apply str_contains_app_r, str_contains_self.
Qed.

(** A request object is answered, and the answer carries
    [body.get('id', str(uuid.uuid4()))] as its id, next to a result or an
    error.  Only [tools/call] looks into [params], which then has to be a
    mapping. *)
Lemma handle_jsonrpc_id (uuid : string) (fields : list (string * json)) :
  (is_str (request_method fields) "tools/call" = true ->
   params_is_mapping fields = true) ->
  exists response,
    handle_jsonrpc uuid (JObj fields) = Ret (JObj response)
    /\ dict_get response "id" = Some (default (JStr uuid) (dict_get fields "id"))
    /\ (is_Some (dict_get response "result") \/ is_Some (dict_get response "error")).
Proof.
  unfold params_is_mapping, request_method. intros Hparams.
  unfold handle_jsonrpc. simpl.
  repeat match goal with
         | |- context [if is_str ?m ?s then _ else _] =>
             destruct (is_str m s) eqn:?
         end;
    try (eexists; split; [reflexivity|]; split; [reflexivity|]; eauto; fail).
  specialize (Hparams eq_refl). unfold handle_tools_call.
  destruct (dict_get fields "params") as [[]|]; try discriminate; simpl;
    try match goal with
        | |- context [execute_tool ?n ?x] =>
            destruct (execute_tool_returns n x) as [result ->]; simpl
        end;
    eexists; (split; [reflexivity|]); (split; [reflexivity|]); eauto.
Qed.

(** C4: a well-formed request with one of the four supported methods and
    an [id] field is answered with that same id. *)
Theorem supported_method_echoes_id (uuid : string)
    (fields : list (string * json)) (id : json) :
  supported_method (request_method fields) = true ->
  params_is_mapping fields = true ->
  dict_get fields "id" = Some id ->
  exists response,
    handle_jsonrpc uuid (JObj fields) = Ret (JObj response)
    /\ dict_get response "id" = Some id.
Proof.
  intros _ Hparams Hid.
  destruct (handle_jsonrpc_id uuid fields (fun _ => Hparams))
    as (response & Hrun & Hresp & _).
  exists response. rewrite Hid in Hresp. auto.
Qed.


(** *** The tool engine *)

Lemma missing_or_empty_falsy (arguments : list (string * json)) (p : string) :
  missing_or_empty arguments p = true ->
  truthy (default (JStr EmptyString) (dict_get arguments p)) = false.
Proof.
  unfold missing_or_empty. destruct (dict_get arguments p); simpl.
  - intros H. apply negb_true_iff in H. exact H.
  - reflexivity.
Qed.

(** C2: a call of one of the four tools whose required parameter is
    absent or empty returns (it does not raise) an envelope with
    [isError] true and one text block that says which parameter is
    required. *)
Theorem missing_required_parameter (tool p : string)
    (arguments : list (string * json)) :
  required_parameter tool = Some p ->
  missing_or_empty arguments p = true ->
  exists envelope block,
    execute_tool (JStr tool) (JObj arguments) = Ret envelope
    /\ envelope_is_error envelope = Some true
    /\ envelope_content envelope = [block]
    /\ block_text block = "Erro: Parâmetro '" +:+ p +:+ "' é obrigatório".
Proof.
  unfold required_parameter. intros Htool Hmissing.
  apply missing_or_empty_falsy in Hmissing.
  repeat match type of Htool with
         | (if String.eqb ?a ?b then _ else _) = _ =>
             destruct (String.eqb a b) eqn:E;
             [apply String.eqb_eq in E; subst a; injection Htool as <- | clear E]
         end;
    try discriminate;
    unfold execute_tool, run_tool, _tool_web_search, _tool_news_search,
      _tool_images_search, _tool_fetch_page, py_get;
    set (value := default (JStr EmptyString) (dict_get arguments _)) in *;
    simpl; rewrite Hmissing; simpl;
    eexists _, _; repeat split.
Qed.

(** C1 (the code departs from it): a page served with a Content-Type
    that contains neither [text/html] nor [text/plain] comes back in an
    envelope whose text names that content type, but whose [isError] is
    false. *)
Theorem unsupported_content_type_not_flagged
    (arguments : list (string * json)) (url : json) (resp : http_response) :
  dict_get arguments "url" = Some url ->
  truthy url = true ->
  http_get url = inr resp ->
  resp_status resp = 200 ->
  str_contains "text/html" (default EmptyString (resp_content_type resp)) = false ->
  str_contains "text/plain" (default EmptyString (resp_content_type resp)) = false ->
  exists envelope block,
    execute_tool (JStr "fetch_page_content") (JObj arguments) = Ret envelope
    /\ envelope_is_error envelope = Some false
    /\ envelope_content envelope = [block]
    /\ str_contains (default EmptyString (resp_content_type resp))
         (block_text block) = true.
Proof.
  intros Hurl Htruthy Hget Hstatus Hhtml Hplain.
  unfold execute_tool, run_tool, _tool_fetch_page, _fetch_url, py_get.
  rewrite Hurl. cbn [is_str String.eqb Ascii.eqb Bool.eqb default from_option id
                     mbind outcome_bind].
  rewrite Htruthy, Hget, Hstatus, Hhtml, Hplain.
  cbn [negb andb Z.eqb Pos.eqb].
  eexists _, _. split; [reflexivity|]. split; [reflexivity|].
  split; [reflexivity|].
  cbn [block_text py_getitem dict_get String.eqb Ascii.eqb Bool.eqb].
  do 5 apply str_contains_app_r. apply str_contains_self.
Qed.

(** *** Parameter sets *)

Lemma dict_get_set_ne (d : list (string * json)) (k k' : string) (v : json) :
  k <> k' -> dict_get (dict_set d k v) k' = dict_get d k'.
Proof.
  intros Hne. induction d as [|[k0 v0] d IH]; simpl.
  - destruct (String.eqb k k') eqn:E; [apply String.eqb_eq in E; contradiction | reflexivity].
  - destruct (String.eqb k0 k) eqn:E; simpl.
    + apply String.eqb_eq in E. subst k0.
      destruct (String.eqb k k') eqn:E'; [apply String.eqb_eq in E'; contradiction | reflexivity].
    + rewrite IH. reflexivity.
Qed.

Lemma dict_get_set_eq (d : list (string * json)) (k : string) (v : json) :
  dict_get (dict_set d k v) k = Some v.
Proof.
  induction d as [|[k0 v0] d IH]; simpl.
  - rewrite String.eqb_refl. reflexivity.
  - destruct (String.eqb k0 k) eqn:E; simpl.
    + rewrite String.eqb_refl. reflexivity.
    + rewrite E. exact IH.
Qed.

(** Copying an argument other than [k'] leaves [k'] as it was. *)
Lemma copy_if_truthy_other (arguments params : list (string * json)) (k k' : string) :
  k <> k' ->
  exists params',
    copy_if_truthy (JObj arguments) k params = Ret params'
    /\ dict_get params' k' = dict_get params k'.
Proof.
  intros Hne. unfold copy_if_truthy, py_get, py_getitem.
  destruct (dict_get arguments k) as [v|]; simpl.
  - destruct (truthy v); simpl; eexists; split; try reflexivity.
    apply dict_get_set_ne, Hne.
  - eexists; split; reflexivity.
Qed.

Lemma copy_if_not_none_absent (arguments params : list (string * json)) (k : string) :
  dict_get arguments k = None ->
  copy_if_not_none (JObj arguments) k params = Ret params.
Proof. intros H. unfold copy_if_not_none, py_get. rewrite H. reflexivity. Qed.

Lemma copy_if_not_none_present (arguments params : list (string * json))
    (k : string) (v : json) :
  dict_get arguments k = Some v -> v <> JNull ->
  copy_if_not_none (JObj arguments) k params = Ret (dict_set params k v).
Proof.
  intros H Hv. unfold copy_if_not_none, py_get, py_getitem. rewrite H. simpl.
  destruct v; try reflexivity. contradiction.
Qed.

Lemma copy_categories_other (arguments params : list (string * json)) (k' : string) :
  "categories" <> k' ->
  exists params',
    copy_categories (JObj arguments) params = Ret params'
    /\ dict_get params' k' = dict_get params k'.
Proof.
  intros Hne. unfold copy_categories, py_get, py_getitem.
  destruct (dict_get arguments "categories") as [v|]; simpl;
    [destruct (truthy v); simpl|];
    eexists; (split; [reflexivity|]); apply dict_get_set_ne, Hne.
Qed.

Ltac copy_step k' :=
  match goal with
  | |- context [copy_categories (JObj ?a) ?p] =>
      let p' := fresh "params" in
      let E := fresh "E" in
      let K := fresh "K" in
      destruct (copy_categories_other a p k' ltac:(discriminate)) as (p' & E & K);
      rewrite E; cbn [mbind outcome_bind]
  | |- context [copy_if_truthy (JObj ?a) ?k ?p] =>
      let p' := fresh "params" in
      let E := fresh "E" in
      let K := fresh "K" in
      destruct (copy_if_truthy_other a p k k' ltac:(discriminate)) as (p' & E & K);
      rewrite E; cbn [mbind outcome_bind]
  end.

Ltac follow_back :=
  repeat match goal with
         | K : dict_get ?p _ = _ |- context [dict_get ?p _] => rewrite K; clear K
         end.

(** C5 (the code departs from it): when [safesearch] is absent from the
    arguments, the parameter set that [web_search] and [images_search]
    send to the backend has no [safesearch] entry at all, although the
    tool schemas declare the defaults 0 and 1. *)
Theorem safesearch_default_not_sent (arguments : list (string * json))
    (query : json) :
  dict_get arguments "safesearch" = None ->
  (exists params,
      web_search_params (JObj arguments) query = Ret params
      /\ dict_get (sent_params params) "safesearch" = None)
  /\ (exists params,
        images_search_params (JObj arguments) query = Ret params
        /\ dict_get (sent_params params) "safesearch" = None)
  /\ declared_default "web_search" "safesearch" = Some (JNum 0)
  /\ declared_default "images_search" "safesearch" = Some (JNum 1).
Proof.
  intros Habsent. split; [|split; [|split; reflexivity]].
  - unfold web_search_params, sent_params.
    do 5 copy_step "safesearch".
    rewrite copy_if_not_none_absent by exact Habsent.
    eexists. split; [reflexivity|].
    rewrite dict_get_set_ne by discriminate. follow_back. reflexivity.
  - unfold images_search_params, sent_params.
    do 2 copy_step "safesearch".
    rewrite copy_if_not_none_absent by exact Habsent.
    cbn [mbind outcome_bind].
    copy_step "safesearch".
    eexists. split; [reflexivity|].
    rewrite dict_get_set_ne by discriminate. follow_back. reflexivity.
Qed.

(** When [safesearch] is supplied (and not null), it is sent as given. *)
Lemma safesearch_passed_through (arguments : list (string * json))
    (query v : json) :
  dict_get arguments "safesearch" = Some v -> v <> JNull ->
  (exists params,
      web_search_params (JObj arguments) query = Ret params
      /\ dict_get (sent_params params) "safesearch" = Some v)
  /\ (exists params,
        images_search_params (JObj arguments) query = Ret params
        /\ dict_get (sent_params params) "safesearch" = Some v).
Proof.
  intros Hgiven Hv. split.
  - unfold web_search_params, sent_params.
    do 5 copy_step "safesearch".
    rewrite (copy_if_not_none_present _ _ _ v) by assumption.
    eexists. split; [reflexivity|].
    rewrite dict_get_set_ne by discriminate. apply dict_get_set_eq.
  - unfold images_search_params, sent_params.
    do 2 copy_step "safesearch".
    rewrite (copy_if_not_none_present _ _ _ v) by assumption.
    cbn [mbind outcome_bind].
    copy_step "safesearch".
    eexists. split; [reflexivity|].
    rewrite dict_get_set_ne by discriminate.
    follow_back. apply dict_get_set_eq.
Qed.

(** *** Formatters *)

Lemma bind_ret_inv {A B : Type} (m : outcome A) (k : A -> outcome B) (b : B) :
  m ≫= k = Ret b -> exists a, m = Ret a /\ k a = Ret b.
Proof. destruct m as [a|e]; simpl; [eauto | discriminate]. Qed.

Ltac inv_bind H :=
  let a := fresh "a" in
  let E := fresh "E" in
  apply bind_ret_inv in H as (a & E & H).

(** The loop over the results yields one block per result. *)
Lemma each_result_length (render : Z -> json -> outcome (list string))
    (results : list json) :
  forall (i : Z) (blocks : list (list string)),
    each_result render i results = Ret blocks -> length blocks = length results.
Proof.
  induction results as [|r rest IH]; intros i blocks H; simpl in H.
  - injection H as <-. reflexivity.
  - inv_bind H. inv_bind H. injection H as <-.
    simpl. f_equal. eapply IH; eassumption.
Qed.

Lemma slice_to_length (A : Type) (l : list A) (n : Z) :
  0 <= n -> Z.of_nat (length (slice_to l n)) <= n.
Proof.
  intros Hn. unfold slice_to.
  destruct (0 <=? n) eqn:E; [|apply Z.leb_gt in E; lia].
  pose proof (firstn_le_length (Z.to_nat n) l). lia.
Qed.

(** A result that is not a mapping stops the loop at once. *)
Lemma each_result_of_chars (render : Z -> json -> outcome (list string))
    (chars : list string) (i : Z) (blocks : list (list string)) :
  (forall j s, render j (JStr s) = Raise AttributeError) ->
  each_result render i (map JStr chars) = Ret blocks -> blocks = [].
Proof.
  intros Hrender H. destruct chars as [|c chars]; simpl in H.
  - injection H as <-. reflexivity.
  - rewrite Hrender in H. discriminate.
Qed.

(** What the slice and the loop leave as subsections. *)
Lemma sliced_blocks_bound (render : Z -> json -> outcome (list string))
    (all results : json) (n : Z) (items : list json) (blocks : list (list string)) :
  (forall j s, render j (JStr s) = Raise AttributeError) ->
  0 <= n ->
  py_slice_to all (JNum n) = Ret results ->
  py_iter results = Ret items ->
  each_result render 1 items = Ret blocks ->
  Z.of_nat (length blocks) <= n.
Proof.
  intros Hrender Hn Hslice Hiter Hloop.
  destruct all; simpl in Hslice; try discriminate;
    injection Hslice as <-; simpl in Hiter; injection Hiter as <-.
  - apply each_result_of_chars in Hloop; [subst; simpl; lia | exact Hrender].
  - apply each_result_length in Hloop. rewrite Hloop.
    apply slice_to_length, Hn.
Qed.

Lemma search_outline_bound (data query : json) (n : Z) (is_news : bool) :
  0 <= n ->
  Z.of_nat (subsection_count
              (search_outline data (JNum n) query is_news)) <= n.
Proof.
  intros Hn. unfold subsection_count.
  destruct (search_outline _ _ _ _) as [o|e] eqn:H; [|simpl; lia].
  unfold search_outline in H.
  inv_bind H. inv_bind H. inv_bind H. inv_bind H. inv_bind H.
  inv_bind H. inv_bind H. inv_bind H. destruct a6 as [lines blocks].
  inv_bind H. injection H as <-. simpl.
  destruct (negb (truthy a0)).
  - injection E6 as <- <-. simpl. lia.
  - inv_bind E6. inv_bind E6. injection E6 as <- <-.
    eapply sliced_blocks_bound; try eassumption. reflexivity.
Qed.

Lemma image_outline_bound (data query : json) (n : Z) :
  0 <= n ->
  Z.of_nat (subsection_count (image_outline data (JNum n) query)) <= n.
Proof.
  intros Hn. unfold subsection_count.
  destruct (image_outline _ _ _) as [o|e] eqn:H; [|simpl; lia].
  unfold image_outline in H.
  inv_bind H. inv_bind H. inv_bind H. destruct a1 as [lines blocks].
  injection H as <-. simpl.
  destruct (negb (truthy a0)).
  - injection E1 as <- <-. simpl. lia.
  - inv_bind E1. inv_bind E1. injection E1 as <- <-.
    eapply sliced_blocks_bound; try eassumption. reflexivity.
Qed.

(** C6, amended: for every backend document and every non-negative
    integer [max_results], the formatted search answer and the
    formatted image answer have at most [max_results] result
    subsections, whatever the length of the backend's [results] and
    whatever [number_of_results] says. *)
Theorem max_results_caps_subsections (data query : json) (n : Z) (is_news : bool) :
  0 <= n ->
  Z.of_nat (subsection_count
              (search_outline data (JNum n) query is_news)) <= n
  /\ Z.of_nat (subsection_count
                 (image_outline data (JNum n) query)) <= n.
Proof.
  intros Hn. split; [apply search_outline_bound | apply image_outline_bound]; exact Hn.
Qed.

(** *** The SSE session registry *)

Lemma keep_alive_sessions (sid : string) (kept : awaited) (st : state) :
  _sse_sessions (fst (keep_alive sid kept st)) = _sse_sessions st.
Proof. destruct kept; reflexivity. Qed.

(** A turn of one session's loop leaves an unregistered id unregistered. *)
Lemma loop_turn_absent (sid sid' : string) (got wrote kept : awaited) (st : state) :
  _sse_sessions st !! sid = None ->
  _sse_sessions (fst (loop_turn sid' got wrote kept st)) !! sid = None.
Proof.
  intros Habsent. unfold loop_turn.
  destruct got as [|e].
  - destruct (_sse_sessions st !! sid') as [[|message queue]|] eqn:E; simpl; auto.
    assert (sid' <> sid) by congruence.
    destruct wrote as [|[]]; simpl;
      rewrite ?keep_alive_sessions; simpl;
      rewrite lookup_insert_ne by assumption; exact Habsent.
  - destruct e; simpl; rewrite ?keep_alive_sessions; exact Habsent.
Qed.

(** When an exception leaves the loop, the [finally] clause has removed
    the session, whatever the exception. *)
Lemma sse_turn_exit (sid : string) (got wrote kept : awaited) (st : state) :
  snd (sse_turn sid got wrote kept st) = true ->
  _sse_sessions (fst (sse_turn sid got wrote kept st)) !! sid = None.
Proof.
  unfold sse_turn.
  destruct (loop_turn sid got wrote kept st) as [st' [e|]]; simpl; [|discriminate].
  intros _. apply lookup_delete_eq.
Qed.

(** The loop is left exactly when one of its awaits raises something
    other than the timeout of the wait. *)
Lemma sse_turn_exit_iff (sid : string) (got wrote kept : awaited) (st : state) :
  snd (sse_turn sid got wrote kept st) = true
  <-> exists e, snd (loop_turn sid got wrote kept st) = Some e.
Proof.
  unfold sse_turn.
  destruct (loop_turn sid got wrote kept st) as [st' [e|]]; simpl; split;
    intros H; eauto; try discriminate.
  destruct H as [e H]. discriminate.
Qed.

Lemma sse_turn_absent (sid sid' : string) (got wrote kept : awaited) (st : state) :
  _sse_sessions st !! sid = None ->
  _sse_sessions (fst (sse_turn sid' got wrote kept st)) !! sid = None.
Proof.
  intros Habsent. unfold sse_turn.
  pose proof (loop_turn_absent sid sid' got wrote kept st Habsent) as H.
  destruct (loop_turn sid' got wrote kept st) as [st' [e|]]; simpl in *; auto.
  destruct (decide (sid' = sid)) as [->|Hne].
  - apply lookup_delete_eq.
  - rewrite lookup_delete_ne by assumption. exact H.
Qed.

(** Nothing but [handle_sse] itself registers a session. *)
Lemma step_absent (sid : string) (ev : event) (st : state) :
  reconnects sid [ev] = false ->
  _sse_sessions st !! sid = None ->
  _sse_sessions (fst (step st ev)) !! sid = None.
Proof.
  intros Hev Habsent. destruct ev as [sid' sent|sid' got wrote kept|sid' body uuid|k]; simpl.
  - simpl in Hev. rewrite orb_false_r in Hev. apply String.eqb_neq in Hev.
    destruct sent; simpl; rewrite lookup_insert_ne by assumption; exact Habsent.
  - apply sse_turn_absent, Habsent.
  - unfold messages_begin.
    destruct (_ || _); [exact Habsent|]. destruct body; exact Habsent.
  - destruct (in_flight st !! k) as [s|]; [|exact Habsent].
    unfold messages_resume. destruct (susp_result s); simpl; [|exact Habsent].
    destruct (_sse_sessions st !! susp_session s) eqn:E; simpl; [|exact Habsent].
    rewrite lookup_insert_ne by congruence. exact Habsent.
Qed.

Lemma run_absent (sid : string) (evs : list event) :
  forall st : state,
    reconnects sid evs = false ->
    _sse_sessions st !! sid = None ->
    _sse_sessions (run st evs) !! sid = None.
Proof.
  induction evs as [|ev evs IH]; intros st Hevs Habsent; simpl; [exact Habsent|].
  simpl in Hevs. apply orb_false_elim in Hevs as [Hev Hevs].
  apply IH; [exact Hevs|].
  apply step_absent; [simpl; rewrite Hev; reflexivity | exact Habsent].
Qed.

(** The ways out of the loop: the wait raises something other than its
    timeout (a cancellation, for one); the write of a message raises
    something other than a timeout (the peer is gone); the write of the
    keep-alive raises. *)
Lemma exit_when_wait_raises (sid : string) (e : loop_exn) (wrote kept : awaited)
    (st : state) :
  e <> TimeoutError -> snd (sse_turn sid (Raised e) wrote kept st) = true.
Proof. intros He. destruct e; try reflexivity. contradiction. Qed.

Lemma exit_when_write_raises (sid : string) (e : loop_exn) (kept : awaited)
    (st : state) (message : json) (queue : list json) :
  e <> TimeoutError ->
  _sse_sessions st !! sid = Some (message :: queue) ->
  snd (sse_turn sid Done (Raised e) kept st) = true.
Proof.
  intros He Hq. unfold sse_turn, loop_turn. rewrite Hq.
  destruct e; try reflexivity. contradiction.
Qed.

Lemma exit_when_keep_alive_raises (sid : string) (e : loop_exn) (wrote : awaited)
    (st : state) :
  snd (sse_turn sid (Raised TimeoutError) wrote (Raised e) st) = true.
Proof. reflexivity. Qed.

(** An idle turn keeps the session registered. *)
Lemma idle_turn_keeps_session (sid : string) (wrote : awaited) (st : state) :
  sse_turn sid (Raised TimeoutError) wrote Done st
  = (write_frame sid KeepAliveFrame st, false).
Proof. reflexivity. Qed.

(** A submission that names an unregistered session is answered with
    status 400 and goes no further: the state is as before. *)
Lemma messages_begin_absent (sid : string) (body : outcome json) (uuid : string)
    (st : state) :
  _sse_sessions st !! sid = None ->
  messages_begin sid body uuid st = (st, Some session_error_reply).
Proof.
  intros Habsent. unfold messages_begin. rewrite Habsent.
  rewrite orb_true_r. reflexivity.
Qed.

(** C8: once an exception of any kind has taken a session's delivery
    loop to its end, the session id is out of the registry, and it is
    still out after whatever the event loop runs next; a POST /messages
    that then names it gets the 400 session error and is not
    dispatched. *)
Theorem closed_session_rejects_submissions (sid : string)
    (got wrote kept : awaited) (st : state) (evs : list event)
    (body : outcome json) (uuid : string) :
  snd (sse_turn sid got wrote kept st) = true ->
  reconnects sid evs = false ->
  _sse_sessions (fst (sse_turn sid got wrote kept st)) !! sid = None
  /\ step (run (fst (sse_turn sid got wrote kept st)) evs)
          (PostMessages sid body uuid)
     = (run (fst (sse_turn sid got wrote kept st)) evs, Some session_error_reply).
Proof.
  intros Hexit Hevs.
  pose proof (sse_turn_exit sid got wrote kept st Hexit) as Hgone.
  split; [exact Hgone|].
  simpl. apply messages_begin_absent, run_absent; assumption.
Qed.

(** C10: a POST /messages whose session is registered when it arrives
    suspends in the dispatcher; if the session is no longer registered
    when the dispatcher returns, the coroutine enqueues nothing, leaves
    the state as it found it, and answers 202. *)
Theorem session_closed_during_dispatch (sid : string) (body response : json)
    (uuid : string) (st st' : state) :
  sid <> EmptyString ->
  is_Some (_sse_sessions st !! sid) ->
  handle_jsonrpc uuid body = Ret response ->
  _sse_sessions st' !! sid = None ->
  exists s,
    messages_begin sid (Ret body) uuid st
    = ({| _sse_sessions := _sse_sessions st;
          written := written st;
          in_flight := in_flight st ++ [s] |}, None)
    /\ susp_session s = sid
    /\ susp_result s = Ret response
    /\ messages_resume s st' = (st', accepted_reply).
Proof.
  intros Hsid [queue Hreg] Hdispatch Hgone.
  exists {| susp_session := sid; susp_result := Ret response |}.
  unfold messages_begin, messages_resume. simpl.
  rewrite Hreg, Hdispatch, Hgone.
  apply String.eqb_neq in Hsid. rewrite Hsid. simpl. auto.
Qed.

(** *** The tool registry and the parameter sets, further *)

Lemma copy_if_truthy_eq (arguments params : list (string * json)) (k : string) :
  copy_if_truthy (JObj arguments) k params
  = Ret (if truthy (default JNull (dict_get arguments k))
         then dict_set params k (default JNull (dict_get arguments k))
         else params).
Proof.
  unfold copy_if_truthy, py_get, py_getitem.
  destruct (dict_get arguments k) as [v|]; simpl; [|reflexivity].
  destruct (truthy v); reflexivity.
Qed.

Lemma copy_if_not_none_eq (arguments params : list (string * json)) (k : string) :
  copy_if_not_none (JObj arguments) k params
  = Ret (match default JNull (dict_get arguments k) with
         | JNull => params
         | v => dict_set params k v
         end).
Proof.
  unfold copy_if_not_none, py_get, py_getitem.
  destruct (dict_get arguments k) as [v|]; simpl; [|reflexivity].
  destruct v; reflexivity.
Qed.

Lemma copy_categories_eq (arguments params : list (string * json)) :
  copy_categories (JObj arguments) params
  = Ret (dict_set params "categories"
           (if truthy (default JNull (dict_get arguments "categories"))
            then default JNull (dict_get arguments "categories")
            else JStr "general")).
Proof.
  unfold copy_categories, py_get, py_getitem.
  destruct (dict_get arguments "categories") as [v|]; simpl; [|reflexivity].
  destruct (truthy v); reflexivity.
Qed.

(** Rewrites the steps of a parameter builder into their results. *)
Ltac build_params :=
  unfold search_params, web_search_params, news_search_params, images_search_params;
  repeat first [ rewrite copy_categories_eq
               | rewrite copy_if_truthy_eq
               | rewrite copy_if_not_none_eq
               | progress (cbn [mbind outcome_bind]) ].

(** With the arguments a mapping, the builders do not raise. *)
Lemma search_params_returns (tool : string) (arguments : list (string * json))
    (query : json) :
  exists params, search_params tool (JObj arguments) query = Ret params.
Proof.
  unfold search_params.
  destruct (String.eqb tool "web_search"); [|destruct (String.eqb tool "news_search")];
    build_params; eauto.
Qed.

(** A name that [tools/list] does not advertise is answered with an error
    envelope that names it; an advertised name reaches a handler, which
    asks for the parameter the schema declares as required. *)
Theorem registry_agrees_with_dispatch (name : string) :
  (~ In name tool_names ->
   forall arguments,
     execute_tool (JStr name) arguments
     = Ret (_error_response ("Tool desconhecida: " +:+ name)))
  /\ (In name tool_names ->
      exists p,
        schema_required name = Some (JArr [JStr p])
        /\ execute_tool (JStr name) (JObj [])
           = Ret (_error_response ("Parâmetro '" +:+ p +:+ "' é obrigatório"))).
Proof.
  clear json_dumps json_loads. split.
  - intros Hnot arguments. unfold execute_tool, run_tool, is_str.
    assert (H : forall n, In n tool_names -> String.eqb name n = false).
    { intros n Hn. apply String.eqb_neq. intros ->. contradiction. }
    rewrite !H by (vm_compute; tauto). reflexivity.
  - intros Hin. vm_compute in Hin.
    destruct Hin as [<-|[<-|[<-|[<-|[]]]]]; eexists; split; reflexivity.
Qed.

(** A search tool whose backend call ends in an error document answers
    with the error envelope of its message. *)
Lemma search_tool_error (tool : string) (arguments : list (string * json))
    (query : json) (message : string) :
  is_search_tool tool = true ->
  dict_get arguments "query" = Some query ->
  truthy query = true ->
  (forall params, _searxng_search params = error_doc message) ->
  execute_tool (JStr tool) (JObj arguments) = Ret (_error_response message).
Proof.
  unfold is_search_tool. intros Htool Hquery Htruthy Hbackend.
  destruct (search_params_returns tool arguments query) as [params Hparams].
  unfold search_params in Hparams.
  destruct (String.eqb tool "web_search") eqn:E1;
    [|destruct (String.eqb tool "news_search") eqn:E2;
      [|destruct (String.eqb tool "images_search") eqn:E3; [|discriminate]]];
    match goal with
    | E : String.eqb tool _ = true |- _ => apply String.eqb_eq in E; subst tool
    end;
    unfold execute_tool, run_tool, _tool_web_search, _tool_news_search,
      _tool_images_search, py_get;
    rewrite Hquery; cbn [is_str String.eqb Ascii.eqb Bool.eqb default from_option id
                          mbind outcome_bind];
    rewrite Htruthy; cbn [negb]; rewrite Hparams; cbn [mbind outcome_bind];
    rewrite Hbackend; reflexivity.
Qed.

(** When the backend cannot be reached (a timeout, or any other exception
    of the HTTP client), each search tool answers a call that carries a
    query with an error envelope that says so. *)
Theorem backend_unreachable_reported (tool : string)
    (arguments : list (string * json)) (query : json) (f : http_failure) :
  is_search_tool tool = true ->
  dict_get arguments "query" = Some query ->
  truthy query = true ->
  (forall params, searxng params = inl f) ->
  execute_tool (JStr tool) (JObj arguments)
  = Ret (_error_response
           match f with
           | HttpTimeout => "Timeout ao conectar com SearXNG"
           | HttpException e => "Erro ao conectar com SearXNG: " +:+ exn_str e
           end).
Proof.
  intros Htool Hquery Htruthy Hdown.
  apply (search_tool_error tool arguments query); try assumption.
  intros params. unfold _searxng_search. rewrite Hdown. destruct f; reflexivity.
Qed.

(** When the backend answers with a status other than 200, each search
    tool answers with an error envelope that carries the status and the
    body of the answer. *)
Theorem backend_status_reported (tool : string)
    (arguments : list (string * json)) (query : json) (resp : http_response)
    (text : string) :
  is_search_tool tool = true ->
  dict_get arguments "query" = Some query ->
  truthy query = true ->
  (forall params, searxng params = inr resp) ->
  resp_status resp <> 200 ->
  resp_text resp = inr text ->
  execute_tool (JStr tool) (JObj arguments)
  = Ret (_error_response
           ("SearXNG retornou status " +:+ dec (resp_status resp) +:+ ": " +:+ text)).
Proof.
  intros Htool Hquery Htruthy Hreply Hstatus Htext.
  apply (search_tool_error tool arguments query); try assumption.
  intros params. unfold _searxng_search. rewrite Hreply.
  apply Z.eqb_neq in Hstatus. rewrite Hstatus, Htext. reflexivity.
Qed.

(** *** The envelope *)

Lemma answer_with_envelope (data : json) (format : json -> outcome json)
    (result : json) :
  (forall r, format data = Ret r -> exists text flag, r = text_envelope text flag) ->
  answer_with data format = Ret result ->
  exists text flag, result = text_envelope text flag.
Proof.
  intros Hformat H. unfold answer_with in H.
  inv_bind H. destruct a.
  - inv_bind H. injection H as <-. unfold _error_response. eauto.
  - apply Hformat, H.
Qed.

Lemma format_search_envelope (data max_results query : json) (is_news : bool)
    (r : json) :
  _format_search_results data max_results query is_news = Ret r ->
  exists text flag, r = text_envelope text flag.
Proof. unfold _format_search_results. intros H. inv_bind H. injection H as <-. eauto. Qed.

Lemma format_image_envelope (data max_results query r : json) :
  _format_image_results data max_results query = Ret r ->
  exists text flag, r = text_envelope text flag.
Proof. unfold _format_image_results. intros H. inv_bind H. injection H as <-. eauto. Qed.

(** Whatever the tool name, the arguments, the backend and the fetched
    page, [execute_tool] returns one shape: a [content] list with a single
    text block, and a boolean [isError]. *)
Theorem execute_tool_envelope (name arguments : json) :
  exists text flag, execute_tool name arguments = Ret (text_envelope text flag).
Proof.
  unfold execute_tool.
  destruct (run_tool name arguments) as [result|e] eqn:H;
    [|unfold _error_response; eauto].
  assert (Hshape : exists text flag, result = text_envelope text flag);
    [|destruct Hshape as (text & flag & ->); eauto].
  unfold run_tool in H.
  destruct (is_str name "web_search");
    [|destruct (is_str name "news_search");
      [|destruct (is_str name "images_search");
        [|destruct (is_str name "fetch_page_content")]]].
  - unfold _tool_web_search in H. inv_bind H.
    destruct (negb (truthy a)); [injection H as <-; unfold missing_query, _error_response; eauto|].
    inv_bind H. inv_bind H.
    eapply answer_with_envelope; [|exact H].
    intros r. apply format_search_envelope.
  - unfold _tool_news_search in H. inv_bind H.
    destruct (negb (truthy a)); [injection H as <-; unfold missing_query, _error_response; eauto|].
    inv_bind H. inv_bind H.
    eapply answer_with_envelope; [|exact H].
    intros r. apply format_search_envelope.
  - unfold _tool_images_search in H. inv_bind H.
    destruct (negb (truthy a)); [injection H as <-; unfold missing_query, _error_response; eauto|].
    inv_bind H. inv_bind H.
    eapply answer_with_envelope; [|exact H].
    intros r. apply format_image_envelope.
  - unfold _tool_fetch_page in H. inv_bind H.
    destruct (negb (truthy a)); [injection H as <-; unfold missing_url, _error_response; eauto|].
    inv_bind H. injection H as <-. eauto.
  - injection H as <-. unfold _error_response. eauto.
Qed.

(** *** What reaches the backend *)

Lemma missing_or_empty_none (arguments : list (string * json)) (k : string) :
  missing_or_empty arguments k = true ->
  truthy (default JNull (dict_get arguments k)) = false.
Proof.
  unfold missing_or_empty. destruct (dict_get arguments k); simpl.
  - intros H. apply negb_true_iff in H. exact H.
  - reflexivity.
Qed.

(** The [categories] sent: for [web_search] the caller's value, and
    ["general"] when there is none or it is empty (an empty string, null);
    for [news_search] and [images_search] always the tool's own category,
    whatever the caller supplies. *)
Theorem categories_sent (arguments : list (string * json)) (query : json) :
  (exists params,
      web_search_params (JObj arguments) query = Ret params
      /\ dict_get (sent_params params) "categories"
         = Some (if truthy (default JNull (dict_get arguments "categories"))
                 then default JNull (dict_get arguments "categories")
                 else JStr "general"))
  /\ (exists params,
        news_search_params (JObj arguments) query = Ret params
        /\ dict_get (sent_params params) "categories" = Some (JStr "news"))
  /\ (exists params,
        images_search_params (JObj arguments) query = Ret params
        /\ dict_get (sent_params params) "categories" = Some (JStr "images")).
Proof.
  unfold sent_params. repeat split; build_params;
    generalize (default JNull (dict_get arguments "categories"));
    generalize (default JNull (dict_get arguments "engines"));
    generalize (default JNull (dict_get arguments "language"));
    generalize (default JNull (dict_get arguments "time_range"));
    generalize (default JNull (dict_get arguments "pageno"));
    generalize (default JNull (dict_get arguments "safesearch"));
    intros safesearch pageno time_range language engines categories;
    eexists; (split; [reflexivity|]);
    destruct (truthy engines), (truthy language), (truthy time_range),
      (truthy pageno), safesearch; vm_compute; reflexivity.
Qed.

Lemma incl_check (l allowed : list string) :
  forallb (fun k => existsb (String.eqb k) allowed) l = true -> incl l allowed.
Proof.
  intros H k Hk. rewrite forallb_forall in H. specialize (H k Hk).
  apply existsb_exists in H as (k' & Hin & E). apply String.eqb_eq in E. subst. exact Hin.
Qed.

(** Only the recognised arguments are forwarded: the keys of the
    parameter set of each tool are among the ones its code names, [q] is
    the query and [format] is [json], whatever else the caller put in the
    arguments. *)
Theorem only_recognised_parameters_sent (arguments : list (string * json))
    (query : json) :
  (exists params,
      web_search_params (JObj arguments) query = Ret params
      /\ incl (dict_keys (sent_params params))
           ["q"; "categories"; "engines"; "language"; "time_range"; "pageno";
            "safesearch"; "format"]
      /\ dict_get (sent_params params) "q" = Some query
      /\ dict_get (sent_params params) "format" = Some (JStr "json"))
  /\ (exists params,
        news_search_params (JObj arguments) query = Ret params
        /\ incl (dict_keys (sent_params params))
             ["q"; "categories"; "language"; "time_range"; "pageno"; "format"]
        /\ dict_get (sent_params params) "q" = Some query
        /\ dict_get (sent_params params) "format" = Some (JStr "json"))
  /\ (exists params,
        images_search_params (JObj arguments) query = Ret params
        /\ incl (dict_keys (sent_params params))
             ["q"; "categories"; "engines"; "language"; "safesearch"; "pageno";
              "format"]
        /\ dict_get (sent_params params) "q" = Some query
        /\ dict_get (sent_params params) "format" = Some (JStr "json")).
Proof.
  unfold sent_params. repeat split; build_params;
    generalize (default JNull (dict_get arguments "categories"));
    generalize (default JNull (dict_get arguments "engines"));
    generalize (default JNull (dict_get arguments "language"));
    generalize (default JNull (dict_get arguments "time_range"));
    generalize (default JNull (dict_get arguments "pageno"));
    generalize (default JNull (dict_get arguments "safesearch"));
    intros safesearch pageno time_range language engines categories;
    eexists; (split; [reflexivity|]);
    destruct (truthy engines), (truthy language), (truthy time_range),
      (truthy pageno), safesearch;
    (split; [|split; vm_compute; reflexivity]);
    apply incl_check; vm_compute; reflexivity.
Qed.

(** An optional argument of [web_search] that is absent or empty (an empty
    string, a page number 0, null) is not forwarded. *)
Theorem empty_option_not_sent (arguments : list (string * json)) (query : json)
    (k : string) :
  In k ["engines"; "language"; "time_range"; "pageno"] ->
  missing_or_empty arguments k = true ->
  exists params,
    web_search_params (JObj arguments) query = Ret params
    /\ dict_get (sent_params params) k = None.
Proof.
  intros Hk Hempty. apply missing_or_empty_none in Hempty.
  unfold sent_params. build_params.
  cbn in Hk. destruct Hk as [<-|[<-|[<-|[<-|[]]]]]; rewrite Hempty;
    generalize (default JNull (dict_get arguments "categories"));
    generalize (default JNull (dict_get arguments "engines"));
    generalize (default JNull (dict_get arguments "language"));
    generalize (default JNull (dict_get arguments "time_range"));
    generalize (default JNull (dict_get arguments "pageno"));
    generalize (default JNull (dict_get arguments "safesearch"));
    intros safesearch pageno time_range language engines categories;
    eexists; (split; [reflexivity|]);
    destruct (truthy engines), (truthy language), (truthy time_range),
      (truthy pageno), safesearch; vm_compute; reflexivity.
Qed.

(** *** The fetch tool and POST /mcp *)

(** The fetch tool, given a URL, answers with [isError] false and a text
    that opens with the URL, whatever became of the request: a timeout, a
    refused connection, a status other than 200 and a failed conversion
    all come back as the content. *)
Theorem fetch_page_never_flags_error (arguments : list (string * json)) (url : json) :
  dict_get arguments "url" = Some url ->
  truthy url = true ->
  exists content,
    execute_tool (JStr "fetch_page_content") (JObj arguments)
    = Ret (text_envelope
             ("## Conteúdo de: " +:+ py_str url +:+ LF +:+ LF +:+ content) false)
    /\ content = _fetch_url url (default (JNum 20000) (dict_get arguments "max_length")).
Proof.
  intros Hurl Htruthy.
  unfold execute_tool, run_tool, _tool_fetch_page, py_get.
  rewrite Hurl. cbn [is_str String.eqb Ascii.eqb Bool.eqb default from_option id
                     mbind outcome_bind].
  rewrite Htruthy. cbn [negb]. eauto.
Qed.

(** POST /mcp: a body that is not JSON is answered 400 with the parse
    error and a null id.  A JSON body goes to the dispatcher: what the
    dispatcher returns is the body of the answer, with status 200, and
    what it raises leaves the handler.  So a request object is answered
    200 with the response of the dispatcher, a protocol error included,
    which carries the id of the request and a result or an error; a JSON
    body that is not an object makes [body.get] raise, and the handler
    lets the exception through. *)
Theorem mcp_post_replies (uuid : string) :
  (forall e, handle_mcp_post uuid (Raise e) = parse_error_reply)
  /\ (forall body response,
        handle_jsonrpc uuid body = Ret response ->
        handle_mcp_post uuid (Ret body) = JsonResponse 200 response)
  /\ (forall body e,
        handle_jsonrpc uuid body = Raise e ->
        handle_mcp_post uuid (Ret body) = Unhandled e)
  /\ (forall fields,
        (is_str (request_method fields) "tools/call" = true ->
         params_is_mapping fields = true) ->
        exists response,
          handle_jsonrpc uuid (JObj fields) = Ret (JObj response)
          /\ handle_mcp_post uuid (Ret (JObj fields)) = JsonResponse 200 (JObj response)
          /\ dict_get response "id"
             = Some (default (JStr uuid) (dict_get fields "id"))
          /\ (is_Some (dict_get response "result")
              \/ is_Some (dict_get response "error")))
  /\ (forall body,
        match body with JObj _ => False | _ => True end ->
        handle_jsonrpc uuid body = Raise AttributeError
        /\ handle_mcp_post uuid (Ret body) = Unhandled AttributeError).
Proof.
  split; [reflexivity|].
  split; [intros body response H; unfold handle_mcp_post; rewrite H; reflexivity|].
  split; [intros body e H; unfold handle_mcp_post; rewrite H; reflexivity|].
  split.
  - intros fields Hparams.
    destruct (handle_jsonrpc_id uuid fields Hparams) as (response & Hrun & Hid & Hfull).
    exists response. unfold handle_mcp_post. rewrite Hrun. auto.
  - intros body Hbody. destruct body; try contradiction; split; reflexivity.
Qed.

(** *** The SSE registry, further *)

Lemma delivered_write (sid sid' : string) (f : frame) (st : state) :
  delivered sid (write_frame sid' f st)
  = delivered sid st
    ++ match f with
       | MessageFrame m => if String.eqb sid' sid then [m] else []
       | _ => []
       end.
Proof.
  unfold delivered, write_frame. simpl. rewrite flat_map_app. simpl.
  rewrite app_nil_r. reflexivity.
Qed.

Lemma delivered_write_message (sid : string) (m : json) (st : state) :
  delivered sid (write_frame sid (MessageFrame m) st) = delivered sid st ++ [m].
Proof. rewrite delivered_write, String.eqb_refl. reflexivity. Qed.

Lemma delivered_sessions (sid : string) (sessions : gmap string (list json))
    (st : state) :
  delivered sid {| _sse_sessions := sessions; written := written st;
                   in_flight := in_flight st |}
  = delivered sid st.
Proof. reflexivity. Qed.

Lemma deliver_turn (sid : string) (kept : awaited) (st : state) (m : json)
    (queue : list json) :
  _sse_sessions st !! sid = Some (m :: queue) ->
  exists st',
    step st (SseTurn sid Done Done kept) = (st', None)
    /\ _sse_sessions st' !! sid = Some queue
    /\ delivered sid st' = delivered sid st ++ [m].
Proof.
  intros Hq. cbn [step]. unfold sse_turn, loop_turn. rewrite Hq.
  cbn [fst]. eexists. split; [reflexivity|]. split.
  - cbn [write_frame _sse_sessions]. apply lookup_insert_eq.
  - rewrite delivered_write_message. reflexivity.
Qed.

(** As many turns as there are messages at the front of the queue write
    those messages, in their order, and leave what stands behind them. *)
Lemma deliver_turns (sid : string) (front : list json) :
  forall (st : state) (back : list json),
    _sse_sessions st !! sid = Some (front ++ back) ->
    delivered sid (run st (replicate (length front) (SseTurn sid Done Done Done)))
    = delivered sid st ++ front
    /\ _sse_sessions (run st (replicate (length front) (SseTurn sid Done Done Done)))
         !! sid
       = Some back.
Proof.
  induction front as [|m front IH]; intros st back Hq.
  - cbn [length replicate run]. rewrite app_nil_r. auto.
  - destruct (deliver_turn sid Done st m (front ++ back) Hq) as (st' & Hstep & Hq' & Hd).
    cbn [length replicate run]. rewrite Hstep. cbn [fst].
    destruct (IH st' back Hq') as [Hdel Hrest].
    rewrite Hdel, Hrest, Hd, <- app_assoc. auto.
Qed.

(** Delivery is first in, first out: [k] turns of the loop in which a
    message is taken and written put the first [k] messages of the queue
    on the stream, in the order of the queue, and leave the others. *)
Theorem delivery_is_fifo (sid : string) (k : nat) :
  forall (st : state) (queue : list json),
    _sse_sessions st !! sid = Some queue ->
    (k <= length queue)%nat ->
    delivered sid (run st (replicate k (SseTurn sid Done Done Done)))
    = delivered sid st ++ take k queue
    /\ _sse_sessions (run st (replicate k (SseTurn sid Done Done Done))) !! sid
       = Some (drop k queue).
Proof.
  intros st queue Hq Hk.
  rewrite <- (take_drop k queue) in Hq.
  pose proof (deliver_turns sid (take k queue) st (drop k queue) Hq) as H.
  rewrite length_take, Nat.min_l in H by exact Hk.
  exact H.
Qed.

(** A response is put at the back of the queue: the responses of two
    submissions that come back from the dispatcher one after the other
    are delivered in that order, after what was queued before them. *)
Theorem responses_delivered_in_order (sid : string) (st : state)
    (queue : list json) (s1 s2 : suspended) (r1 r2 : json) :
  _sse_sessions st !! sid = Some queue ->
  susp_session s1 = sid -> susp_result s1 = Ret r1 ->
  susp_session s2 = sid -> susp_result s2 = Ret r2 ->
  delivered sid
    (run (fst (messages_resume s2 (fst (messages_resume s1 st))))
       (replicate (length queue + 2) (SseTurn sid Done Done Done)))
  = delivered sid st ++ queue ++ [r1; r2].
Proof.
  intros Hq Hs1 Hr1 Hs2 Hr2.
  set (st1 := fst (messages_resume s1 st)).
  assert (H1 : _sse_sessions st1 !! sid = Some (queue ++ [r1])
               /\ delivered sid st1 = delivered sid st).
  { unfold st1, messages_resume. rewrite Hr1, Hs1, Hq. cbn [fst _sse_sessions].
    rewrite lookup_insert_eq. auto. }
  destruct H1 as [Hq1 Hd1].
  set (st2 := fst (messages_resume s2 st1)).
  assert (H2 : _sse_sessions st2 !! sid = Some ((queue ++ [r1]) ++ [r2])
               /\ delivered sid st2 = delivered sid st1).
  { unfold st2, messages_resume. rewrite Hr2, Hs2, Hq1. cbn [fst _sse_sessions].
    rewrite lookup_insert_eq. auto. }
  destruct H2 as [Hq2 Hd2].
  rewrite <- (app_nil_r ((queue ++ [r1]) ++ [r2])) in Hq2.
  destruct (deliver_turns sid ((queue ++ [r1]) ++ [r2]) st2 [] Hq2) as [Hdel _].
  replace (length queue + 2)%nat with (length ((queue ++ [r1]) ++ [r2]))
    by (rewrite !length_app; simpl; lia).
  rewrite Hdel, Hd2, Hd1, <- !app_assoc. reflexivity.
Qed.

(** A turn of the loop of one session, its last one included, leaves
    every other session as it is: its queue and what was written to its
    stream. *)
Theorem other_sessions_untouched (sid sid' : string) (got wrote kept : awaited)
    (st : state) :
  sid <> sid' ->
  _sse_sessions (fst (sse_turn sid' got wrote kept st)) !! sid
  = _sse_sessions st !! sid
  /\ delivered sid (fst (sse_turn sid' got wrote kept st)) = delivered sid st.
Proof.
  intros Hne.
  assert (Hne' : String.eqb sid' sid = false) by (apply String.eqb_neq; congruence).
  assert (Hkeep : forall k s,
             _sse_sessions (fst (keep_alive sid' k s)) !! sid = _sse_sessions s !! sid
             /\ delivered sid (fst (keep_alive sid' k s)) = delivered sid s).
  { intros k s. destruct k; cbn [keep_alive fst]; [|auto].
    split; [reflexivity|]. rewrite delivered_write, app_nil_r. reflexivity. }
  assert (Hloop : _sse_sessions (fst (loop_turn sid' got wrote kept st)) !! sid
                  = _sse_sessions st !! sid
                  /\ delivered sid (fst (loop_turn sid' got wrote kept st))
                     = delivered sid st).
  { unfold loop_turn. destruct got as [|e].
    - destruct (_sse_sessions st !! sid') as [[|m queue]|]; cbn [fst]; auto.
      destruct wrote as [|e].
      + cbn [fst]. rewrite delivered_write, Hne', app_nil_r.
        cbn [write_frame _sse_sessions]. rewrite lookup_insert_ne by congruence.
        split; reflexivity.
      + destruct e;
          try (cbn [fst _sse_sessions]; rewrite lookup_insert_ne by congruence;
               split; reflexivity).
        destruct (Hkeep kept
                    {| _sse_sessions := <[sid' := queue]> (_sse_sessions st);
                       written := written st; in_flight := in_flight st |})
          as [Hs Hd].
        rewrite Hs, Hd. cbn [_sse_sessions].
        rewrite lookup_insert_ne by congruence. split; reflexivity.
    - destruct e; cbn [fst]; auto. }
  destruct Hloop as [Hs Hd]. unfold sse_turn.
  destruct (loop_turn sid' got wrote kept st) as [st' [e|]]; cbn [fst] in *; auto.
  unfold deregister. cbn [_sse_sessions]. rewrite lookup_delete_ne by congruence.
  rewrite <- Hd. auto.
Qed.

(** POST /messages only looks sessions up: neither half of the handler
    adds a session to the registry or takes one out. *)
Theorem submissions_keep_registry (session_id : string) (body : outcome json)
    (uuid : string) (s : suspended) (st : state) :
  dom (_sse_sessions (fst (messages_begin session_id body uuid st)))
  = dom (_sse_sessions st)
  /\ dom (_sse_sessions (fst (messages_resume s st))) = dom (_sse_sessions st).
Proof.
  split.
  - unfold messages_begin. destruct (_ || _); [reflexivity|].
    destruct body; reflexivity.
  - unfold messages_resume. destruct (susp_result s); [|reflexivity].
    destruct (_sse_sessions st !! susp_session s) as [queue|] eqn:E; [|reflexivity].
    cbn [fst _sse_sessions]. rewrite dom_insert_L.
    apply elem_of_dom_2 in E.
    apply subseteq_union_1_L, singleton_subseteq_l, E.
Qed.

(** From connection to delivery: a session connects, a request is posted
    for it, the dispatcher returns, the loop takes its next turn.  The
    POST is answered 202 and the response of the dispatcher is the first
    message on the stream of the session. *)
Theorem submitted_response_delivered (sid : string) (body response : json)
    (uuid : string) (st : state) :
  sid <> EmptyString ->
  handle_jsonrpc uuid body = Ret response ->
  snd (step (run st [SseConnect sid Done; PostMessages sid (Ret body) uuid])
         (Resume (length (in_flight st))))
  = Some accepted_reply
  /\ delivered sid
       (run st [SseConnect sid Done; PostMessages sid (Ret body) uuid;
                Resume (length (in_flight st)); SseTurn sid Done Done Done])
     = delivered sid st ++ [response].
Proof.
  intros Hsid Hdispatch. apply String.eqb_neq in Hsid.
  cbn [run step fst sse_connect].
  unfold messages_begin. cbn [write_frame _sse_sessions written in_flight].
  rewrite Hsid, lookup_insert_eq. cbn [orb fst snd _sse_sessions written in_flight].
  rewrite Hdispatch.
  rewrite list_lookup_middle by reflexivity.
  unfold messages_resume. cbn [susp_result susp_session _sse_sessions].
  rewrite lookup_insert_eq. cbn [fst snd]. split; [reflexivity|].
  unfold sse_turn, loop_turn. cbn [_sse_sessions written in_flight app].
  rewrite lookup_insert_eq. cbn [fst].
  rewrite delivered_write_message. f_equal.
  unfold delivered. simpl. rewrite flat_map_app. simpl. rewrite app_nil_r.
  reflexivity.
Qed.

End Server.

(** ** Instances *)

(** The dispatcher theorems at concrete requests. *)

Lemma unknown_method_not_found_witness :
  supported_method (request_method [("method", JStr "ping"); ("id", JNum 7)]) = false
  /\ exists response message,
       handle_jsonrpc default_config unreachable unreachable Ret exn_name no_repr
         "u" (JObj [("method", JStr "ping"); ("id", JNum 7)]) = Ret (JObj response)
       /\ dict_get response "error"
          = Some (JObj [("code", JNum (-32601)); ("message", JStr message)])
       /\ str_contains
            (py_str no_repr (request_method [("method", JStr "ping"); ("id", JNum 7)]))
            message = true
       /\ dict_get response "result" = None.
Proof.
  split; [reflexivity|].
  apply (unknown_method_not_found default_config unreachable unreachable Ret
           exn_name no_repr "u" [("method", JStr "ping"); ("id", JNum 7)]).
  reflexivity.
Defined.

Lemma supported_method_echoes_id_witness :
  exists response,
    handle_jsonrpc default_config unreachable unreachable Ret exn_name no_repr "u"
      (JObj [("jsonrpc", JStr "2.0"); ("id", JNum 3); ("method", JStr "tools/call");
             ("params", JObj [("name", JStr "web_search"); ("arguments", JObj [])])])
    = Ret (JObj response)
    /\ dict_get response "id" = Some (JNum 3).
Proof.
  apply (supported_method_echoes_id default_config unreachable unreachable Ret
           exn_name no_repr "u"
           [("jsonrpc", JStr "2.0"); ("id", JNum 3); ("method", JStr "tools/call");
            ("params", JObj [("name", JStr "web_search"); ("arguments", JObj [])])]
           (JNum 3)); reflexivity.
Defined.



(** An explicit null id is echoed as null. *)
Example null_id_echoed :
  handle_jsonrpc default_config unreachable unreachable Ret exn_name no_repr "u"
    (JObj [("id", JNull); ("method", JStr "notifications/initialized")])
  = Ret (rpc_result JNull (JObj [])).
Proof. reflexivity. Qed.

(** [tools/call] with positional parameters: [params.get] raises, and the
    dispatcher lets the exception through. *)
Example positional_params_raise :
  handle_jsonrpc default_config unreachable unreachable Ret exn_name no_repr "u"
    (JObj [("id", JNum 1); ("method", JStr "tools/call"); ("params", JArr [JStr "web_search"])])
  = Raise AttributeError.
Proof. reflexivity. Qed.

Lemma missing_required_parameter_witness :
  exists envelope block,
    execute_tool default_config unreachable unreachable Ret exn_name no_repr
      (JStr "fetch_page_content") (JObj [("max_length", JNum 100)]) = Ret envelope
    /\ envelope_is_error envelope = Some true
    /\ envelope_content envelope = [block]
    /\ block_text block = "Erro: Parâmetro '" +:+ "url" +:+ "' é obrigatório".
Proof.
  apply (missing_required_parameter default_config unreachable unreachable Ret
           exn_name no_repr "fetch_page_content" "url" [("max_length", JNum 100)]);
    reflexivity.
Defined.

Lemma unsupported_content_type_not_flagged_witness :
  exists envelope block,
    execute_tool default_config unreachable (site_serving "application/pdf" "%PDF-1.7")
      Ret exn_name no_repr
      (JStr "fetch_page_content") (JObj [("url", JStr "http://example.org/a.pdf")])
    = Ret envelope
    /\ envelope_is_error envelope = Some false
    /\ envelope_content envelope = [block]
    /\ str_contains "application/pdf" (block_text block) = true.
Proof.
  apply (unsupported_content_type_not_flagged default_config unreachable
           (site_serving "application/pdf" "%PDF-1.7") Ret exn_name no_repr
           [("url", JStr "http://example.org/a.pdf")]
           (JStr "http://example.org/a.pdf")
           {| resp_status := 200;
              resp_content_type := Some "application/pdf";
              resp_text := inr "%PDF-1.7";
              resp_json := inl (HttpException JSONDecodeError) |});
    reflexivity.
Defined.

Lemma safesearch_default_not_sent_witness :
  (exists params,
      web_search_params (JObj [("query", JStr "rust")]) (JStr "rust") = Ret params
      /\ dict_get (sent_params params) "safesearch" = None)
  /\ (exists params,
        images_search_params (JObj [("query", JStr "rust")]) (JStr "rust") = Ret params
        /\ dict_get (sent_params params) "safesearch" = None)
  /\ declared_default "web_search" "safesearch" = Some (JNum 0)
  /\ declared_default "images_search" "safesearch" = Some (JNum 1).
Proof.
  apply (safesearch_default_not_sent [("query", JStr "rust")] (JStr "rust")).
  reflexivity.
Defined.

(** The parameter sets of the two tools for the call [{query: "rust"}], as
    they reach the backend. *)
Example web_search_sent_params :
  (params ← web_search_params (JObj [("query", JStr "rust")]) (JStr "rust");
   Ret (sent_params params))
  = Ret [("q", JStr "rust"); ("categories", JStr "general"); ("format", JStr "json")].
Proof. reflexivity. Qed.

Example images_search_sent_params :
  (params ← images_search_params (JObj [("query", JStr "rust")]) (JStr "rust");
   Ret (sent_params params))
  = Ret [("q", JStr "rust"); ("categories", JStr "images"); ("format", JStr "json")].
Proof. reflexivity. Qed.

(** Three results and [max_results = 2]: two subsections. *)
Lemma max_results_caps_subsections_witness :
  Z.of_nat (subsection_count
              (search_outline no_repr
                 (JObj [("results", JArr [JObj [("title", JStr "A")];
                                          JObj [("title", JStr "B")];
                                          JObj [("title", JStr "C")]]);
                        ("number_of_results", JNum 3000)])
                 (JNum 2) (JStr "rust") false)) <= 2
  /\ Z.of_nat (subsection_count
                 (image_outline no_repr
                    (JObj [("results", JArr [JObj [("title", JStr "A")];
                                             JObj [("title", JStr "B")];
                                             JObj [("title", JStr "C")]]);
                           ("number_of_results", JNum 3000)])
                    (JNum 2) (JStr "rust"))) <= 2.
Proof.
  apply (max_results_caps_subsections no_repr
           (JObj [("results", JArr [JObj [("title", JStr "A")];
                                    JObj [("title", JStr "B")];
                                    JObj [("title", JStr "C")]]);
                  ("number_of_results", JNum 3000)])
           (JStr "rust") 2 false).
  lia.
Defined.

Example two_of_three_results :
  subsection_count
    (search_outline no_repr
       (JObj [("results", JArr [JObj [("title", JStr "A")];
                                JObj [("title", JStr "B")];
                                JObj [("title", JStr "C")]]);
              ("number_of_results", JNum 3000)])
       (JNum 2) (JStr "rust") false) = 2%nat.
Proof. reflexivity. Qed.

(** C6 as stated fails for a negative [max_results]: the slice
    [results[:-1]] keeps all but the last result, so three results give
    two subsections, which is more than -1. *)
Lemma negative_max_results_is_no_cap :
  ~ (Z.of_nat (subsection_count
                 (search_outline no_repr
                    (JObj [("results", JArr [JObj [("title", JStr "A")];
                                             JObj [("title", JStr "B")];
                                             JObj [("title", JStr "C")]])])
                    (JNum (-1)) (JStr "rust") false)) <= -1).
Proof.
  assert (E : subsection_count
                (search_outline no_repr
                   (JObj [("results", JArr [JObj [("title", JStr "A")];
                                            JObj [("title", JStr "B")];
                                            JObj [("title", JStr "C")]])])
                   (JNum (-1)) (JStr "rust") false) = 2%nat) by reflexivity.
  rewrite E. lia.
Qed.

(** The same call through [execute_tool]. *)
Example negative_max_results_answer :
  execute_tool default_config
    (backend_answering
       (JObj [("results", JArr [JObj [("title", JStr "A")];
                                JObj [("title", JStr "B")];
                                JObj [("title", JStr "C")]])]))
    unreachable Ret exn_name no_repr
    (JStr "web_search") (JObj [("query", JStr "rust"); ("max_results", JNum (-1))])
  = Ret (text_envelope
           ("## Resultados de busca (web): " +:+ DQ +:+ "rust" +:+ DQ +:+ LF +:+ LF
            +:+ "### 1. [A]()" +:+ LF +:+ LF
            +:+ "### 2. [B]()" +:+ LF)
           false).
Proof. reflexivity. Qed.

(** A session is opened and cancelled; another one connects and idles; a
    submission for the first is then turned away. *)
Lemma closed_session_rejects_submissions_witness :
  _sse_sessions
    (fst (sse_turn "s1" (Raised CancelledError) Done Done
            (sse_connect "s1" Done initial_state))) !! "s1" = None
  /\ step default_config unreachable unreachable Ret exn_name no_repr
       (run default_config unreachable unreachable Ret exn_name no_repr
          (fst (sse_turn "s1" (Raised CancelledError) Done Done
                  (sse_connect "s1" Done initial_state)))
          [SseConnect "s2" Done; SseTurn "s2" (Raised TimeoutError) Done Done])
       (PostMessages "s1" (Ret (JObj [("id", JNum 1); ("method", JStr "tools/list")])) "u")
     = (run default_config unreachable unreachable Ret exn_name no_repr
          (fst (sse_turn "s1" (Raised CancelledError) Done Done
                  (sse_connect "s1" Done initial_state)))
          [SseConnect "s2" Done; SseTurn "s2" (Raised TimeoutError) Done Done],
        Some session_error_reply).
Proof.
  apply (closed_session_rejects_submissions default_config unreachable unreachable
           Ret exn_name no_repr "s1" (Raised CancelledError) Done Done
           (sse_connect "s1" Done initial_state)
           [SseConnect "s2" Done; SseTurn "s2" (Raised TimeoutError) Done Done]
           (Ret (JObj [("id", JNum 1); ("method", JStr "tools/list")])) "u");
    reflexivity.
Defined.

Lemma session_closed_during_dispatch_witness :
  exists s,
    messages_begin default_config unreachable unreachable Ret exn_name no_repr
      "s1" (Ret (JObj [("id", JNum 1); ("method", JStr "notifications/initialized")]))
      "u" (sse_connect "s1" Done initial_state)
    = ({| _sse_sessions := _sse_sessions (sse_connect "s1" Done initial_state);
          written := written (sse_connect "s1" Done initial_state);
          in_flight := in_flight (sse_connect "s1" Done initial_state) ++ [s] |}, None)
    /\ susp_session s = "s1"
    /\ susp_result s = Ret (rpc_result (JNum 1) (JObj []))
    /\ messages_resume s
         (fst (sse_turn "s1" (Raised ConnectionResetError) Done Done
                 (sse_connect "s1" Done initial_state)))
       = (fst (sse_turn "s1" (Raised ConnectionResetError) Done Done
                 (sse_connect "s1" Done initial_state)),
          accepted_reply).
Proof.
  apply (session_closed_during_dispatch default_config unreachable unreachable
           Ret exn_name no_repr "s1"
           (JObj [("id", JNum 1); ("method", JStr "notifications/initialized")])
           (rpc_result (JNum 1) (JObj [])) "u"
           (sse_connect "s1" Done initial_state)
           (fst (sse_turn "s1" (Raised ConnectionResetError) Done Done
                   (sse_connect "s1" Done initial_state)))).
  - discriminate.
  - vm_compute. eexists. reflexivity.
  - reflexivity.
  - vm_compute. reflexivity.
Defined.

(** The same story as a run of the event loop: the session connects, a
    submission for it suspends in the dispatcher, the peer goes away, the
    submission resumes.  It is answered 202, and its response is in no
    queue and on no stream. *)
Example response_dropped_after_disconnect :
  let st := run default_config unreachable unreachable Ret exn_name no_repr
              initial_state
              [SseConnect "s1" Done;
               PostMessages "s1"
                 (Ret (JObj [("id", JNum 1); ("method", JStr "notifications/initialized")]))
                 "u";
               SseTurn "s1" (Raised ConnectionResetError) Done Done] in
  snd (step default_config unreachable unreachable Ret exn_name no_repr st (Resume 0))
  = Some accepted_reply
  /\ _sse_sessions
       (fst (step default_config unreachable unreachable Ret exn_name no_repr st (Resume 0)))
     = ∅
  /\ written
       (fst (step default_config unreachable unreachable Ret exn_name no_repr st (Resume 0)))
     = [("s1", EndpointFrame "/messages?sessionId=s1")]
  /\ in_flight
       (fst (step default_config unreachable unreachable Ret exn_name no_repr st (Resume 0)))
     = [].
Proof. vm_compute. repeat split. Qed.

(** The awaits that stand before the [try] of [handle_sse] are not covered
    by its [finally]: when they fail, the session stays registered. *)
Example connect_failure_leaves_session :
  _sse_sessions (sse_connect "s1" (Raised ConnectionResetError) initial_state) !! "s1"
  = Some [].
Proof. vm_compute. reflexivity. Qed.

(** With the session still open the response is queued, and the next turn
    of the loop writes it to the stream. *)
Example response_delivered_when_open :
  written
    (run default_config unreachable unreachable Ret exn_name no_repr
       initial_state
       [SseConnect "s1" Done;
        PostMessages "s1"
          (Ret (JObj [("id", JNum 1); ("method", JStr "notifications/initialized")]))
          "u";
        Resume 0;
        SseTurn "s1" Done Done Done])
  = [("s1", MessageFrame (rpc_result (JNum 1) (JObj [])));
     ("s1", EndpointFrame "/messages?sessionId=s1")].
Proof. vm_compute. reflexivity. Qed.

(** ** The pipe framing *)

Lemma str_app_cons (x : ascii) (a b : string) :
  String x a +:+ b = String x (a +:+ b).
Proof. reflexivity. Qed.

Lemma str_app_nil_l (b : string) : EmptyString +:+ b = b.
Proof. reflexivity. Qed.

(** Pushes the appends of a goal through the literal prefixes. *)
Ltac push_app := repeat (rewrite str_app_cons || rewrite str_app_nil_l).

Lemma str_app_assoc (a b c : string) : (a +:+ b) +:+ c = a +:+ (b +:+ c).
Proof. induction a as [|x a IH]; push_app; [reflexivity | rewrite IH; reflexivity]. Qed.

Lemma str_app_nil_r (a : string) : a +:+ EmptyString = a.
Proof. induction a as [|x a IH]; push_app; [reflexivity | rewrite IH; reflexivity]. Qed.

Lemma str_length_app (a b : string) :
  String.length (a +:+ b) = (String.length a + String.length b)%nat.
Proof.
  induction a as [|x a IH]; push_app; simpl; [reflexivity | rewrite IH; reflexivity].
Qed.

Lemma str_forall_app (P : ascii -> bool) (a b : string) :
  str_forall P (a +:+ b) = str_forall P a && str_forall P b.
Proof.
  induction a as [|x a IH]; push_app; simpl; [reflexivity|].
  rewrite IH. apply andb_assoc.
Qed.

Lemma str_forall_impl (P Q : ascii -> bool) (s : string) :
  (forall c, P c = true -> Q c = true) ->
  str_forall P s = true -> str_forall Q s = true.
Proof.
  intros HPQ. induction s as [|c s IH]; simpl; [reflexivity|].
  intros H. apply andb_true_iff in H as [Hc Hs].
  rewrite (HPQ c Hc), (IH Hs). reflexivity.
Qed.

Lemma str_take_app (a b : string) : str_take (String.length a) (a +:+ b) = a.
Proof.
  induction a as [|x a IH]; push_app; simpl;
    [destruct b; reflexivity | rewrite IH; reflexivity].
Qed.

Lemma str_drop_app (a b : string) : str_drop (String.length a) (a +:+ b) = b.
Proof.
  induction a as [|x a IH]; push_app; simpl; [destruct b; reflexivity | exact IH].
Qed.

(** *** Decimal numerals *)

Lemma in_range_spec (lo hi : nat) (c : ascii) :
  in_range lo hi c = true <-> (lo <= nat_of_ascii c <= hi)%nat.
Proof.
  unfold in_range. rewrite andb_true_iff, Nat.leb_le, Nat.leb_le. reflexivity.
Qed.

Lemma nat_of_digit_char (d : Z) :
  0 <= d < 10 -> nat_of_ascii (digit_char d) = (48 + Z.to_nat d)%nat.
Proof. intros Hd. unfold digit_char. apply nat_ascii_embedding. lia. Qed.

Lemma digit_char_is_digit (d : Z) : 0 <= d < 10 -> is_digit (digit_char d) = true.
Proof.
  intros Hd. unfold is_digit. apply in_range_spec.
  rewrite nat_of_digit_char by exact Hd. lia.
Qed.

Lemma digit_of_digit_char (d : Z) : 0 <= d < 10 -> digit_of (digit_char d) = Some d.
Proof.
  intros Hd. unfold digit_of.
  pose proof (digit_char_is_digit d Hd) as H. unfold is_digit in H. rewrite H.
  rewrite nat_of_digit_char by exact Hd. f_equal. lia.
Qed.

Lemma mod10_digit (n : Z) : 0 <= n mod 10 < 10.
Proof. apply Z.mod_pos_bound. lia. Qed.

(** Reading back the numeral of [n]: the digits written in front of [t]
    leave the reader at [t] with [n] accumulated. *)
Lemma int_digits_digit (d acc : Z) (t : string) (after_digit : bool) :
  0 <= d < 10 ->
  int_digits (String (digit_char d) t) acc after_digit
  = int_digits t (acc * 10 + d) true.
Proof.
  intros Hd. cbn [int_digits]. rewrite digit_of_digit_char by exact Hd. reflexivity.
Qed.

Lemma digits_fuel_step (fuel : nat) (n : Z) (t : string) :
  digits_fuel (S fuel) n t
  = if n <? 10 then String (digit_char (n mod 10)) t
    else digits_fuel fuel (n / 10) (String (digit_char (n mod 10)) t).
Proof. reflexivity. Qed.

(** Reading back the numeral of [n]: the digits written in front of [t]
    leave the reader at [t] with [n] accumulated. *)
Lemma int_digits_digits_fuel (fuel : nat) :
  forall (n : Z) (t : string),
    0 <= n < 2 ^ Z.of_nat (S fuel) ->
    int_digits (digits_fuel (S fuel) n t) 0 false = int_digits t n true.
Proof.
  induction fuel as [|fuel IH]; intros n t Hn; rewrite digits_fuel_step.
  - change (2 ^ Z.of_nat 1) with 2 in Hn.
    destruct (n <? 10) eqn:E; [|apply Z.ltb_ge in E; lia].
    rewrite int_digits_digit by apply mod10_digit.
    rewrite Z.mod_small by lia. reflexivity.
  - destruct (n <? 10) eqn:E.
    + apply Z.ltb_lt in E.
      rewrite int_digits_digit by apply mod10_digit.
      rewrite Z.mod_small by lia. reflexivity.
    + apply Z.ltb_ge in E.
      rewrite IH.
      * rewrite int_digits_digit by apply mod10_digit.
        f_equal. pose proof (Z.div_mod n 10). lia.
      * split; [apply Z.div_pos; lia|].
        apply Z.div_lt_upper_bound; [lia|].
        rewrite Nat2Z.inj_succ, Z.pow_succ_r in Hn by lia. lia.
Qed.

Lemma digits_fuel_all_digits (fuel : nat) :
  forall (n : Z) (t : string),
    str_forall is_digit t = true ->
    str_forall is_digit (digits_fuel fuel n t) = true.
Proof.
  induction fuel as [|fuel IH]; intros n t Ht; [exact Ht|].
  rewrite digits_fuel_step.
  assert (Hacc : str_forall is_digit (String (digit_char (n mod 10)) t) = true).
  { cbn [str_forall]. rewrite digit_char_is_digit by apply mod10_digit. exact Ht. }
  destruct (n <? 10); [exact Hacc | apply IH, Hacc].
Qed.

Lemma digits_fuel_nonempty (fuel : nat) :
  forall (n : Z) (t : string),
    t <> EmptyString -> digits_fuel fuel n t <> EmptyString.
Proof.
  induction fuel as [|fuel IH]; intros n t Ht; [exact Ht|].
  rewrite digits_fuel_step.
  destruct (n <? 10); [discriminate | apply IH; discriminate].
Qed.

Lemma fuel_of_log2 (n : Z) : 0 <= n -> n < 2 ^ Z.of_nat (S (Z.to_nat (Z.log2 n))).
Proof.
  intros Hn. rewrite Nat2Z.inj_succ, Z2Nat.id by apply Z.log2_nonneg.
  destruct (Z.eq_dec n 0) as [->|Hne]; [reflexivity|].
  apply Z.log2_spec. lia.
Qed.

Lemma int_digits_digits (n : Z) : 0 <= n -> int_digits (digits n) 0 false = Some n.
Proof.
  intros Hn. unfold digits.
  rewrite int_digits_digits_fuel by (split; [exact Hn | apply fuel_of_log2, Hn]).
  reflexivity.
Qed.

Lemma digits_all_digits (n : Z) : str_forall is_digit (digits n) = true.
Proof. apply digits_fuel_all_digits. reflexivity. Qed.

Lemma digits_nonempty (n : Z) : digits n <> EmptyString.
Proof.
  unfold digits. rewrite digits_fuel_step. destruct (n <? 10); [discriminate|].
  apply digits_fuel_nonempty. discriminate.
Qed.

(** A decimal digit is a plain character: seven bits, no white space, no
    line feed, no sign. *)
Lemma digit_plain (c : ascii) :
  is_digit c = true ->
  is_ascii7 c = true /\ space_byte c = false /\ not_line_feed c = true
  /\ Ascii.eqb c "-"%char = false /\ Ascii.eqb c "+"%char = false.
Proof.
  destruct c as [[] [] [] [] [] [] [] []]; vm_compute; intros H;
    try discriminate H; repeat split.
Qed.

(** *** Characters of a seven-bit string *)

Lemma take_continuation_ascii (s : string) :
  str_forall is_ascii7 s = true -> take_continuation s = (EmptyString, s).
Proof.
  destruct s as [|c s]; [reflexivity|].
  cbn [str_forall take_continuation]. intros H. apply andb_true_iff in H as [Hc _].
  assert (E : is_continuation c = false).
  { apply in_range_spec in Hc. unfold is_continuation.
    apply andb_false_iff. left. apply Nat.leb_gt. lia. }
  rewrite E. reflexivity.
Qed.

Lemma py_chars_fuel_ascii (s : string) :
  forall fuel : nat,
    (String.length s <= fuel)%nat ->
    str_forall is_ascii7 s = true ->
    py_chars_fuel fuel s = singletons s.
Proof.
  induction s as [|c s IH]; intros fuel Hfuel Hs.
  - destruct fuel; reflexivity.
  - destruct fuel as [|fuel]; [simpl in Hfuel; lia|].
    cbn [str_forall] in Hs. apply andb_true_iff in Hs as [Hc Hs].
    cbn [py_chars_fuel singletons].
    rewrite take_continuation_ascii by exact Hs.
    rewrite IH; [reflexivity | simpl in Hfuel; lia | exact Hs].
Qed.

Lemma py_chars_ascii (s : string) :
  str_forall is_ascii7 s = true -> py_chars s = singletons s.
Proof. intros H. apply py_chars_fuel_ascii; [lia | exact H]. Qed.

Lemma singletons_app (a b : string) :
  singletons (a +:+ b) = singletons a ++ singletons b.
Proof.
  induction a as [|x a IH]; push_app; cbn [singletons]; [reflexivity|].
  rewrite IH. reflexivity.
Qed.

Lemma str_concat_singletons (s : string) : str_concat (singletons s) = s.
Proof.
  induction s as [|c s IH]; [reflexivity|].
  cbn [singletons str_concat fold_right]. fold (str_concat (singletons s)).
  rewrite IH. reflexivity.
Qed.

Lemma singletons_spaces (s : string) :
  str_forall space_byte s = true -> Forall (fun x => is_space x = true) (singletons s).
Proof.
  induction s as [|c s IH]; cbn [str_forall singletons]; intros H; constructor.
  - apply andb_true_iff in H as [Hc _]. exact Hc.
  - apply IH. apply andb_true_iff in H as [_ Hs]. exact Hs.
Qed.

Lemma singletons_nonspaces (s : string) :
  str_forall (fun c => negb (space_byte c)) s = true ->
  Forall (fun x => is_space x = false) (singletons s).
Proof.
  induction s as [|c s IH]; cbn [str_forall singletons]; intros H; constructor.
  - apply andb_true_iff in H as [Hc _]. apply negb_true_iff in Hc. exact Hc.
  - apply IH. apply andb_true_iff in H as [_ Hs]. exact Hs.
Qed.

(** *** [strip] *)

Lemma drop_space_spaces (l rest : list string) :
  Forall (fun x => is_space x = true) l -> drop_space (l ++ rest) = drop_space rest.
Proof.
  induction 1 as [|x l Hx _ IH]; [reflexivity|].
  cbn [app drop_space]. rewrite Hx. exact IH.
Qed.

Lemma drop_space_stop (x : string) (l : list string) :
  is_space x = false -> drop_space (x :: l) = x :: l.
Proof. intros H. cbn [drop_space]. rewrite H. reflexivity. Qed.

Lemma drop_space_first_nonspace (s : string) (rest : list string) :
  first_nonspace s = true ->
  drop_space (singletons s ++ rest) = singletons s ++ rest.
Proof.
  destruct s as [|c s]; [discriminate|].
  cbn [first_nonspace singletons app]. intros H. apply negb_true_iff in H.
  apply drop_space_stop. exact H.
Qed.

Lemma drop_space_rev_nonspaces (s : string) (rest : list string) :
  s <> EmptyString ->
  str_forall (fun c => negb (space_byte c)) s = true ->
  drop_space (rev (singletons s) ++ rest) = rev (singletons s) ++ rest.
Proof.
  intros Hne Hs.
  pose proof (Forall_rev (singletons_nonspaces s Hs)) as Hall.
  destruct (rev (singletons s)) as [|x l] eqn:E.
  - apply (f_equal (@rev string)) in E. rewrite rev_involutive in E.
    destruct s; [contradiction | discriminate].
  - cbn [app]. apply drop_space_stop. inversion Hall; assumption.
Qed.

(** Stripping takes the white space off both ends of a seven-bit string
    and nothing else. *)
Lemma py_strip_trim (pre body tail post : string) :
  str_forall is_ascii7 (pre +:+ (body +:+ tail) +:+ post) = true ->
  str_forall space_byte pre = true ->
  str_forall space_byte post = true ->
  first_nonspace (body +:+ tail) = true ->
  tail <> EmptyString ->
  str_forall (fun c => negb (space_byte c)) tail = true ->
  py_strip (pre +:+ (body +:+ tail) +:+ post) = body +:+ tail.
Proof.
  intros Hascii Hpre Hpost Hfirst Hne Htail. unfold py_strip.
  rewrite py_chars_ascii by exact Hascii.
  rewrite !singletons_app.
  rewrite drop_space_spaces by (apply singletons_spaces, Hpre).
  rewrite <- (singletons_app body tail).
  rewrite drop_space_first_nonspace by exact Hfirst.
  rewrite rev_app_distr.
  rewrite drop_space_spaces by (apply Forall_rev, singletons_spaces, Hpost).
  rewrite <- (app_nil_r (rev (singletons (body +:+ tail)))).
  rewrite singletons_app, rev_app_distr, <- app_assoc.
  rewrite drop_space_rev_nonspaces by assumption.
  rewrite app_assoc, app_nil_r, <- rev_app_distr, rev_involutive.
  rewrite <- singletons_app. apply str_concat_singletons.
Qed.

Lemma digits_props (n : Z) (P : ascii -> bool) :
  (forall c, is_digit c = true -> P c = true) ->
  str_forall P (digits n) = true.
Proof. intros H. eapply str_forall_impl; [exact H | apply digits_all_digits]. Qed.

Lemma digits_ascii7 (n : Z) : str_forall is_ascii7 (digits n) = true.
Proof. apply digits_props. intros c H. apply digit_plain in H. tauto. Qed.

Lemma digits_nonspace (n : Z) :
  str_forall (fun c => negb (space_byte c)) (digits n) = true.
Proof.
  apply digits_props. intros c H. apply digit_plain in H.
  destruct H as (_ & -> & _). reflexivity.
Qed.

Lemma digits_one_line (n : Z) : str_forall not_line_feed (digits n) = true.
Proof. apply digits_props. intros c H. apply digit_plain in H. tauto. Qed.

Lemma digits_first_nonspace (n : Z) : first_nonspace (digits n) = true.
Proof.
  pose proof (digits_nonspace n) as H. pose proof (digits_nonempty n) as Hne.
  destruct (digits n) as [|c s]; [contradiction|].
  cbn [str_forall] in H. apply andb_true_iff in H as [Hc _]. exact Hc.
Qed.

Lemma py_strip_digits (n : Z) : py_strip (digits n) = digits n.
Proof.
  pose proof (py_strip_trim EmptyString EmptyString (digits n) EmptyString) as H.
  rewrite !str_app_nil_l, str_app_nil_r in H.
  apply H; auto using digits_ascii7, digits_first_nonspace, digits_nonempty,
             digits_nonspace.
Qed.

(** [int(str(n)) == n] for a length. *)
Lemma py_int_digits (n : Z) : 0 <= n -> py_int (digits n) = Ret n.
Proof.
  intros Hn. unfold py_int. rewrite py_strip_digits.
  pose proof (digits_all_digits n) as Hd. pose proof (int_digits_digits n Hn) as Hr.
  destruct (digits n) as [|c s]; [discriminate Hr|].
  cbn [str_forall] in Hd. apply andb_true_iff in Hd as [Hc _].
  apply digit_plain in Hc. destruct Hc as (_ & _ & _ & -> & ->).
  rewrite Hr. reflexivity.
Qed.

(** *** Reading the frame *)

Lemma utf8_valid_ascii (s : string) :
  str_forall is_ascii7 s = true -> utf8_valid s = true.
Proof.
  induction s as [|c s IH]; [reflexivity|].
  cbn [str_forall utf8_valid]. intros H. apply andb_true_iff in H as [Hc Hs].
  unfold is_ascii7 in Hc. rewrite Hc. apply IH, Hs.
Qed.

Lemma readline_app (s t : string) :
  str_forall not_line_feed s = true ->
  readline (s +:+ t) = (s +:+ fst (readline t), snd (readline t)).
Proof.
  induction s as [|c s IH]; push_app; intros H.
  - destruct (readline t); reflexivity.
  - cbn [str_forall] in H. apply andb_true_iff in H as [Hc Hs].
    unfold not_line_feed in Hc. apply negb_true_iff in Hc.
    cbn [readline]. rewrite Hc, (IH Hs). reflexivity.
Qed.

Lemma readline_line_feed (t : string) :
  readline (String (ascii_of_nat 10) t) = (String (ascii_of_nat 10) EmptyString, t).
Proof. reflexivity. Qed.

(** A line that ends in a line feed is read as a whole. *)
Lemma readline_line (s t : string) :
  str_forall not_line_feed s = true ->
  readline (s +:+ String (ascii_of_nat 10) t)
  = (s +:+ String (ascii_of_nat 10) EmptyString, t).
Proof. intros H. rewrite readline_app by exact H. reflexivity. Qed.

Lemma readexactly_app (body rest : string) :
  readexactly (Z.of_nat (String.length body)) (body +:+ rest) = (Ret body, rest).
Proof.
  unfold readexactly. rewrite str_length_app.
  assert (E : (Z.of_nat (String.length body) <? 0) = false) by (apply Z.ltb_ge; lia).
  assert (E' : (Z.of_nat (String.length body + String.length rest)
                <? Z.of_nat (String.length body)) = false) by (apply Z.ltb_ge; lia).
  rewrite E, E', Nat2Z.id, str_take_app, str_drop_app. reflexivity.
Qed.

Lemma read_headers_step (fuel : nat) (input : string) (headers : gmap string string) :
  read_headers (S fuel) input headers
  = let '(line, rest) := readline input in
    if String.eqb line EmptyString then (Ret None, rest)
    else
      match decode_utf8 line with
      | Raise e => (Raise e, rest)
      | Ret text =>
          let text := py_strip text in
          if String.eqb text EmptyString then (Ret (Some headers), rest)
          else
            match split_colon text with
            | Some (key, value) =>
                read_headers fuel rest
                  (<[py_lower (py_strip key) := py_strip value]> headers)
            | None => read_headers fuel rest headers
            end
      end.
Proof. reflexivity. Qed.

(** A header line [key: value] is entered in the dictionary. *)
Lemma read_header_line (fuel : nat) (input line rest text key value : string)
    (headers : gmap string string) :
  readline input = (line, rest) ->
  String.eqb line EmptyString = false ->
  str_forall is_ascii7 line = true ->
  py_strip line = text ->
  String.eqb text EmptyString = false ->
  split_colon text = Some (key, value) ->
  read_headers (S fuel) input headers
  = read_headers fuel rest (<[py_lower (py_strip key) := py_strip value]> headers).
Proof.
  intros Hline Hne Hascii Hstrip Htext Hsplit.
  rewrite read_headers_step, Hline. cbv beta iota zeta.
  rewrite Hne. unfold decode_utf8. rewrite utf8_valid_ascii by exact Hascii.
  rewrite Hstrip, Htext, Hsplit. reflexivity.
Qed.

(** The empty line ends the headers. *)
Lemma read_blank_line (fuel : nat) (input line rest : string)
    (headers : gmap string string) :
  readline input = (line, rest) ->
  String.eqb line EmptyString = false ->
  str_forall is_ascii7 line = true ->
  py_strip line = EmptyString ->
  read_headers (S fuel) input headers = (Ret (Some headers), rest).
Proof.
  intros Hline Hne Hascii Hstrip.
  rewrite read_headers_step, Hline. cbv beta iota zeta.
  rewrite Hne. unfold decode_utf8. rewrite utf8_valid_ascii by exact Hascii.
  rewrite Hstrip. reflexivity.
Qed.

(** The header block that [write_message] produces for a body of [n]
    bytes, followed by anything: one header, [content-length], with the
    numeral of [n]. *)
Lemma read_headers_frame (fuel : nat) (n : Z) (after : string) :
  read_headers (S (S fuel))
    ("Content-Length: " +:+ digits n +:+ CR +:+ LF +:+ CR +:+ LF +:+ after) ∅
  = (Ret (Some {["content-length" := digits n]}), after).
Proof.
  set (cr := ascii_of_nat 13). set (lf := ascii_of_nat 10).
  assert (Hshape : "Content-Length: " +:+ digits n +:+ CR +:+ LF +:+ CR +:+ LF +:+ after
                   = ("Content-Length: " +:+ digits n +:+ String cr EmptyString)
                     +:+ String lf (String cr (String lf after))).
  { rewrite !str_app_assoc. reflexivity. }
  rewrite Hshape.
  rewrite (read_header_line (S fuel) _
             (("Content-Length: " +:+ digits n +:+ String cr EmptyString)
              +:+ String lf EmptyString)
             (String cr (String lf after))
             ("Content-Length: " +:+ digits n)
             "Content-Length" (" " +:+ digits n)).
  - rewrite (read_blank_line fuel _ (String cr (String lf EmptyString)) after);
      try reflexivity.
    assert (Hkey : py_lower (py_strip "Content-Length") = "content-length")
      by (vm_compute; reflexivity).
    assert (Hvalue : py_strip (" " +:+ digits n) = digits n).
    { pose proof (py_strip_trim " " EmptyString (digits n) EmptyString) as H.
      rewrite !str_app_nil_l, str_app_nil_r in H.
      apply H; auto using digits_first_nonspace, digits_nonempty, digits_nonspace.
      push_app. cbn [str_forall]. rewrite digits_ascii7. reflexivity. }
    rewrite Hkey, Hvalue. reflexivity.
  - apply readline_line.
    rewrite !str_forall_app, digits_one_line. reflexivity.
  - push_app. reflexivity.
  - rewrite !str_forall_app, digits_ascii7. reflexivity.
  - pose proof (py_strip_trim EmptyString "Content-Length: " (digits n)
                  (String cr (String lf EmptyString))) as H.
    rewrite str_app_nil_l in H. rewrite <- H.
    + f_equal. rewrite !str_app_assoc. reflexivity.
    + rewrite !str_forall_app, digits_ascii7. reflexivity.
    + reflexivity.
    + reflexivity.
    + push_app. reflexivity.
    + apply digits_nonempty.
    + apply digits_nonspace.
  - push_app. reflexivity.
  - push_app. reflexivity.
Qed.

Section FramingFacts.

Variable json_dumps : json -> string.
Variable json_loads : string -> outcome json.

Lemma written_frame (message : json) (rest : string) :
  write_message json_dumps message +:+ rest
  = "Content-Length: " +:+ digits (Z.of_nat (String.length (json_dumps message)))
    +:+ CR +:+ LF +:+ CR +:+ LF +:+ (json_dumps message +:+ rest).
Proof.
  unfold write_message, frame_header, dec.
  assert (E : (Z.of_nat (String.length (json_dumps message)) <? 0) = false)
    by (apply Z.ltb_ge; lia).
  rewrite E, !str_app_assoc. reflexivity.
Qed.

(** C7: whatever [write_message] writes for a message, [read_message]
    reads back as that message, leaving the rest of the input for the
    next call; the length the reader takes from the [Content-Length]
    header is the number of bytes of the body.  The JSON codec of the
    standard library is taken to give the message back and to produce at
    least one byte. *)
Theorem framing_round_trip (message : json) (rest : string) :
  json_loads (json_dumps message) = Ret message ->
  json_dumps message <> EmptyString ->
  read_message json_loads (write_message json_dumps message +:+ rest)
  = (Ret (Some message), rest)
  /\ exists headers,
       read_headers (S (String.length (write_message json_dumps message +:+ rest)))
         (write_message json_dumps message +:+ rest) ∅
       = (Ret (Some headers), json_dumps message +:+ rest)
       /\ content_length headers
          = Ret (Z.of_nat (String.length (json_dumps message))).
Proof.
  intros Hcodec Hbody.
  set (n := Z.of_nat (String.length (json_dumps message))).
  assert (Hheaders :
            read_headers (S (String.length (write_message json_dumps message +:+ rest)))
              (write_message json_dumps message +:+ rest) ∅
            = (Ret (Some {["content-length" := digits n]}),
               json_dumps message +:+ rest)).
  { rewrite written_frame. fold n.
    rewrite str_length_app. cbn [String.length Nat.add].
    apply read_headers_frame. }
  assert (Hlength : content_length {["content-length" := digits n]} = Ret n).
  { unfold content_length. rewrite lookup_singleton_eq.
    apply py_int_digits. unfold n. lia. }
  split; [|eauto].
  unfold read_message. rewrite Hheaders, Hlength.
  assert (E : (n =? 0) = false).
  { apply Z.eqb_neq. unfold n. destruct (json_dumps message); [contradiction|].
    simpl. lia. }
  rewrite E. unfold n. rewrite readexactly_app, Hcodec. reflexivity.
Qed.

End FramingFacts.

(** Two frames in a row: the first is read, the second is left. *)
Lemma framing_round_trip_witness :
  read_message scalar_loads
    (write_message scalar_dumps (JObj []) +:+ write_message scalar_dumps (JNum 2026))
  = (Ret (Some (JObj [])), write_message scalar_dumps (JNum 2026))
  /\ exists headers,
       read_headers
         (S (String.length (write_message scalar_dumps (JObj [])
                            +:+ write_message scalar_dumps (JNum 2026))))
         (write_message scalar_dumps (JObj [])
          +:+ write_message scalar_dumps (JNum 2026)) ∅
       = (Ret (Some headers),
          scalar_dumps (JObj []) +:+ write_message scalar_dumps (JNum 2026))
       /\ content_length headers
          = Ret (Z.of_nat (String.length (scalar_dumps (JObj [])))).
Proof.
  apply (framing_round_trip scalar_dumps scalar_loads (JObj [])
           (write_message scalar_dumps (JNum 2026))).
  - reflexivity.
  - discriminate.
Defined.

Example frame_of_empty_object :
  write_message scalar_dumps (JObj [])
  = "Content-Length: 2" +:+ CR +:+ LF +:+ CR +:+ LF +:+ "{}".
Proof. reflexivity. Qed.

(** A body of zero length and the end of the input both end the session. *)
Example zero_length_ends_session :
  read_message scalar_loads ("Content-Length: 0" +:+ CR +:+ LF +:+ CR +:+ LF)
  = (Ret None, EmptyString).
Proof. vm_compute. reflexivity. Qed.

Example end_of_input_ends_session :
  read_message scalar_loads ("Content-Length: 12" +:+ CR +:+ LF) = (Ret None, EmptyString).
Proof. vm_compute. reflexivity. Qed.

(** ** The formatters, further *)

Ltac bind_inv H :=
  let a := fresh "a" in
  let E := fresh "E" in
  apply bind_ret_inv in H as (a & E & H).

Lemma each_result_nth (render : Z -> json -> outcome (list string))
    (results : list json) :
  forall (i : Z) (blocks : list (list string)) (k : nat) (block : list string),
    each_result render i results = Ret blocks ->
    blocks !! k = Some block ->
    exists r, results !! k = Some r /\ render (i + Z.of_nat k) r = Ret block.
Proof.
  induction results as [|r rest IH]; intros i blocks k block H Hk; simpl in H.
  - injection H as <-. discriminate Hk.
  - bind_inv H. bind_inv H. injection H as <-.
    destruct k as [|k]; simpl in Hk.
    + injection Hk as <-. exists r. rewrite Z.add_0_r. auto.
    + destruct (IH (i + 1) a0 k block E0 Hk) as (r' & Hr' & Hrender).
      exists r'. split; [exact Hr'|].
      replace (i + Z.of_nat (S k)) with (i + 1 + Z.of_nat k) by lia. exact Hrender.
Qed.

Lemma all_strings_returns (l : list json) :
  forallb (fun v => match v with JStr _ => true | _ => false end) l = true ->
  exists parts, all_strings l = Ret parts.
Proof.
  induction l as [|v l IH]; simpl; [eauto|].
  destruct v; try discriminate. intros H.
  destruct (IH H) as [parts ->]. simpl. eauto.
Qed.

Lemma prefix_heading (i : Z) (x : string) :
  String.prefix ("### " +:+ dec i +:+ ". ") ("### " +:+ dec i +:+ ". " +:+ x) = true.
Proof.
  rewrite <- (str_app_assoc (dec i) ". " x).
  rewrite <- (str_app_assoc "### " (dec i +:+ ". ") x).
  apply prefix_app.
Qed.

Section FormatterFacts.

Variable container_repr : json -> string.

Lemma search_result_heading (i : Z) (r : json) (block : list string) :
  search_result_lines container_repr i r = Ret block ->
  exists line rest,
    block = line :: rest
    /\ String.prefix ("### " +:+ dec i +:+ ". ") line = true.
Proof.
  unfold search_result_lines. intros H.
  bind_inv H. bind_inv H. bind_inv H. bind_inv H. bind_inv H. bind_inv H.
  injection H as <-. eexists _, _. split; [reflexivity|].
  change (". [" +:+ py_str container_repr a +:+ "](" +:+ py_str container_repr a0
          +:+ ")" +:+ LF)
    with (". " +:+ ("[" +:+ py_str container_repr a +:+ "](" +:+ py_str container_repr a0
                    +:+ ")" +:+ LF)).
  apply prefix_heading.
Qed.

Lemma image_result_heading (i : Z) (r : json) (block : list string) :
  image_result_lines container_repr i r = Ret block ->
  exists line rest,
    block = line :: rest
    /\ String.prefix ("### " +:+ dec i +:+ ". ") line = true.
Proof.
  unfold image_result_lines. intros H.
  bind_inv H. bind_inv H. bind_inv H. bind_inv H. bind_inv H. bind_inv H.
  bind_inv H. bind_inv H.
  injection H as <-. eexists _, _. split; [reflexivity|].
  apply prefix_heading.
Qed.

(** The result subsections are numbered from 1 in the order of the
    backend's results: the subsection number [k + 1] opens with
    [### k+1. ], in the search answer as in the image answer. *)
Theorem subsections_numbered (data max_results query : json) (is_news : bool)
    (o : outline) (k : nat) (block : list string) :
  search_outline container_repr data max_results query is_news = Ret o
  \/ image_outline container_repr data max_results query = Ret o ->
  subsections o !! k = Some block ->
  exists line rest,
    block = line :: rest
    /\ String.prefix ("### " +:+ dec (Z.of_nat k + 1) +:+ ". ") line = true.
Proof.
  intros [H|H] Hk.
  - unfold search_outline in H.
    bind_inv H. bind_inv H. bind_inv H. bind_inv H. bind_inv H.
    bind_inv H. bind_inv H. bind_inv H. destruct a6 as [lines blocks].
    bind_inv H. injection H as <-. cbn [subsections] in Hk.
    destruct (negb (truthy a0)).
    + injection E6 as <- <-. discriminate Hk.
    + bind_inv E6. bind_inv E6. injection E6 as <- <-.
      destruct (each_result_nth _ _ _ _ _ _ E9 Hk) as (r & _ & Hrender).
      rewrite Z.add_comm in Hrender. apply search_result_heading in Hrender.
      exact Hrender.
  - unfold image_outline in H.
    bind_inv H. bind_inv H. bind_inv H. destruct a1 as [lines blocks].
    injection H as <-. cbn [subsections] in Hk.
    destruct (negb (truthy a0)).
    + injection E1 as <- <-. discriminate Hk.
    + bind_inv E1. bind_inv E1. injection E1 as <- <-.
      destruct (each_result_nth _ _ _ _ _ _ E3 Hk) as (r & _ & Hrender).
      rewrite Z.add_comm in Hrender. apply image_result_heading in Hrender.
      exact Hrender.
Qed.

Lemma forallb_firstn {A : Type} (P : A -> bool) (n : nat) (l : list A) :
  forallb P l = true -> forallb P (firstn n l) = true.
Proof.
  revert n. induction l as [|x l IH]; intros n H; destruct n; simpl; auto.
  simpl in H. apply andb_true_iff in H as [Hx Hl]. rewrite Hx. apply IH, Hl.
Qed.

Lemma forallb_slice_to {A : Type} (P : A -> bool) (n : Z) (l : list A) :
  forallb P l = true -> forallb P (slice_to l n) = true.
Proof. intros H. unfold slice_to. destruct (0 <=? n); apply forallb_firstn, H. Qed.

Lemma result_lines_return (render : Z -> json -> outcome (list string))
    (results : list json) :
  (forall i r, result_ok r = true -> exists block, render i r = Ret block) ->
  forall i : Z,
    forallb result_ok results = true ->
    exists blocks,
      each_result render i results = Ret blocks
      /\ length blocks = length results.
Proof.
  intros Hrender. induction results as [|r rest IH]; intros i H; simpl.
  - exists []. auto.
  - simpl in H. apply andb_true_iff in H as [Hr Hrest].
    destruct (Hrender i r Hr) as [block ->].
    destruct (IH (i + 1) Hrest) as (blocks & -> & Hlen).
    simpl. exists (block :: blocks). simpl. auto.
Qed.

Lemma engines_join (d : list (string * json)) :
  result_ok (JObj d) = true ->
  exists engines, py_join ", " (default (JArr []) (dict_get d "engines")) = Ret engines.
Proof.
  unfold result_ok, py_join. destruct (dict_get d "engines") as [e|]; simpl.
  - destruct e; try discriminate. simpl. intros H.
    destruct (all_strings_returns _ H) as [parts ->]. simpl. eauto.
  - eauto.
Qed.

Lemma search_result_lines_return (i : Z) (r : json) :
  result_ok r = true ->
  exists block, search_result_lines container_repr i r = Ret block.
Proof.
  intros H. destruct r as [| | | | |d]; try discriminate.
  destruct (engines_join d H) as [engines Hjoin].
  unfold search_result_lines, py_get. cbn [mbind outcome_bind].
  rewrite Hjoin. cbn [mbind outcome_bind]. eauto.
Qed.

Lemma image_result_lines_return (i : Z) (r : json) :
  result_ok r = true ->
  exists block, image_result_lines container_repr i r = Ret block.
Proof.
  intros H. destruct r as [| | | | |d]; try discriminate.
  destruct (engines_join d H) as [engines Hjoin].
  unfold image_result_lines, py_get. cbn [mbind outcome_bind].
  rewrite Hjoin. cbn [mbind outcome_bind]. eauto.
Qed.

Lemma list_or_absent_default (d : list (string * json)) (k : string) :
  list_or_absent d k = true ->
  exists l, default (JArr []) (dict_get d k) = JArr l.
Proof.
  unfold list_or_absent. destruct (dict_get d k) as [[]|]; try discriminate; simpl; eauto.
Qed.

Lemma results_default (d : list (string * json)) :
  list_or_absent d "results" = true ->
  default (JArr []) (dict_get d "results") = JArr (results_of d).
Proof.
  unfold list_or_absent, results_of.
  destruct (dict_get d "results") as [[]|]; try discriminate; reflexivity.
Qed.

(** On a backend document as the interface describes it, both formatters
    return, and the answer has one subsection for each result of the
    slice [results[:max_results]]: none is dropped and none is added. *)
Theorem formatters_return_the_slice (d : list (string * json)) (query : json)
    (n : Z) (is_news : bool) :
  document_ok d = true ->
  (exists o,
      search_outline container_repr (JObj d) (JNum n) query is_news = Ret o
      /\ length (subsections o) = length (slice_to (results_of d) n))
  /\ (exists o,
        image_outline container_repr (JObj d) (JNum n) query = Ret o
        /\ length (subsections o) = length (slice_to (results_of d) n)).
Proof.
  unfold document_ok. intros H.
  apply andb_true_iff in H as [H Htotal]. apply andb_true_iff in H as [H Hanswers].
  apply andb_true_iff in H as [H Hsuggestions]. apply andb_true_iff in H as [Hlist Hresults].
  apply results_default in Hlist.
  apply list_or_absent_default in Hanswers as [answers Hanswers].
  apply list_or_absent_default in Hsuggestions as [suggestions Hsuggestions].
  assert (Hcount : exists z, default (JNum 0) (dict_get d "number_of_results") = JNum z).
  { destruct (dict_get d "number_of_results") as [[]|]; try discriminate; simpl; eauto. }
  destruct Hcount as [total Hcount].
  pose proof (forallb_slice_to result_ok n _ Hresults) as Hslice.
  destruct (result_lines_return (search_result_lines container_repr) _
              search_result_lines_return 1 Hslice) as (blocks & Esearch & Hlen).
  destruct (result_lines_return (image_result_lines container_repr) _
              image_result_lines_return 1 Hslice) as (blocks' & Eimage & Hlen').
  split.
  - unfold search_outline, py_get. cbn [mbind outcome_bind].
    rewrite Hlist, Hanswers, Hsuggestions, Hcount.
    cbn [py_slice_to mbind outcome_bind].
    destruct (truthy (JNum total)), (truthy (JArr answers)),
      (truthy (JArr suggestions));
      cbn [append_each py_format_grouped py_iter mbind outcome_bind];
      (destruct (slice_to (results_of d) n) as [|r sliced];
       [ cbn [truthy negb mbind outcome_bind]; eexists; split; reflexivity
       | cbn [truthy negb mbind outcome_bind]; rewrite Esearch;
         cbn [mbind outcome_bind]; eexists; (split; [reflexivity|]); exact Hlen ]).
  - unfold image_outline, py_get. cbn [mbind outcome_bind].
    rewrite Hlist. cbn [py_slice_to py_iter mbind outcome_bind].
    destruct (slice_to (results_of d) n) as [|r sliced];
      [ cbn [truthy negb mbind outcome_bind]; eexists; split; reflexivity
      | cbn [truthy negb mbind outcome_bind]; rewrite Eimage;
        cbn [mbind outcome_bind]; eexists; (split; [reflexivity|]); exact Hlen' ].
Qed.

Lemma py_chars_nonempty (s : string) : s <> EmptyString -> py_chars s <> [].
Proof.
  destruct s as [|c s]; [contradiction|]. intros _.
  unfold py_chars. cbn [String.length py_chars_fuel].
  destruct (take_continuation s). discriminate.
Qed.

(** When the search answer shows no result subsection, the last line
    before the suggestions says that nothing was found: an empty result
    list is never passed over in silence. *)
Theorem no_result_is_said (data max_results query : json) (is_news : bool)
    (o : outline) :
  search_outline container_repr data max_results query is_news = Ret o ->
  subsections o = [] ->
  last (heading o) = Some ("Nenhum resultado encontrado." +:+ LF).
Proof.
  intros H Hnone. unfold search_outline in H.
  bind_inv H. bind_inv H. bind_inv H. bind_inv H. bind_inv H.
  bind_inv H. bind_inv H. bind_inv H. destruct a6 as [lines blocks].
  bind_inv H. injection H as <-. cbn [subsections heading] in *. subst blocks.
  destruct (negb (truthy a0)) eqn:Htruthy.
  - injection E6 as <-. apply last_snoc.
  - exfalso. apply negb_false_iff in Htruthy.
    bind_inv E6. bind_inv E6. injection E6 as _ Hblocks.
    match goal with
    | Hloop : each_result _ _ ?items = Ret ?bs, Hiter : py_iter ?res = Ret ?items,
      Hslice : py_slice_to ?all _ = Ret ?res |- _ =>
        assert (Hitems : items = [])
          by (destruct items as [|r rest]; [reflexivity|]; simpl in Hloop;
              bind_inv Hloop; bind_inv Hloop; congruence);
        subst items;
        destruct all; simpl in Hslice; try discriminate;
        destruct max_results; try discriminate; injection Hslice as <-;
        simpl in Hiter; injection Hiter as Hiter;
        first [ rewrite Hiter in Htruthy; discriminate
              | apply map_eq_nil in Hiter; simpl in Htruthy;
                apply negb_true_iff, String.eqb_neq in Htruthy;
                apply py_chars_nonempty in Htruthy; contradiction ]
    end.
Qed.

End FormatterFacts.

(** ** The pipe framing, further *)

Lemma readline_length (input : string) :
  (String.length (fst (readline input)) + String.length (snd (readline input))
   = String.length input)%nat.
Proof.
  induction input as [|c input IH]; [reflexivity|].
  cbn [readline]. destruct (Ascii.eqb c (ascii_of_nat 10)); [reflexivity|].
  destruct (readline input) as [line rest]. simpl in *. lia.
Qed.

Lemma readline_rest (input line rest : string) :
  readline input = (line, rest) ->
  String.eqb line EmptyString = false ->
  (String.length rest < String.length input)%nat.
Proof.
  intros H Hline. pose proof (readline_length input) as Hlen. rewrite H in Hlen.
  destruct line; [discriminate|]. simpl in Hlen. lia.
Qed.

(** The header loop takes at least the empty line off the input. *)
Lemma read_headers_shortens (fuel : nat) :
  forall (input rest : string) (headers headers' : gmap string string),
    read_headers fuel input headers = (Ret (Some headers'), rest) ->
    (String.length rest < String.length input)%nat.
Proof.
  induction fuel as [|fuel IH]; intros input rest headers headers' H;
    [discriminate|].
  rewrite read_headers_step in H.
  destruct (readline input) as [line r] eqn:Hline.
  destruct (String.eqb line EmptyString) eqn:Hne; [discriminate|].
  pose proof (readline_rest _ _ _ Hline Hne) as Hr.
  destruct (decode_utf8 line) as [text|e]; [|discriminate].
  cbv zeta in H. destruct (String.eqb (py_strip text) EmptyString).
  - injection H as _ <-. exact Hr.
  - destruct (split_colon (py_strip text)) as [[key value]|];
      apply IH in H; lia.
Qed.

Lemma str_drop_length (n : nat) (s : string) :
  (String.length (str_drop n s) <= String.length s)%nat.
Proof.
  revert s. induction n as [|n IH]; intros s; destruct s; simpl; auto.
Qed.

(** *** Header blocks *)

Lemma plain_byte_facts (c : ascii) :
  plain_byte c = true ->
  is_ascii7 c = true /\ negb (space_byte c) = true /\ not_line_feed c = true.
Proof.
  unfold plain_byte. intros H. apply andb_true_iff in H as [Ha Hs].
  repeat split; try assumption.
  unfold not_line_feed. destruct (Ascii.eqb c (ascii_of_nat 10)) eqn:E; [|reflexivity].
  apply Ascii.eqb_eq in E. subst c. discriminate Hs.
Qed.

Lemma token_facts (k : string) :
  token k = true ->
  k <> EmptyString /\ str_forall is_ascii7 k = true
  /\ str_forall (fun c => negb (space_byte c)) k = true
  /\ str_forall not_line_feed k = true /\ first_nonspace k = true.
Proof.
  unfold token. intros H. apply andb_true_iff in H as [Hne Hall].
  apply negb_true_iff, String.eqb_neq in Hne.
  repeat split; try assumption;
    try (eapply str_forall_impl; [|exact Hall]; intros c Hc;
         apply plain_byte_facts in Hc; tauto).
  destruct k as [|c k]; [contradiction|]. cbn [str_forall] in Hall.
  apply andb_true_iff in Hall as [Hc _]. apply plain_byte_facts in Hc.
  cbn [first_nonspace]. tauto.
Qed.

Lemma py_strip_token (k : string) : token k = true -> py_strip k = k.
Proof.
  intros H. apply token_facts in H as (Hne & Ha & Hs & _ & Hf).
  pose proof (py_strip_trim EmptyString EmptyString k EmptyString) as E.
  rewrite !str_app_nil_l, str_app_nil_r in E. apply E; auto.
Qed.

Lemma last_nonspace_split (v : string) :
  last_nonspace v = true ->
  exists body c, v = body +:+ String c EmptyString /\ space_byte c = false.
Proof.
  induction v as [|x v IH]; [discriminate|].
  destruct v as [|y v].
  - cbn [last_nonspace]. intros H. apply negb_true_iff in H.
    exists EmptyString, x. auto.
  - intros H. change (last_nonspace (String y v) = true) in H.
    destruct (IH H) as (body & c & E & Hc).
    exists (String x body), c. rewrite E. auto.
Qed.

Lemma split_colon_app (k rest : string) :
  no_colon k = true ->
  split_colon (k +:+ String ":"%char rest) = Some (k, rest).
Proof.
  unfold no_colon. induction k as [|c k IH]; push_app; intros H.
  - reflexivity.
  - cbn [str_forall] in H. apply andb_true_iff in H as [Hc Hk].
    apply negb_true_iff in Hc. cbn [split_colon]. rewrite Hc, (IH Hk). reflexivity.
Qed.

(** One header line [name: value] is entered under the lowered name. *)
Lemma header_line_read (fuel : nat) (k v after : string)
    (headers : gmap string string) :
  header_name k = true ->
  header_value v = true ->
  read_headers (S fuel) (k +:+ ": " +:+ v +:+ CR +:+ LF +:+ after) headers
  = read_headers fuel after (<[py_lower k := v]> headers).
Proof.
  unfold header_name, header_value. intros Hk Hv.
  apply andb_true_iff in Hk as [Htoken Hcolon].
  pose proof (token_facts k Htoken) as (Hne & Hka & Hks & Hkl & Hkf).
  apply andb_true_iff in Hv as [Hv Hlast]. apply andb_true_iff in Hv as [Hv Hfirst].
  apply andb_true_iff in Hv as [Hva Hvl].
  destruct (last_nonspace_split v Hlast) as (body & c & Ev & Hc).
  set (cr := ascii_of_nat 13). set (lf := ascii_of_nat 10).
  assert (Hshape : k +:+ ": " +:+ v +:+ CR +:+ LF +:+ after
                   = (k +:+ ": " +:+ v +:+ String cr EmptyString) +:+ String lf after).
  { rewrite !str_app_assoc. reflexivity. }
  assert (Hstrip_line : py_strip ((k +:+ ": " +:+ v +:+ String cr EmptyString)
                                  +:+ String lf EmptyString)
                        = k +:+ ": " +:+ v).
  { pose proof (py_strip_trim EmptyString (k +:+ ": " +:+ body)
                  (String c EmptyString) (String cr (String lf EmptyString))) as E.
    rewrite str_app_nil_l in E.
    replace ((k +:+ ": " +:+ body) +:+ String c EmptyString) with (k +:+ ": " +:+ v) in E
      by (rewrite Ev, !str_app_assoc; reflexivity).
    rewrite <- E.
    - f_equal. rewrite !str_app_assoc. reflexivity.
    - rewrite !str_forall_app, Hka, Hva. reflexivity.
    - reflexivity.
    - reflexivity.
    - destruct k as [|x k]; [contradiction|]. exact Hkf.
    - discriminate.
    - cbn [str_forall]. rewrite Hc. reflexivity. }
  assert (Hstrip_value : py_strip (" " +:+ v) = v).
  { pose proof (py_strip_trim " " body (String c EmptyString) EmptyString) as E.
    rewrite <- Ev, str_app_nil_r in E. apply E.
    - push_app. cbn [str_forall]. rewrite Hva. reflexivity.
    - reflexivity.
    - reflexivity.
    - exact Hfirst.
    - discriminate.
    - cbn [str_forall]. rewrite Hc. reflexivity. }
  rewrite Hshape.
  rewrite (read_header_line fuel _
             ((k +:+ ": " +:+ v +:+ String cr EmptyString) +:+ String lf EmptyString)
             after (k +:+ ": " +:+ v) k (" " +:+ v)).
  - rewrite py_strip_token by exact Htoken. rewrite Hstrip_value. reflexivity.
  - apply readline_line. rewrite !str_forall_app, Hkl, Hvl. reflexivity.
  - destruct k; [contradiction|]. reflexivity.
  - rewrite !str_forall_app, Hka, Hva. reflexivity.
  - exact Hstrip_line.
  - destruct k; [contradiction|]. reflexivity.
  - apply split_colon_app, Hcolon.
Qed.

Lemma header_lines_read (others : list (string * string)) :
  forall (fuel : nat) (after : string) (headers : gmap string string),
    forallb header_ok others = true ->
    read_headers (length others + fuel) (header_lines others +:+ after) headers
    = read_headers fuel after (entered others headers).
Proof.
  induction others as [|[k v] others IH]; intros fuel after headers Hok.
  - reflexivity.
  - cbn [forallb] in Hok. apply andb_true_iff in Hok as [Hh Hok].
    unfold header_ok in Hh. apply andb_true_iff in Hh as [Hk Hv]. cbn [fst snd] in *.
    unfold header_lines. cbn [map str_concat fold_right fst snd].
    fold (str_concat (map (fun h => fst h +:+ ": " +:+ snd h +:+ CR +:+ LF) others)).
    fold (header_lines others).
    rewrite !str_app_assoc. cbn [length Nat.add].
    rewrite header_line_read by assumption.
    rewrite IH by exact Hok. reflexivity.
Qed.

Lemma read_headers_fuel (f1 : nat) :
  forall (f2 : nat) (input : string) (headers : gmap string string),
    (String.length input < f1)%nat -> (String.length input < f2)%nat ->
    read_headers f1 input headers = read_headers f2 input headers.
Proof.
  induction f1 as [|f1 IH]; intros f2 input headers H1 H2; [lia|].
  destruct f2 as [|f2]; [lia|].
  rewrite !read_headers_step.
  destruct (readline input) as [line rest] eqn:Hline.
  destruct (String.eqb line EmptyString) eqn:Hne; [reflexivity|].
  pose proof (readline_rest _ _ _ Hline Hne) as Hr.
  destruct (decode_utf8 line) as [text|e]; [|reflexivity].
  cbv zeta. destruct (String.eqb (py_strip text) EmptyString); [reflexivity|].
  destruct (split_colon (py_strip text)) as [[key value]|]; apply IH; lia.
Qed.

Lemma last_nonspace_all (s : string) :
  s <> EmptyString ->
  str_forall (fun c => negb (space_byte c)) s = true ->
  last_nonspace s = true.
Proof.
  induction s as [|c s IH]; [contradiction|]. intros _ H.
  cbn [str_forall] in H. apply andb_true_iff in H as [Hc Hs].
  destruct s as [|y s]; [exact Hc|].
  change (last_nonspace (String y s) = true). apply IH; [discriminate | exact Hs].
Qed.

Lemma digits_header_value (n : Z) : header_value (digits n) = true.
Proof.
  unfold header_value.
  rewrite digits_ascii7, digits_one_line, digits_first_nonspace.
  rewrite last_nonspace_all by auto using digits_nonempty, digits_nonspace.
  reflexivity.
Qed.

Lemma entered_other (others : list (string * string)) (key : string) :
  forall headers : gmap string string,
    forallb (fun h => negb (String.eqb (py_lower (fst h)) key)) others = true ->
    entered others headers !! key = headers !! key.
Proof.
  unfold entered. induction others as [|h others IH]; intros headers H; [reflexivity|].
  cbn [forallb] in H. apply andb_true_iff in H as [Hh Hothers].
  apply negb_true_iff, String.eqb_neq in Hh.
  cbn [fold_left]. rewrite IH by exact Hothers.
  apply lookup_insert_ne. exact Hh.
Qed.

(** The header block is read to its empty line. *)
Lemma header_block_read (others : list (string * string)) (after : string)
    (headers : gmap string string) :
  forallb header_ok others = true ->
  read_headers (S (String.length (header_lines others +:+ CR +:+ LF +:+ after)))
    (header_lines others +:+ CR +:+ LF +:+ after) headers
  = (Ret (Some (entered others headers)), after).
Proof.
  intros Hok.
  rewrite (read_headers_fuel _
             (length others
              + S (S (String.length (header_lines others +:+ CR +:+ LF +:+ after)))))
    by lia.
  rewrite header_lines_read by exact Hok.
  apply (read_blank_line _ _ (String (ascii_of_nat 13) (String (ascii_of_nat 10) EmptyString)));
    reflexivity.
Qed.

Section ReaderFacts.

Variable json_loads : string -> outcome json.

(** Every message that [read_message] returns has taken bytes off the
    input: what it leaves for the next call is shorter than what it was
    given. *)
Theorem read_message_consumes (input rest : string) (message : json) :
  read_message json_loads input = (Ret (Some message), rest) ->
  (String.length rest < String.length input)%nat.
Proof.
  unfold read_message. intros H.
  destruct (read_headers (S (String.length input)) input ∅) as [[[headers|]|e] r] eqn:Hh;
    try discriminate.
  apply read_headers_shortens in Hh.
  destruct (content_length headers) as [n|e]; [|discriminate].
  destruct (n =? 0); [discriminate|].
  unfold readexactly in H.
  destruct (n <? 0); [discriminate|].
  destruct (Z.of_nat (String.length r) <? n); [discriminate|].
  destruct (json_loads _); [|discriminate].
  injection H as _ <-. pose proof (str_drop_length (Z.to_nat n) r). lia.
Qed.

(** Reading a body of [n] bytes once the headers have given [n]. *)
Lemma read_message_body (input body rest : string) (message : json)
    (headers : gmap string string) :
  read_headers (S (String.length input)) input ∅
  = (Ret (Some headers), body +:+ rest) ->
  content_length headers = Ret (Z.of_nat (String.length body)) ->
  body <> EmptyString ->
  json_loads body = Ret message ->
  read_message json_loads input = (Ret (Some message), rest).
Proof.
  intros Hh Hn Hbody Hloads. unfold read_message. rewrite Hh, Hn.
  assert (E : (Z.of_nat (String.length body) =? 0) = false).
  { apply Z.eqb_neq. destruct body; [contradiction|]. simpl. lia. }
  rewrite E, readexactly_app, Hloads. reflexivity.
Qed.

(** A body that ends before the declared length: [readexactly] raises,
    and nothing is left of the input.  The declared length is one that
    [int] reads, a numeral of at most [int_max_str_digits] digits (which
    also keeps the header line within the limit of the stream). *)
Theorem incomplete_body_raises (n : Z) (body : string) :
  n < 10 ^ int_max_str_digits ->
  Z.of_nat (String.length body) < n ->
  read_message json_loads
    ("Content-Length: " +:+ digits n +:+ CR +:+ LF +:+ CR +:+ LF +:+ body)
  = (Raise IncompleteReadError, EmptyString).
Proof.
  intros _ Hshort. unfold read_message.
  rewrite str_length_app. cbn [String.length Nat.add].
  rewrite read_headers_frame.
  unfold content_length. rewrite lookup_singleton_eq, py_int_digits by lia.
  assert (E0 : (n =? 0) = false) by (apply Z.eqb_neq; lia).
  assert (E1 : (n <? 0) = false) by (apply Z.ltb_ge; lia).
  assert (E2 : (Z.of_nat (String.length body) <? n) = true) by (apply Z.ltb_lt; lia).
  unfold readexactly. rewrite E0, E1, E2. reflexivity.
Qed.

(** The reader takes the length from a [Content-Length] header spelled in
    any letter case, and skips the header lines that stand before it: a
    message framed that way is read like one that [write_message] wrote.
    The header lines are within the limit of the stream, and the length of
    the body is one that [int] reads (at most [int_max_str_digits]
    digits, so that the [Content-Length] line is within the limit too). *)
Theorem header_block_accepted (others : list (string * string)) (k body rest : string)
    (message : json) :
  forallb header_ok others = true ->
  forallb header_fits others = true ->
  header_name k = true ->
  py_lower k = "content-length" ->
  body <> EmptyString ->
  Z.of_nat (String.length body) < 10 ^ int_max_str_digits ->
  json_loads body = Ret message ->
  read_message json_loads
    (header_lines others
     +:+ k +:+ ": " +:+ digits (Z.of_nat (String.length body)) +:+ CR +:+ LF
     +:+ CR +:+ LF +:+ body +:+ rest)
  = (Ret (Some message), rest).
Proof.
  intros Hok _ Hk Hlower Hbody _ Hloads.
  set (n := Z.of_nat (String.length body)).
  assert (Hshape :
            header_lines others +:+ k +:+ ": " +:+ digits n +:+ CR +:+ LF
            +:+ CR +:+ LF +:+ body +:+ rest
            = header_lines (others ++ [(k, digits n)])
              +:+ CR +:+ LF +:+ (body +:+ rest)).
  { unfold header_lines. rewrite map_app. cbn [map fst snd].
    assert (Happ : forall a b, str_concat (a ++ b) = str_concat a +:+ str_concat b).
    { intros a b. induction a as [|x a IH]; [reflexivity|].
      cbn [app str_concat fold_right]. fold (str_concat (a ++ b)).
      fold (str_concat a). rewrite IH, str_app_assoc. reflexivity. }
    rewrite Happ. cbn [str_concat fold_right].
    rewrite str_app_nil_r, !str_app_assoc. reflexivity. }
  rewrite Hshape.
  assert (Hall : forallb header_ok (others ++ [(k, digits n)]) = true).
  { rewrite forallb_app, Hok.
    change (forallb header_ok [(k, digits n)])
      with (header_name k && header_value (digits n) && true).
    rewrite Hk, digits_header_value. reflexivity. }
  apply (read_message_body _ body rest message
           (entered (others ++ [(k, digits n)]) ∅)).
  - apply header_block_read, Hall.
  - unfold content_length, entered. rewrite fold_left_app. cbn [fold_left fst snd].
    rewrite Hlower, lookup_insert_eq. apply py_int_digits. unfold n. lia.
  - exact Hbody.
  - exact Hloads.
Qed.

(** A header block without [Content-Length], its lines within the limit
    of the stream, ends the session like the end of the input does:
    [read_message] returns [None], and what follows the block is left
    unread. *)
Theorem no_content_length_ends_session (others : list (string * string))
    (rest : string) :
  forallb header_ok others = true ->
  forallb header_fits others = true ->
  forallb (fun h => negb (String.eqb (py_lower (fst h)) "content-length")) others
  = true ->
  read_message json_loads (header_lines others +:+ CR +:+ LF +:+ rest)
  = (Ret None, rest).
Proof.
  intros Hok _ Hnone. unfold read_message.
  rewrite header_block_read by exact Hok.
  unfold content_length. rewrite entered_other by exact Hnone.
  rewrite lookup_empty. reflexivity.
Qed.

End ReaderFacts.

(** ** The stdio server *)

Section MainFacts.

Variable cfg : Config.
Variable searxng : list (string * json) -> http_failure + http_response.
Variable http_get : json -> http_failure + http_response.
Variable html_to_markdown : string -> outcome string.
Variable exn_str : exn -> string.
Variable container_repr : json -> string.
Variable json_dumps : json -> string.
Variable json_loads : string -> outcome json.

Local Abbreviation dispatch :=
  (handle_jsonrpc cfg searxng http_get html_to_markdown exn_str container_repr).
Local Abbreviation serve_loop :=
  (main_loop cfg searxng http_get html_to_markdown exn_str container_repr
     json_dumps json_loads).
Local Abbreviation serve :=
  (main cfg searxng http_get html_to_markdown exn_str container_repr
     json_dumps json_loads).
Local Abbreviation answered :=
  (dispatched cfg searxng http_get html_to_markdown exn_str container_repr).
Local Abbreviation framed := (frames json_dumps).
Local Abbreviation round_trips := (codec_round_trip json_dumps json_loads).

Lemma read_frame (message : json) (rest : string) :
  round_trips message ->
  read_message json_loads (write_message json_dumps message +:+ rest)
  = (Ret (Some message), rest).
Proof.
  intros [Hloads Hbody].
  apply (read_message_body json_loads _ (json_dumps message) rest message
           {["content-length" := digits (Z.of_nat (String.length (json_dumps message)))]});
    try assumption.
  - rewrite written_frame, str_length_app. cbn [String.length Nat.add].
    apply read_headers_frame.
  - unfold content_length. rewrite lookup_singleton_eq. apply py_int_digits. lia.
Qed.

Lemma write_message_length (message : json) :
  (1 <= String.length (write_message json_dumps message))%nat.
Proof.
  unfold write_message, frame_header. rewrite !str_length_app. simpl. lia.
Qed.

Lemma frames_cons (message : json) (messages : list json) :
  framed (message :: messages) = write_message json_dumps message +:+ framed messages.
Proof. reflexivity. Qed.

Lemma frames_app (a b : list json) : framed (a ++ b) = framed a +:+ framed b.
Proof.
  induction a as [|m a IH]; [reflexivity|].
  change (framed ((m :: a) ++ b)) with (framed (m :: (a ++ b))).
  rewrite !frames_cons, IH, str_app_assoc. reflexivity.
Qed.

Lemma frames_length (messages : list json) :
  (length messages <= String.length (framed messages))%nat.
Proof.
  induction messages as [|m messages IH]; [simpl; lia|].
  rewrite frames_cons, str_length_app.
  pose proof (write_message_length m). simpl. lia.
Qed.

Lemma serve_loop_step (fuel : nat) (uuids : nat -> string) (served : nat)
    (input : string) :
  serve_loop (S fuel) uuids served input
  = match read_message json_loads input with
    | (Raise e, _) => (EmptyString, Failed e)
    | (Ret None, _) => (EmptyString, Finished)
    | (Ret (Some JNull), _) => (EmptyString, Finished)
    | (Ret (Some message), rest) =>
        match dispatch (uuids served) message with
        | Raise e => (EmptyString, Failed e)
        | Ret response =>
            let '(out, how) := serve_loop fuel uuids (S served) rest in
            (write_message json_dumps response +:+ out, how)
        end
    end.
Proof. reflexivity. Qed.

(** The step on a frame whose message is not [null]. *)
Lemma serve_loop_frame (fuel : nat) (uuids : nat -> string) (served : nat)
    (message : json) (rest : string) :
  round_trips message ->
  message <> JNull ->
  serve_loop (S fuel) uuids served (write_message json_dumps message +:+ rest)
  = match dispatch (uuids served) message with
    | Raise e => (EmptyString, Failed e)
    | Ret response =>
        let '(out, how) := serve_loop fuel uuids (S served) rest in
        (write_message json_dumps response +:+ out, how)
    end.
Proof.
  intros Hm Hnull. rewrite serve_loop_step, (read_frame message _ Hm).
  destruct message; try reflexivity. contradiction.
Qed.

(** The dispatcher answers no [null]: [body.get] raises on it. *)
Lemma dispatch_not_none (uuid : string) (message response : json) :
  dispatch uuid message = Ret response -> message <> JNull.
Proof. intros H ->. discriminate H. Qed.

(** The loop on the frames of [requests], followed by [tail]: it writes
    the frames of their responses and goes on with [tail]. *)
Lemma serve_loop_frames (uuids : nat -> string) (requests : list json) :
  forall (responses : list json) (served fuel : nat) (tail : string),
    Forall round_trips requests ->
    answered uuids served requests responses ->
    serve_loop (length requests + fuel) uuids served (framed requests +:+ tail)
    = (framed responses
       +:+ fst (serve_loop fuel uuids (served + length requests) tail),
       snd (serve_loop fuel uuids (served + length requests) tail)).
Proof.
  induction requests as [|m requests IH];
    intros responses served fuel tail Hcodec Hanswered.
  - destruct responses; [|contradiction].
    cbn [length Nat.add]. rewrite Nat.add_0_r.
    change (framed []) with EmptyString. rewrite !str_app_nil_l.
    destruct (serve_loop fuel uuids served tail). reflexivity.
  - destruct responses as [|r responses]; [contradiction|].
    destruct Hanswered as [Hr Hrest]. inversion Hcodec as [|? ? Hm Hms]; subst.
    cbn [length Nat.add].
    rewrite frames_cons, str_app_assoc.
    rewrite (serve_loop_frame _ _ _ m _ Hm (dispatch_not_none _ _ _ Hr)), Hr.
    rewrite (IH responses (S served) fuel tail Hms Hrest).
    rewrite frames_cons, str_app_assoc.
    replace (S served + length requests)%nat with (served + S (length requests))%nat
      by lia.
    reflexivity.
Qed.

(** Input order is output order: on the frames of a list of requests that
    the dispatcher answers, [main] writes the frames of the responses, one
    for each request and in the same order, and ends at the end of the
    input. *)
Theorem main_answers_in_order (uuids : nat -> string)
    (requests responses : list json) :
  Forall round_trips requests ->
  answered uuids 0 requests responses ->
  serve uuids (framed requests) = (framed responses, Finished).
Proof.
  intros Hcodec Hanswered. unfold main.
  pose proof (frames_length requests) as Hlen.
  replace (S (String.length (framed requests)))
    with (length requests + S (String.length (framed requests) - length requests))%nat
    by lia.
  rewrite <- (str_app_nil_r (framed requests)) at 2.
  rewrite (serve_loop_frames uuids requests responses 0 _ EmptyString Hcodec Hanswered).
  rewrite serve_loop_step. cbn [fst snd]. rewrite str_app_nil_r. reflexivity.
Qed.

(** A request other than [null] on which the dispatcher raises ends the
    server: the requests before it are answered, the exception is logged,
    and the requests after it are never read. *)
Theorem main_stops_at_exception (uuids : nat -> string)
    (good more : list json) (bad : json) (responses : list json) (e : exn) :
  Forall round_trips good ->
  round_trips bad ->
  bad <> JNull ->
  answered uuids 0 good responses ->
  dispatch (uuids (length good)) bad = Raise e ->
  serve uuids (framed (good ++ bad :: more)) = (framed responses, Failed e).
Proof.
  intros Hcodec Hbad Hnull Hanswered Hraise. unfold main.
  rewrite frames_app.
  pose proof (frames_length good) as Hlen.
  set (tail := framed (bad :: more)).
  assert (Htail : (1 <= String.length tail)%nat).
  { unfold tail. rewrite frames_cons, str_length_app.
    pose proof (write_message_length bad). lia. }
  replace (S (String.length (framed good +:+ tail)))
    with (length good + S (String.length (framed good +:+ tail) - length good))%nat
    by (rewrite str_length_app; lia).
  rewrite (serve_loop_frames uuids good responses 0 _ tail Hcodec Hanswered).
  unfold tail. rewrite frames_cons, (serve_loop_frame _ _ _ bad _ Hbad Hnull).
  cbn [Nat.add]. rewrite Hraise. cbn [fst snd]. rewrite str_app_nil_r. reflexivity.
Qed.

(** A message [null] ends the server like the end of the input: the
    requests before it are answered, nothing is written for it, no
    exception is logged, and the requests after it are never read. *)
Theorem main_stops_at_null (uuids : nat -> string)
    (good more : list json) (responses : list json) :
  Forall round_trips good ->
  round_trips JNull ->
  answered uuids 0 good responses ->
  serve uuids (framed (good ++ JNull :: more)) = (framed responses, Finished).
Proof.
  intros Hcodec Hnull Hanswered. unfold main.
  rewrite frames_app.
  pose proof (frames_length good) as Hlen.
  set (tail := framed (JNull :: more)).
  assert (Htail : (1 <= String.length tail)%nat).
  { unfold tail. rewrite frames_cons, str_length_app.
    pose proof (write_message_length JNull). lia. }
  replace (S (String.length (framed good +:+ tail)))
    with (length good + S (String.length (framed good +:+ tail) - length good))%nat
    by (rewrite str_length_app; lia).
  rewrite (serve_loop_frames uuids good responses 0 _ tail Hcodec Hanswered).
  unfold tail. rewrite frames_cons, serve_loop_step, (read_frame JNull _ Hnull).
  cbn [fst snd]. rewrite str_app_nil_r. reflexivity.
Qed.

End MainFacts.

(** ** The page fetch: the length of the content *)

Lemma take_continuation_app (k rest : string) :
  str_forall is_continuation k = true ->
  rest = EmptyString \/ starts_char rest = true ->
  take_continuation (k +:+ rest) = (k, rest).
Proof.
  intros Hk Hrest. induction k as [|c k IH]; push_app.
  - destruct Hrest as [->|Hs]; [reflexivity|].
    destruct rest as [|d rest]; [discriminate|].
    cbn [starts_char] in Hs. apply negb_true_iff in Hs.
    cbn [take_continuation]. rewrite Hs. reflexivity.
  - cbn [str_forall] in Hk. apply andb_true_iff in Hk as [Hc Hk].
    cbn [take_continuation]. rewrite Hc, (IH Hk). reflexivity.
Qed.

Lemma take_continuation_spec (s : string) :
  str_forall is_continuation (fst (take_continuation s)) = true
  /\ (snd (take_continuation s) = EmptyString
      \/ starts_char (snd (take_continuation s)) = true).
Proof.
  induction s as [|c s IH]; [simpl; auto|].
  cbn [take_continuation]. destruct (is_continuation c) eqn:E.
  - destruct (take_continuation s) as [k r]. cbn [fst snd str_forall] in *.
    rewrite E. tauto.
  - cbn [fst snd str_forall starts_char]. rewrite E. auto.
Qed.

Lemma py_chars_fuel_chunks (fuel : nat) :
  forall s : string,
    forallb chunk (py_chars_fuel fuel s) = true
    /\ forallb starts_char (tl (py_chars_fuel fuel s)) = true
    /\ (s = EmptyString \/ starts_char s = true ->
        forallb starts_char (py_chars_fuel fuel s) = true).
Proof.
  induction fuel as [|fuel IH]; intros s; [simpl; auto|].
  destruct s as [|c rest]; [simpl; auto|].
  cbn [py_chars_fuel].
  pose proof (take_continuation_spec rest) as [Hk Hr].
  destruct (take_continuation rest) as [k r]. cbn [fst snd] in *.
  destruct (IH r) as (Hchunks & _ & Hstarts).
  cbn [forallb tl chunk]. rewrite Hk, Hchunks, (Hstarts Hr).
  repeat split. intros [Hs|Hs]; [discriminate|].
  cbn [starts_char] in *. rewrite Hs. reflexivity.
Qed.

Lemma py_chars_chunks (s : string) : chunks_ok (py_chars s) = true.
Proof.
  unfold chunks_ok, py_chars.
  destruct (py_chars_fuel_chunks (String.length s) s) as (-> & -> & _). reflexivity.
Qed.

Lemma str_concat_cons (x : string) (l : list string) :
  str_concat (x :: l) = x +:+ str_concat l.
Proof. reflexivity. Qed.

Lemma str_concat_app (a b : list string) :
  str_concat (a ++ b) = str_concat a +:+ str_concat b.
Proof.
  induction a as [|x a IH]; [reflexivity|].
  change ((x :: a) ++ b) with (x :: (a ++ b)).
  rewrite !str_concat_cons, IH, str_app_assoc. reflexivity.
Qed.

Lemma str_concat_starts (l : list string) :
  forallb chunk l = true ->
  forallb starts_char l = true ->
  str_concat l = EmptyString \/ starts_char (str_concat l) = true.
Proof.
  destruct l as [|x l]; [auto|]. cbn [forallb]. intros Hc Hs.
  apply andb_true_iff in Hs as [Hx _]. right.
  destruct x as [|c k]; [discriminate|].
  rewrite str_concat_cons. push_app. exact Hx.
Qed.

(** The characters of the concatenation of well-cut characters are those
    characters. *)
Lemma py_chars_fuel_concat (l : list string) :
  forall fuel : nat,
    (String.length (str_concat l) <= fuel)%nat ->
    chunks_ok l = true ->
    py_chars_fuel fuel (str_concat l) = l.
Proof.
  unfold chunks_ok. induction l as [|x l IH]; intros fuel Hfuel Hok.
  - destruct fuel; reflexivity.
  - apply andb_true_iff in Hok as [Hchunks Hstarts].
    cbn [forallb tl] in *. apply andb_true_iff in Hchunks as [Hx Hchunks].
    destruct x as [|c k]; [discriminate|]. cbn [chunk] in Hx.
    rewrite str_concat_cons in *. rewrite str_app_cons in *.
    destruct fuel as [|fuel]; [simpl in Hfuel; lia|].
    cbn [py_chars_fuel].
    rewrite take_continuation_app
      by (try assumption; apply str_concat_starts; assumption).
    rewrite IH; [reflexivity | |].
    + cbn [String.length] in Hfuel. rewrite str_length_app in Hfuel. lia.
    + rewrite Hchunks. destruct l; [reflexivity|].
      cbn [tl forallb] in *. apply andb_true_iff in Hstarts as [_ ->]. reflexivity.
Qed.

Lemma py_chars_concat (l : list string) :
  chunks_ok l = true -> py_chars (str_concat l) = l.
Proof. intros H. apply py_chars_fuel_concat; [lia | exact H]. Qed.

Lemma chunks_ok_prefix (p q : list string) :
  chunks_ok (p ++ q) = true -> chunks_ok p = true.
Proof.
  unfold chunks_ok. intros H. apply andb_true_iff in H as [Hc Hs].
  rewrite forallb_app in Hc. apply andb_true_iff in Hc as [-> _].
  destruct p as [|x p]; [reflexivity|].
  cbn [app tl] in *. rewrite forallb_app in Hs.
  apply andb_true_iff in Hs as [-> _]. reflexivity.
Qed.

Lemma chunks_ok_tail (x : string) (l : list string) :
  chunks_ok (x :: l) = true -> chunks_ok l = true.
Proof.
  unfold chunks_ok. cbn [forallb tl]. intros H.
  apply andb_true_iff in H as [Hc Hs]. apply andb_true_iff in Hc as [_ ->].
  destruct l; [reflexivity|]. cbn [tl forallb] in *.
  apply andb_true_iff in Hs as [_ ->]. reflexivity.
Qed.

Lemma chunks_ok_app (p q : list string) :
  chunks_ok p = true ->
  forallb chunk q = true -> forallb starts_char q = true ->
  chunks_ok (p ++ q) = true.
Proof.
  unfold chunks_ok. intros Hp Hq Hs. apply andb_true_iff in Hp as [Hc Ht].
  rewrite forallb_app, Hc, Hq.
  destruct p as [|x p]; cbn [app tl andb].
  - destruct q as [|y q]; [reflexivity|]. cbn [tl forallb] in *.
    apply andb_true_iff in Hs as [_ ->]. reflexivity.
  - cbn [tl] in Ht. rewrite forallb_app, Ht, Hs. reflexivity.
Qed.

Lemma drop_space_suffix (l : list string) :
  exists pre, l = pre ++ drop_space l.
Proof.
  induction l as [|x l [pre IH]]; [exists []; reflexivity|].
  cbn [drop_space]. destruct (is_space x).
  - exists (x :: pre). cbn [app]. rewrite <- IH. reflexivity.
  - exists []. reflexivity.
Qed.

Lemma drop_space_chunks (l : list string) :
  chunks_ok l = true -> chunks_ok (drop_space l) = true.
Proof.
  induction l as [|x l IH]; intros H; [exact H|].
  cbn [drop_space]. destruct (is_space x); [|exact H].
  apply IH. eapply chunks_ok_tail, H.
Qed.

Lemma trim_prefix (l : list string) :
  exists post, drop_space l = trim l ++ post.
Proof.
  unfold trim. destruct (drop_space_suffix (rev (drop_space l))) as [pre E].
  exists (rev pre).
  rewrite <- rev_app_distr, <- E, rev_involutive. reflexivity.
Qed.

Lemma trim_chunks (l : list string) : chunks_ok l = true -> chunks_ok (trim l) = true.
Proof.
  intros H. destruct (trim_prefix l) as [post E].
  apply (chunks_ok_prefix _ post). rewrite <- E. apply drop_space_chunks, H.
Qed.

Lemma trim_length (l : list string) : (length (trim l) <= length l)%nat.
Proof.
  destruct (trim_prefix l) as [post E]. destruct (drop_space_suffix l) as [pre E'].
  apply (f_equal (@length string)) in E, E'. rewrite length_app in E, E'. lia.
Qed.

(** Stripping the concatenation of well-cut characters leaves no more
    characters than there were. *)
Lemma py_len_strip_concat (l : list string) :
  chunks_ok l = true -> py_len (py_strip (str_concat l)) <= Z.of_nat (length l).
Proof.
  intros H. unfold py_strip. rewrite (py_chars_concat l H).
  fold (trim l). unfold py_len. rewrite py_chars_concat by apply trim_chunks, H.
  pose proof (trim_length l). lia.
Qed.

Lemma py_len_strip (s : string) : py_len (py_strip s) <= py_len s.
Proof.
  unfold py_strip. fold (trim (py_chars s)). unfold py_len.
  rewrite py_chars_concat by apply trim_chunks, py_chars_chunks.
  pose proof (trim_length (py_chars s)). lia.
Qed.

Lemma slice_to_prefix {A : Type} (l : list A) (n : Z) :
  exists post, l = slice_to l n ++ post.
Proof.
  unfold slice_to. destruct (0 <=? n); eexists; symmetry; apply firstn_skipn.
Qed.

Lemma marker_chunks :
  forallb chunk (py_chars truncation_marker) = true
  /\ forallb starts_char (py_chars truncation_marker) = true
  /\ str_concat (py_chars truncation_marker) = truncation_marker.
Proof. vm_compute. auto. Qed.

Section FetchFacts.

Variable http_get : json -> http_failure + http_response.
Variable html_to_markdown : string -> outcome string.
Variable exn_str : exn -> string.

(** The Markdown of a page, cut to [n] characters and stripped, counts at
    most [n] characters and the truncation marker. *)
Lemma process_html_bound (html markdown : string) (n : Z) :
  0 <= n ->
  html_to_markdown html = Ret markdown ->
  exists content,
    process_html html_to_markdown html (JNum n) = Ret content
    /\ py_len content <= n + py_len truncation_marker.
Proof.
  intros Hn Hconv. unfold process_html. rewrite Hconv.
  cbn [mbind outcome_bind py_int_gt].
  assert (Hmarker : 0 <= py_len truncation_marker) by (unfold py_len; lia).
  destruct (n <? py_len markdown) eqn:E.
  - cbn [py_slice_to mbind outcome_bind]. eexists. split; [reflexivity|].
    destruct marker_chunks as (Hc & Hs & Hm).
    rewrite <- Hm at 1. rewrite <- str_concat_app.
    destruct (slice_to_prefix (py_chars markdown) n) as [post Epost].
    assert (Hok : chunks_ok (slice_to (py_chars markdown) n
                             ++ py_chars truncation_marker) = true).
    { apply chunks_ok_app; [|exact Hc|exact Hs].
      apply (chunks_ok_prefix _ post). rewrite <- Epost. apply py_chars_chunks. }
    etransitivity; [apply py_len_strip_concat, Hok|].
    rewrite length_app, Nat2Z.inj_add. unfold py_len at 1.
    pose proof (slice_to_length _ (py_chars markdown) n Hn). lia.
  - cbn [mbind outcome_bind]. eexists. split; [reflexivity|].
    apply Z.ltb_ge in E. pose proof (py_len_strip markdown). lia.
Qed.

(** When the page is fetched and converted, and [max_length] is a
    non-negative integer, the content counts at most [max_length]
    characters and the truncation marker. *)
Theorem fetched_content_bounded (url : json) (resp : http_response)
    (html markdown : string) (n : Z) :
  http_get url = inr resp ->
  resp_status resp = 200 ->
  str_contains "text/html" (default EmptyString (resp_content_type resp))
  || str_contains "text/plain" (default EmptyString (resp_content_type resp)) = true ->
  resp_text resp = inr html ->
  html_to_markdown html = Ret markdown ->
  0 <= n ->
  py_len (_fetch_url http_get html_to_markdown exn_str url (JNum n))
  <= n + py_len truncation_marker.
Proof.
  intros Hget Hstatus Htype Htext Hconv Hn.
  destruct (process_html_bound html markdown n Hn Hconv) as (content & Hp & Hbound).
  unfold _fetch_url. rewrite Hget, Hstatus. cbn [Z.eqb Pos.eqb negb].
  apply orb_true_iff in Htype.
  assert (E : negb (str_contains "text/html" (default EmptyString (resp_content_type resp)))
              && negb (str_contains "text/plain" (default EmptyString (resp_content_type resp)))
              = false).
  { destruct Htype as [-> | ->]; [reflexivity | apply andb_false_r]. }
  rewrite E, Htext, Hp. exact Hbound.
Qed.

End FetchFacts.

(** ** Instances, further *)

Lemma backend_unreachable_reported_witness :
  execute_tool default_config unreachable unreachable Ret exn_name no_repr
    (JStr "news_search") (JObj [("query", JStr "rust")])
  = Ret (_error_response "Timeout ao conectar com SearXNG").
Proof.
  apply (backend_unreachable_reported default_config unreachable unreachable Ret
           exn_name no_repr "news_search" [("query", JStr "rust")] (JStr "rust")
           HttpTimeout); reflexivity.
Defined.

Lemma backend_status_reported_witness :
  execute_tool default_config (backend_failing 503 "Service Unavailable") unreachable
    Ret exn_name no_repr (JStr "web_search") (JObj [("query", JStr "rust")])
  = Ret (_error_response
           ("SearXNG retornou status " +:+ dec 503 +:+ ": " +:+ "Service Unavailable")).
Proof.
  apply (backend_status_reported default_config
           (backend_failing 503 "Service Unavailable") unreachable Ret exn_name no_repr
           "web_search" [("query", JStr "rust")] (JStr "rust")
           {| resp_status := 503;
              resp_content_type := Some "text/plain";
              resp_text := inr "Service Unavailable";
              resp_json := inl (HttpException JSONDecodeError) |}
           "Service Unavailable");
    try reflexivity.
  discriminate.
Defined.

Lemma empty_option_not_sent_witness :
  exists params,
    web_search_params
      (JObj [("query", JStr "rust"); ("language", JStr EmptyString)]) (JStr "rust")
    = Ret params
    /\ dict_get (sent_params params) "language" = None.
Proof.
  apply (empty_option_not_sent
           [("query", JStr "rust"); ("language", JStr EmptyString)] (JStr "rust")
           "language").
  - right. left. reflexivity.
  - reflexivity.
Defined.

Lemma safesearch_passed_through_witness :
  (exists params,
      web_search_params
        (JObj [("query", JStr "rust"); ("safesearch", JNum 2)]) (JStr "rust")
      = Ret params
      /\ dict_get (sent_params params) "safesearch" = Some (JNum 2))
  /\ (exists params,
        images_search_params
          (JObj [("query", JStr "rust"); ("safesearch", JNum 2)]) (JStr "rust")
        = Ret params
        /\ dict_get (sent_params params) "safesearch" = Some (JNum 2)).
Proof.
  apply (safesearch_passed_through
           [("query", JStr "rust"); ("safesearch", JNum 2)] (JStr "rust") (JNum 2)).
  - reflexivity.
  - discriminate.
Defined.

Lemma fetch_page_never_flags_error_witness :
  exists content,
    execute_tool default_config unreachable unreachable Ret exn_name no_repr
      (JStr "fetch_page_content") (JObj [("url", JStr "http://example.org/")])
    = Ret (text_envelope
             ("## Conteúdo de: " +:+ py_str no_repr (JStr "http://example.org/")
              +:+ LF +:+ LF +:+ content) false)
    /\ content
       = _fetch_url unreachable Ret exn_name (JStr "http://example.org/")
           (default (JNum 20000)
              (dict_get [("url", JStr "http://example.org/")] "max_length")).
Proof.
  apply (fetch_page_never_flags_error default_config unreachable unreachable Ret
           exn_name no_repr [("url", JStr "http://example.org/")]
           (JStr "http://example.org/")); reflexivity.
Defined.

Lemma delivery_is_fifo_witness :
  delivered "s1"
    (run default_config unreachable unreachable Ret exn_name no_repr
       {| _sse_sessions := two_sessions; written := []; in_flight := [] |}
       (replicate 2 (SseTurn "s1" Done Done Done)))
  = delivered "s1" {| _sse_sessions := two_sessions; written := []; in_flight := [] |}
    ++ take 2 [JNum 1; JNum 2; JNum 3]
  /\ _sse_sessions
       (run default_config unreachable unreachable Ret exn_name no_repr
          {| _sse_sessions := two_sessions; written := []; in_flight := [] |}
          (replicate 2 (SseTurn "s1" Done Done Done))) !! "s1"
     = Some (drop 2 [JNum 1; JNum 2; JNum 3]).
Proof.
  apply (delivery_is_fifo default_config unreachable unreachable Ret exn_name no_repr
           "s1" 2 {| _sse_sessions := two_sessions; written := []; in_flight := [] |}
           [JNum 1; JNum 2; JNum 3]).
  - vm_compute. reflexivity.
  - simpl. lia.
Defined.

Lemma responses_delivered_in_order_witness :
  delivered "s1"
    (run default_config unreachable unreachable Ret exn_name no_repr
       (fst (messages_resume {| susp_session := "s1"; susp_result := Ret (JNum 11) |}
               (fst (messages_resume
                       {| susp_session := "s1"; susp_result := Ret (JNum 10) |}
                       {| _sse_sessions := two_sessions; written := [];
                          in_flight := [] |}))))
       (replicate (length [JNum 1; JNum 2; JNum 3] + 2) (SseTurn "s1" Done Done Done)))
  = delivered "s1" {| _sse_sessions := two_sessions; written := []; in_flight := [] |}
    ++ [JNum 1; JNum 2; JNum 3] ++ [JNum 10; JNum 11].
Proof.
  apply (responses_delivered_in_order default_config unreachable unreachable Ret
           exn_name no_repr "s1"
           {| _sse_sessions := two_sessions; written := []; in_flight := [] |}
           [JNum 1; JNum 2; JNum 3]
           {| susp_session := "s1"; susp_result := Ret (JNum 10) |}
           {| susp_session := "s1"; susp_result := Ret (JNum 11) |}
           (JNum 10) (JNum 11));
    reflexivity.
Defined.

Lemma other_sessions_untouched_witness :
  _sse_sessions
    (fst (sse_turn "s1" Done (Raised ConnectionResetError) Done
            {| _sse_sessions := two_sessions; written := []; in_flight := [] |}))
    !! "s2"
  = _sse_sessions {| _sse_sessions := two_sessions; written := []; in_flight := [] |}
      !! "s2"
  /\ delivered "s2"
       (fst (sse_turn "s1" Done (Raised ConnectionResetError) Done
               {| _sse_sessions := two_sessions; written := []; in_flight := [] |}))
     = delivered "s2"
         {| _sse_sessions := two_sessions; written := []; in_flight := [] |}.
Proof.
  apply (other_sessions_untouched "s2" "s1" Done (Raised ConnectionResetError) Done
           {| _sse_sessions := two_sessions; written := []; in_flight := [] |}).
  discriminate.
Defined.

Lemma submitted_response_delivered_witness :
  exists response,
    handle_jsonrpc default_config unreachable unreachable Ret exn_name no_repr
      "uuid-1" (JObj [("id", JNum 7); ("method", JStr "resources/list")])
    = Ret response
    /\ snd (step default_config unreachable unreachable Ret exn_name no_repr
              (run default_config unreachable unreachable Ret exn_name no_repr
                 initial_state
                 [SseConnect "s1" Done;
                  PostMessages "s1"
                    (Ret (JObj [("id", JNum 7); ("method", JStr "resources/list")]))
                    "uuid-1"])
              (Resume (length (in_flight initial_state))))
       = Some accepted_reply
    /\ delivered "s1"
         (run default_config unreachable unreachable Ret exn_name no_repr
            initial_state
            [SseConnect "s1" Done;
             PostMessages "s1"
               (Ret (JObj [("id", JNum 7); ("method", JStr "resources/list")]))
               "uuid-1";
             Resume (length (in_flight initial_state));
             SseTurn "s1" Done Done Done])
       = delivered "s1" initial_state ++ [response].
Proof.
  eexists. split; [reflexivity|].
  apply (submitted_response_delivered default_config unreachable unreachable Ret
           exn_name no_repr "s1"
           (JObj [("id", JNum 7); ("method", JStr "resources/list")]) _ "uuid-1"
           initial_state).
  - discriminate.
  - reflexivity.
Defined.

Lemma subsections_numbered_witness :
  exists o block,
    search_outline no_repr
      (JObj [("results", JArr [JObj [("title", JStr "a")]; JObj [("title", JStr "b")]])])
      (JNum 5) (JStr "rust") false
    = Ret o
    /\ subsections o !! 1%nat = Some block
    /\ exists line rest,
         block = line :: rest
         /\ String.prefix ("### " +:+ dec (Z.of_nat 1 + 1) +:+ ". ") line = true.
Proof.
  eexists _, _. split; [vm_compute; reflexivity|]. split; [reflexivity|].
  eapply (subsections_numbered no_repr
            (JObj [("results",
                    JArr [JObj [("title", JStr "a")]; JObj [("title", JStr "b")]])])
            (JNum 5) (JStr "rust") false _ 1).
  - left. vm_compute. reflexivity.
  - reflexivity.
Defined.

Lemma formatters_return_the_slice_witness :
  (exists o,
      search_outline no_repr
        (JObj [("results", JArr [JObj [("title", JStr "a")]; JObj []; JObj []]);
               ("number_of_results", JNum 1200)])
        (JNum 2) (JStr "rust") true
      = Ret o
      /\ length (subsections o)
         = length
             (slice_to
                (results_of
                   [("results", JArr [JObj [("title", JStr "a")]; JObj []; JObj []]);
                    ("number_of_results", JNum 1200)]) 2))
  /\ (exists o,
        image_outline no_repr
          (JObj [("results", JArr [JObj [("title", JStr "a")]; JObj []; JObj []]);
                 ("number_of_results", JNum 1200)])
          (JNum 2) (JStr "rust")
        = Ret o
        /\ length (subsections o)
           = length
               (slice_to
                  (results_of
                     [("results", JArr [JObj [("title", JStr "a")]; JObj []; JObj []]);
                      ("number_of_results", JNum 1200)]) 2)).
Proof.
  apply (formatters_return_the_slice no_repr
           [("results", JArr [JObj [("title", JStr "a")]; JObj []; JObj []]);
            ("number_of_results", JNum 1200)]
           (JStr "rust") 2 true).
  reflexivity.
Defined.

Lemma no_result_is_said_witness :
  exists o,
    search_outline no_repr (JObj [("results", JArr []); ("suggestions", JArr [JStr "rest"])])
      (JNum 10) (JStr "rust") false
    = Ret o
    /\ last (heading o) = Some ("Nenhum resultado encontrado." +:+ LF).
Proof.
  eexists. split; [vm_compute; reflexivity|].
  eapply (no_result_is_said no_repr
            (JObj [("results", JArr []); ("suggestions", JArr [JStr "rest"])])
            (JNum 10) (JStr "rust") false).
  - vm_compute. reflexivity.
  - reflexivity.
Defined.

Lemma read_message_consumes_witness :
  (String.length (write_message scalar_dumps (JNum 2026))
   < String.length (write_message scalar_dumps (JObj [])
                    +:+ write_message scalar_dumps (JNum 2026)))%nat.
Proof.
  apply (read_message_consumes scalar_loads
           (write_message scalar_dumps (JObj [])
            +:+ write_message scalar_dumps (JNum 2026))
           (write_message scalar_dumps (JNum 2026)) (JObj [])).
  vm_compute. reflexivity.
Defined.

Lemma incomplete_body_raises_witness :
  read_message scalar_loads
    ("Content-Length: " +:+ digits 10 +:+ CR +:+ LF +:+ CR +:+ LF +:+ "{}")
  = (Raise IncompleteReadError, EmptyString).
Proof.
  apply (incomplete_body_raises scalar_loads 10 "{}").
  - vm_compute. reflexivity.
  - simpl. lia.
Defined.

Lemma header_block_accepted_witness :
  read_message scalar_loads
    (header_lines [("Content-Type", "application/json"); ("X-Trace", "a b")]
     +:+ "CONTENT-length" +:+ ": " +:+ digits (Z.of_nat (String.length "{}"))
     +:+ CR +:+ LF +:+ CR +:+ LF +:+ "{}" +:+ "next")
  = (Ret (Some (JObj [])), "next").
Proof.
  apply (header_block_accepted scalar_loads
           [("Content-Type", "application/json"); ("X-Trace", "a b")]
           "CONTENT-length" "{}" "next" (JObj []));
    try reflexivity; try (vm_compute; reflexivity).
  discriminate.
Defined.

Lemma no_content_length_ends_session_witness :
  read_message scalar_loads
    (header_lines [("Content-Type", "application/json")] +:+ CR +:+ LF +:+ "{}")
  = (Ret None, "{}").
Proof.
  apply (no_content_length_ends_session scalar_loads
           [("Content-Type", "application/json")] "{}"); reflexivity.
Defined.

Lemma main_answers_in_order_witness :
  exists r1 r2,
    dispatched default_config unreachable unreachable Ret exn_name no_repr
      (fun _ => "uuid") 0 [JObj []; JObj []] [r1; r2]
    /\ main default_config unreachable unreachable Ret exn_name no_repr
         scalar_dumps scalar_loads (fun _ => "uuid")
         (frames scalar_dumps [JObj []; JObj []])
       = (frames scalar_dumps [r1; r2], Finished).
Proof.
  eexists _, _.
  assert (H : forall a b : Prop, a -> (a -> b) -> a /\ b) by tauto.
  apply H; [cbn [dispatched]; repeat split; reflexivity|]. intros Hd.
  apply (main_answers_in_order default_config unreachable unreachable Ret exn_name
           no_repr scalar_dumps scalar_loads (fun _ => "uuid") [JObj []; JObj []] _).
  - apply List.Forall_cons; [split; [reflexivity|discriminate]|].
    apply List.Forall_cons; [split; [reflexivity|discriminate]|apply List.Forall_nil].
  - exact Hd.
Defined.

Lemma main_stops_at_exception_witness :
  exists r,
    dispatched default_config unreachable unreachable Ret exn_name no_repr
      (fun _ => "uuid") 0 [JObj []] [r]
    /\ main default_config unreachable unreachable Ret exn_name no_repr
         scalar_dumps scalar_loads (fun _ => "uuid")
         (frames scalar_dumps ([JObj []] ++ JNum 7 :: [JObj []]))
       = (frames scalar_dumps [r], Failed AttributeError).
Proof.
  eexists.
  assert (H : forall a b : Prop, a -> (a -> b) -> a /\ b) by tauto.
  apply H; [cbn [dispatched]; repeat split; reflexivity|]. intros Hd.
  apply (main_stops_at_exception default_config unreachable unreachable Ret exn_name
           no_repr scalar_dumps scalar_loads (fun _ => "uuid") [JObj []] [JObj []]
           (JNum 7) _ AttributeError).
  - apply List.Forall_cons; [split; [reflexivity|discriminate]|apply List.Forall_nil].
  - split; [reflexivity|discriminate].
  - discriminate.
  - exact Hd.
  - reflexivity.
Defined.

Lemma main_stops_at_null_witness :
  exists r,
    dispatched default_config unreachable unreachable Ret exn_name no_repr
      (fun _ => "uuid") 0 [JObj []] [r]
    /\ main default_config unreachable unreachable Ret exn_name no_repr
         scalar_dumps scalar_loads (fun _ => "uuid")
         (frames scalar_dumps ([JObj []] ++ JNull :: [JObj []]))
       = (frames scalar_dumps [r], Finished).
Proof.
  eexists.
  assert (H : forall a b : Prop, a -> (a -> b) -> a /\ b) by tauto.
  apply H; [cbn [dispatched]; repeat split; reflexivity|]. intros Hd.
  apply (main_stops_at_null default_config unreachable unreachable Ret exn_name
           no_repr scalar_dumps scalar_loads (fun _ => "uuid") [JObj []] [JObj []] _).
  - apply List.Forall_cons; [split; [reflexivity|discriminate]|apply List.Forall_nil].
  - split; [reflexivity|discriminate].
  - exact Hd.
Defined.

Lemma fetched_content_bounded_witness :
  py_len (_fetch_url (site_serving "text/html; charset=utf-8" "<p>olá, mundo</p>")
            Ret exn_name (JStr "http://example.org/") (JNum 5))
  <= 5 + py_len truncation_marker.
Proof.
  apply (fetched_content_bounded
           (site_serving "text/html; charset=utf-8" "<p>olá, mundo</p>") Ret exn_name
           (JStr "http://example.org/")
           {| resp_status := 200;
              resp_content_type := Some "text/html; charset=utf-8";
              resp_text := inr "<p>olá, mundo</p>";
              resp_json := inl (HttpException JSONDecodeError) |}
           "<p>olá, mundo</p>" "<p>olá, mundo</p>" 5);
    try reflexivity.
  lia.
Defined.
